(** * YaMDb review API: models, permissions, views and their properties

    A shallow embedding of [reviews/models.py] and [api/views.py].
    Tables are lists of rows, requests are pure functions from a world
    (database, mail outbox, issued tokens) to an outcome and a new world,
    and exceptions of the framework are the error side of a small result
    monad. *)

From Stdlib Require Import List String Bool Arith ZArith QArith Qabs Lia.
Import ListNotations.

Close Scope Q_scope.
Open Scope string_scope.

(** ** api_yamdb/settings.py *)

Module Settings.

Definition MODERATOR : string := "moderator".
Definition USER : string := "user".
Definition ADMIN : string := "admin".

Definition USER_ROLE_CHOICES : list (string * string) :=
  [ (MODERATOR, "модератор"); (USER, "пользователь"); (ADMIN, "админ") ].

Definition CONFIRMATION_CODE_MAX_LENGHT : nat := 255.

End Settings.

(** ** Exceptions and the result monad

    A view either returns a value or raises.  [status_of_exn] is the status
    the framework's exception handler answers with; exceptions it does not
    know ([IntegrityError], [TypeError] and the like) end as a 500. *)

Inductive Exn : Type :=
| Http404
| ValidationError
| NotAuthenticated
| PermissionDenied
| MethodNotAllowed
| IntegrityError (constraint : string)
| MultipleObjectsReturned
| TypeError
| ValueError
| AssertionError
| AttributeError.

Inductive Result (A : Type) : Type :=
| Ok (a : A)
| Raise (e : Exn).

Arguments Ok {A} a.
Arguments Raise {A} e.

Definition bind {A B : Type} (r : Result A) (k : A -> Result B) : Result B :=
  match r with
  | Ok a => k a
  | Raise e => Raise e
  end.

Declare Scope result_scope.
Delimit Scope result_scope with result.
Notation "x <- c ;; k" := (bind c (fun x => k))
  (at level 61, c at next level, right associativity) : result_scope.

Definition status_of_exn (e : Exn) : nat :=
  match e with
  | Http404 => 404
  | ValidationError => 400
  | NotAuthenticated => 401
  | PermissionDenied => 403
  | MethodNotAllowed => 405
  | IntegrityError _ => 500
  | MultipleObjectsReturned => 500
  | TypeError => 500
  | ValueError => 500
  | AssertionError => 500
  | AttributeError => 500
  end.

(** ** reviews/models.py *)

Module Models.

Record User : Type := mkUser
  { user_id : nat;
    username : string;
    email : string;
    role : string;
    is_superuser : bool;
    is_staff : bool;
    first_name : string;
    last_name : string;
    bio : string;
    confirmation_code : string }.

(** [User.confirmation_code] is declared with this default. *)
Definition confirmation_code_default : string := "not defined yet".

(** The row [User.objects.create(username=..., email=...)] inserts: every
    other column takes its declared default. *)
Definition new_user (pk : nat) (u e : string) : User :=
  {| user_id := pk;
     username := u;
     email := e;
     role := Settings.USER;
     is_superuser := false;
     is_staff := false;
     first_name := EmptyString;
     last_name := EmptyString;
     bio := EmptyString;
     confirmation_code := confirmation_code_default |}.

Definition is_admin (self : User) : bool :=
  (role self =? Settings.ADMIN) || is_superuser self || is_staff self.

Definition is_moderator (self : User) : bool :=
  role self =? Settings.MODERATOR.

(** [Category] and [Genre] share the fields of the abstract [NameSlug]. *)
Record NameSlug : Type := mkNameSlug
  { ns_id : nat;
    name : string;
    slug : string }.

Definition Category : Type := NameSlug.
Definition Genre : Type := NameSlug.

Record Title : Type := mkTitle
  { title_id : nat;
    title_name : string;
    year : nat;
    description : option string;
    category : option nat }.

Record GenreTitle : Type := mkGenreTitle
  { gt_id : nat;
    gt_genre : nat;
    gt_title : nat }.

Record Review : Type := mkReview
  { review_id : nat;
    review_author : nat;
    review_text : string;
    review_pub_date : nat;
    review_title : nat;
    score : Z }.

Record Comment : Type := mkComment
  { comment_id : nat;
    comment_author : nat;
    comment_text : string;
    comment_pub_date : nat;
    comment_review : nat }.

(** What a foreign key does with the referring rows when the row it
    points to is deleted. *)
Inductive OnDelete : Type := CASCADE | SET_NULL.

Definition Title_category_on_delete : OnDelete := SET_NULL.
Definition GenreTitle_genre_on_delete : OnDelete := CASCADE.
Definition GenreTitle_title_on_delete : OnDelete := CASCADE.
Definition Review_title_on_delete : OnDelete := CASCADE.
Definition Review_author_on_delete : OnDelete := CASCADE.
Definition Comment_review_on_delete : OnDelete := CASCADE.

(** The validators declared on [Review.score], in their order. *)
Inductive Validator : Type :=
| MaxValueValidator (limit : Z) (message : string)
| MinValueValidator (limit : Z) (message : string).

Definition Review_score_validators : list Validator :=
  [ MaxValueValidator 10 "Оценка не должна больше 10.";
    MinValueValidator 1 "Оценка не должна меньше 1." ].

(** A validator raises when its [compare] holds: value above the limit
    for the maximum, below it for the minimum. *)
Definition validator_passes (v : Validator) (value : Z) : bool :=
  match v with
  | MaxValueValidator limit _ => negb (limit <? value)%Z
  | MinValueValidator limit _ => negb (value <? limit)%Z
  end.

Definition run_validators (vs : list Validator) (value : Z) : bool :=
  forallb (fun v => validator_passes v value) vs.

End Models.

(** ** The persistence layer

    One list of rows per table, in insertion order, and the next primary key
    of the tables the views insert into. *)

Module ORM.
Import Models.

Record DB : Type := mkDB
  { users : list User;
    seq_user : nat;
    categories : list Category;
    genres : list Genre;
    titles : list Title;
    genre_titles : list GenreTitle;
    reviews : list Review;
    seq_review : nat;
    comments : list Comment;
    seq_comment : nat }.

Definition set_users (us : list User) (n : nat) (d : DB) : DB :=
  mkDB us n (categories d) (genres d) (titles d) (genre_titles d)
       (reviews d) (seq_review d) (comments d) (seq_comment d).

Definition set_categories (cs : list Category) (d : DB) : DB :=
  mkDB (users d) (seq_user d) cs (genres d) (titles d) (genre_titles d)
       (reviews d) (seq_review d) (comments d) (seq_comment d).

Definition set_titles (ts : list Title) (d : DB) : DB :=
  mkDB (users d) (seq_user d) (categories d) (genres d) ts (genre_titles d)
       (reviews d) (seq_review d) (comments d) (seq_comment d).

Definition set_genre_titles (gts : list GenreTitle) (d : DB) : DB :=
  mkDB (users d) (seq_user d) (categories d) (genres d) (titles d) gts
       (reviews d) (seq_review d) (comments d) (seq_comment d).

Definition set_reviews (rs : list Review) (n : nat) (d : DB) : DB :=
  mkDB (users d) (seq_user d) (categories d) (genres d) (titles d)
       (genre_titles d) rs n (comments d) (seq_comment d).

Definition set_comments (cs : list Comment) (n : nat) (d : DB) : DB :=
  mkDB (users d) (seq_user d) (categories d) (genres d) (titles d)
       (genre_titles d) (reviews d) (seq_review d) cs n.

Definition empty_db : DB := mkDB [] 1 [] [] [] [] [] 1 [] 1.

(** [Model.objects.get]: exactly one matching row, or an exception. *)
Inductive GetError : Type := DoesNotExist | MultipleObjects.

Definition objects_get {A : Type} (rows : list A) (lookup : A -> bool)
  : A + GetError :=
  match filter lookup rows with
  | [] => inr DoesNotExist
  | [x] => inl x
  | _ :: _ :: _ => inr MultipleObjects
  end.

(** [django.shortcuts.get_object_or_404]: a missing row becomes [Http404],
    several matching rows are not caught. *)
Definition get_object_or_404 {A : Type} (rows : list A) (lookup : A -> bool)
  : Result A :=
  match objects_get rows lookup with
  | inl x => Ok x
  | inr DoesNotExist => Raise Http404
  | inr MultipleObjects => Raise MultipleObjectsReturned
  end.

(** [User.objects.create]: [username] and [email] are each [unique=True]. *)
Definition User_objects_create (u e : string) (d : DB) : Result User * DB :=
  if existsb (fun x => username x =? u) (users d) then
    (Raise (IntegrityError "reviews_user.username"), d)
  else if existsb (fun x => email x =? e) (users d) then
    (Raise (IntegrityError "reviews_user.email"), d)
  else
    let x := new_user (seq_user d) u e in
    (Ok x, set_users (users d ++ [x]) (S (seq_user d)) d).

(** [User.objects.get_or_create(username=u, email=e)]: the row matching
    both, else a freshly created one; the flag tells which. *)
Definition get_or_create (u e : string) (d : DB)
  : Result (User * bool) * DB :=
  match objects_get (users d)
                    (fun x => (username x =? u) && (email x =? e)) with
  | inl x => (Ok (x, false), d)
  | inr MultipleObjects => (Raise MultipleObjectsReturned, d)
  | inr DoesNotExist =>
      match User_objects_create u e d with
      | (Ok x, d') => (Ok (x, true), d')
      | (Raise ex, d') => (Raise ex, d')
      end
  end.

(** [Review.Meta.constraints]: the fields of [unique_author_review]. *)
Definition unique_author_review (r1 r2 : Review) : bool :=
  (review_title r1 =? review_title r2)%nat
  && (review_author r1 =? review_author r2)%nat.

(** [Review.objects.create]: the insert is refused when a stored row has
    the same (title, author); [pub_date] is [auto_now_add]. *)
Definition Review_objects_create
    (now author title : nat) (text : string) (sc : Z) (d : DB)
  : Result Review * DB :=
  let r := mkReview (seq_review d) author text now title sc in
  if existsb (unique_author_review r) (reviews d) then
    (Raise (IntegrityError "unique_author_review"), d)
  else
    (Ok r, set_reviews (reviews d ++ [r]) (S (seq_review d)) d).

(** [instance.save()] of an existing review: the row with that primary
    key is rewritten, under the same constraint against the other rows. *)
Definition Review_save (r : Review) (d : DB) : Result Review * DB :=
  if existsb (fun x => negb (review_id x =? review_id r)%nat
                       && unique_author_review r x) (reviews d) then
    (Raise (IntegrityError "unique_author_review"), d)
  else
    (Ok r,
     set_reviews
       (map (fun x => if (review_id x =? review_id r)%nat then r else x)
            (reviews d))
       (seq_review d) d).

Definition Comment_objects_create
    (now author review : nat) (text : string) (d : DB)
  : Result Comment * DB :=
  let c := mkComment (seq_comment d) author text now review in
  (Ok c, set_comments (comments d ++ [c]) (S (seq_comment d)) d).

(** *** Deletion

    Django's collector walks the foreign keys that point at the deleted
    rows and applies each key's [on_delete]. *)

Definition delete_reviews_where (gone : Review -> bool) (d : DB) : DB :=
  let dead := filter gone (reviews d) in
  let orphan (c : Comment) :=
    existsb (fun r => (review_id r =? comment_review c)%nat) dead in
  let d1 :=
    match Comment_review_on_delete with
    | CASCADE =>
        set_comments (filter (fun c => negb (orphan c)) (comments d))
                     (seq_comment d) d
    | SET_NULL => d
    end in
  set_reviews (filter (fun r => negb (gone r)) (reviews d1))
              (seq_review d1) d1.

Definition delete_titles_where (gone : Title -> bool) (d : DB) : DB :=
  let dead := filter gone (titles d) in
  let of_dead (k : nat) := existsb (fun t => (title_id t =? k)%nat) dead in
  let d1 :=
    match Review_title_on_delete with
    | CASCADE => delete_reviews_where (fun r => of_dead (review_title r)) d
    | SET_NULL => d
    end in
  let d2 :=
    match GenreTitle_title_on_delete with
    | CASCADE =>
        set_genre_titles
          (filter (fun gt => negb (of_dead (gt_title gt))) (genre_titles d1))
          d1
    | SET_NULL => d1
    end in
  set_titles (filter (fun t => negb (gone t)) (titles d2)) d2.

Definition in_category (c : Category) (t : Title) : bool :=
  match category t with
  | Some k => (k =? ns_id c)%nat
  | None => false
  end.

Definition clear_category (t : Title) : Title :=
  mkTitle (title_id t) (title_name t) (year t) (description t) None.

(** [category.delete()]. *)
Definition Category_delete (c : Category) (d : DB) : DB :=
  let d1 :=
    match Title_category_on_delete with
    | SET_NULL =>
        set_titles
          (map (fun t => if in_category c t then clear_category t else t)
               (titles d))
          d
    | CASCADE => delete_titles_where (in_category c) d
    end in
  set_categories
    (filter (fun x => negb (ns_id x =? ns_id c)%nat) (categories d1)) d1.

End ORM.

(** ** Requests and responses *)

Module Http.
Import Models.

Inductive Method : Type := GET | HEAD | OPTIONS | POST | PUT | PATCH | DELETE.

Definition Method_eqb (a b : Method) : bool :=
  match a, b with
  | GET, GET | HEAD, HEAD | OPTIONS, OPTIONS | POST, POST
  | PUT, PUT | PATCH, PATCH | DELETE, DELETE => true
  | _, _ => false
  end.

(** [rest_framework.permissions.SAFE_METHODS]. *)
Definition SAFE_METHODS : list Method := [GET; HEAD; OPTIONS].

Definition is_safe (m : Method) : bool := existsb (Method_eqb m) SAFE_METHODS.

(** A JSON object of strings: the body of the two auth endpoints. *)
Definition Data : Type := list (string * string).

Fixpoint data_get (k : string) (d : Data) : option string :=
  match d with
  | [] => None
  | (k', v) :: rest => if k' =? k then Some v else data_get k rest
  end.

Inductive Body : Type :=
| BEmpty
| BText (s : string)
| BDict (d : Data)
| BReview (r : Review)
| BReviews (rs : list Review)
| BComment (c : Comment)
| BComments (cs : list Comment)
| BCategories (cs : list Category).

Record Response : Type := mkResponse
  { status : nat;
    body : Body }.

(** The status the client sees, whether the view returned or raised. *)
Definition http_status (r : Result Response) : nat :=
  match r with
  | Ok resp => status resp
  | Raise e => status_of_exn e
  end.

Definition body_get (k : string) (r : Result Response) : option string :=
  match r with
  | Ok (mkResponse _ (BDict d)) => data_get k d
  | _ => None
  end.

Definition body_size (r : Result Response) : nat :=
  match r with
  | Ok (mkResponse _ (BDict d)) => List.length d
  | _ => 0
  end.

End Http.

(** ** Permissions

    The request user is [None] for [AnonymousUser].  A permission class
    answers at the level of the view and at the level of one object; the
    base class answers [True] at both. *)

Module Permissions.
Import Models Http.

Record BasePermission : Type := mkPermission
  { has_permission : Method -> option User -> bool;
    has_object_permission : Method -> option User -> option nat -> bool }.

Definition is_authenticated (user : option User) : bool :=
  match user with
  | Some _ => true
  | None => false
  end.

Definition actor_is_admin (user : option User) : bool :=
  match user with
  | Some u => is_admin u
  | None => false
  end.

Definition actor_is_moderator (user : option User) : bool :=
  match user with
  | Some u => is_moderator u
  | None => false
  end.

Definition actor_is_author (user : option User) (author : option nat) : bool :=
  match user, author with
  | Some u, Some a => (user_id u =? a)%nat
  | _, _ => false
  end.

(** [rest_framework.permissions.IsAuthenticatedOrReadOnly]. *)
Definition IsAuthenticatedOrReadOnly : BasePermission :=
  {| has_permission := fun m user => is_safe m || is_authenticated user;
     has_object_permission := fun _ _ _ => true |}.

(** Modelled from the spec: [IsAdminOrReadOnly] of api/permissions.py,
    which is not among the sources.  Reads are open; a write on
    categories, genres and titles needs an authenticated actor with
    [is_admin]. *)
Definition IsAdminOrReadOnly : BasePermission :=
  {| has_permission :=
       fun m user => is_safe m || (is_authenticated user && actor_is_admin user);
     has_object_permission := fun _ _ _ => true |}.

(** Modelled from the spec: [IsAuthorOrModeratorOrReadOnly] of
    api/permissions.py, which is not among the sources.  On one review or
    comment an unsafe action needs
    [actor.is_admin OR actor.is_moderator OR actor.id == resource.author_id]. *)
Definition IsAuthorOrModeratorOrReadOnly : BasePermission :=
  {| has_permission := fun _ _ => true;
     has_object_permission :=
       fun m user author =>
         is_safe m
         || actor_is_admin user
         || actor_is_moderator user
         || actor_is_author user author |}.

(** [APIView.check_permissions] and [check_object_permissions]: every
    class of [permission_classes] has to agree. *)
Definition check_permissions
    (classes : list BasePermission) (m : Method) (user : option User) : bool :=
  forallb (fun p => has_permission p m user) classes.

Definition check_object_permissions
    (classes : list BasePermission) (m : Method) (user : option User)
    (author : option nat) : bool :=
  forallb (fun p => has_object_permission p m user author) classes.

(** [APIView.permission_denied]: with an authenticator configured
    ([JWTAuthentication] in settings.py) a request that carried no valid
    credentials is told to authenticate, any other is forbidden. *)
Definition permission_denied (user : option User) : Exn :=
  if is_authenticated user then PermissionDenied else NotAuthenticated.

(** [APIView.initial], as far as permissions go. *)
Definition initial
    (classes : list BasePermission) (m : Method) (user : option User)
  : Result unit :=
  if check_permissions classes m user then Ok tt
  else Raise (permission_denied user).

(** *** The decision per resource *)

Inductive Kind : Type := KCategory | KGenre | KTitle | KReview | KComment.

Inductive Action : Type :=
| List | Create | Retrieve | Update | PartialUpdate | Destroy.

(** The router's mapping of verbs to actions, read backwards. *)
Definition method_of (a : Action) : Method :=
  match a with
  | List | Retrieve => GET
  | Create => POST
  | Update => PUT
  | PartialUpdate => PATCH
  | Destroy => DELETE
  end.

(** Actions on one object go through [get_object], which checks the
    object-level permissions. *)
Definition is_detail (a : Action) : bool :=
  match a with
  | List | Create => false
  | Retrieve | Update | PartialUpdate | Destroy => true
  end.

(** [permission_classes] of the viewsets of api/views.py. *)
Definition permission_classes (k : Kind) : list BasePermission :=
  match k with
  | KCategory => [IsAdminOrReadOnly]
  | KGenre => [IsAdminOrReadOnly]
  | KTitle => [IsAdminOrReadOnly]
  | KReview => [IsAuthenticatedOrReadOnly; IsAuthorOrModeratorOrReadOnly]
  | KComment => [IsAuthenticatedOrReadOnly; IsAuthorOrModeratorOrReadOnly]
  end.

Record Resource : Type := mkResource
  { kind : Kind;
    author_id : option nat }.

(** The spec's [canPerform], as the framework decides it for a viewset:
    the view-level check of every class of [permission_classes], and for an
    action on one object the object-level check as well. *)
Definition canPerform (actor : option User) (a : Action) (r : Resource) : bool :=
  check_permissions (permission_classes (kind r)) (method_of a) actor
  && (if is_detail a
      then check_object_permissions (permission_classes (kind r))
                                    (method_of a) actor (author_id r)
      else true).

(** The decision as the framework words it: a denial is raised through
    [permission_denied], at the view level as at the object level. *)
Definition authorize (actor : option User) (a : Action) (r : Resource)
  : Result unit :=
  if canPerform actor a r then Ok tt else Raise (permission_denied actor).

End Permissions.

(** ** api/views.py: registration and token exchange *)

Module AuthViews.
Import Models ORM Http.

Record EmailMessage : Type := mkEmail
  { subject : string;
    message : string;
    from_email : option string;
    to : list string }.

(** What [RefreshToken.for_user] hands back, as far as the view uses it. *)
Record RefreshToken : Type := mkRefreshToken
  { token_user : nat;
    access_token : string }.

(** The database, the mail that left and the tokens that were issued. *)
Record World : Type := mkWorld
  { db : DB;
    outbox : list EmailMessage;
    issued : list RefreshToken }.

Definition set_db (d : DB) (w : World) : World :=
  mkWorld d (outbox w) (issued w).

(** The in-memory assignment [signed_user.confirmation_code = ...]: a new
    value of the Python object, the table row is another matter. *)
Definition assign_confirmation_code (code : string) (u : User) : User :=
  mkUser (user_id u) (username u) (email u) (role u)
         (is_superuser u) (is_staff u) (first_name u) (last_name u) (bio u) code.

Section Collaborators.

(** [settings.EMAIL_HOST_USER], read from the environment. *)
Variable EMAIL_HOST_USER : option string.

(** [default_token_generator.make_token] at a given time. *)
Variable make_token : nat -> User -> string.

(** [RefreshToken.for_user] at a given time. *)
Variable for_user : nat -> User -> RefreshToken.

(** The serializers of api/serializers.py are not among the sources:
    [is_valid] yields the validated (username, email), respectively
    (username, confirmation_code), or fails; [data] is what the
    registration serializer echoes. *)
Variable RegistrationSerializer_is_valid : DB -> Data -> option (string * string).
Variable RegistrationSerializer_data : Data -> Data.
Variable TokenConfirmationSerializer_is_valid : DB -> Data -> option (string * string).

(** [UserCreation.send_participation_code]. *)
Definition send_participation_code
    (subject_ message_ to_email : string) (w : World) : World :=
  mkWorld (db w)
          (outbox w ++ [mkEmail subject_ message_ EMAIL_HOST_USER [to_email]])
          (issued w).

(** [UserCreation.token_generator]. *)
Definition token_generator (now : nat) (signed_user : User) : string :=
  make_token now signed_user.

(** The body of [UserCreation.post] once the serializer has accepted
    the request: the user it worked on, the response and the world
    after.  The generated code reaches the local object and the mail;
    nothing saves the object. *)
Definition UserCreation_signup
    (now : nat) (request_data : Data) (u e : string) (w : World)
  : Result (User * Response) * World :=
  match get_or_create u e (db w) with
  | (Raise ex, d) => (Raise ex, set_db d w)
  | (Ok (signed_user, created), d) =>
      let signed_user :=
        assign_confirmation_code (token_generator now signed_user)
                                 signed_user in
      let w' :=
        send_participation_code
          ("Код подтверждения для " ++ username signed_user)
          (confirmation_code signed_user)
          (email signed_user)
          (set_db d w) in
      (Ok (signed_user,
           mkResponse 200 (BDict (RegistrationSerializer_data request_data))),
       w')
  end.

(** [UserCreation.post]. *)
Definition UserCreation_post
    (now : nat) (request_data : Data) (w : World)
  : Result Response * World :=
  match RegistrationSerializer_is_valid (db w) request_data with
  | None => (Raise ValidationError, w)
  | Some (u, e) =>
      match UserCreation_signup now request_data u e w with
      | (Ok (_, resp), w') => (Ok resp, w')
      | (Raise ex, w') => (Raise ex, w')
      end
  end.

(** The body of [JWTTokenConfirmation.post] on validated data. *)
Definition JWTTokenConfirmation_confirm
    (now : nat) (u code : string) (w : World)
  : Result Response * World :=
  match get_object_or_404 (users (db w)) (fun x => username x =? u) with
  | Raise ex => (Raise ex, w)
  | Ok current_user =>
      if code =? confirmation_code current_user then
        let refreshed_token := for_user now current_user in
        (Ok (mkResponse 201
               (BDict [("JWT-Код", access_token refreshed_token)])),
         mkWorld (db w) (outbox w) (issued w ++ [refreshed_token]))
      else
        (Ok (mkResponse 400 (BText "Неверный код-подтверждение!")), w)
  end.

(** [JWTTokenConfirmation.post]. *)
Definition JWTTokenConfirmation_post
    (now : nat) (request_data : Data) (w : World)
  : Result Response * World :=
  match TokenConfirmationSerializer_is_valid (db w) request_data with
  | None => (Raise ValidationError, w)
  | Some (u, code) => JWTTokenConfirmation_confirm now u code w
  end.

End Collaborators.

End AuthViews.

(** ** api/views.py: reviews and comments

    The viewsets give [get_queryset] and [perform_create]; the rest of each
    action is the framework's generic view: permissions, then the
    serializer, then the hook. *)

Module ContentViews.
Import Models ORM Http Permissions.

Record ReviewData : Type := mkReviewData
  { p_text : option string;
    p_score : option Z }.

Record CommentData : Type := mkCommentData
  { c_text : option string }.

(** A field that is absent passes only in a partial update. *)
Definition field_ok {A : Type} (partial : bool) (v : option A) (ok : A -> bool)
  : bool :=
  match v with
  | Some a => ok a
  | None => partial
  end.

(** Modelled from the spec: the field validation of [ReviewSerializer]
    (api/serializers.py is not among the sources), a model serializer
    over the [text] and [score] columns of [Review]: [text] may not be
    blank and [score] runs the validators the model declares. *)
Definition ReviewSerializer_fields_valid (partial : bool) (p : ReviewData) : bool :=
  field_ok partial (p_text p) (fun t => negb (t =? EmptyString))
  && field_ok partial (p_score p) (run_validators Review_score_validators).

(** Modelled from the spec: the field validation of [CommentSerializer],
    likewise over the [text] column of [Comment]. *)
Definition CommentSerializer_fields_valid (partial : bool) (p : CommentData) : bool :=
  field_ok partial (c_text p) (fun t => negb (t =? EmptyString)).

Definition or_else {A : Type} (v : option A) (dflt : A) : A :=
  match v with
  | Some a => a
  | None => dflt
  end.

(** [AnonymousUser.username] is the empty string. *)
Definition request_username (user : option User) : string :=
  match user with
  | Some u => username u
  | None => EmptyString
  end.

Inductive ReviewRequest : Type :=
| ReviewList
| ReviewCreate (p : ReviewData)
| ReviewRetrieve (pk : nat)
| ReviewUpdate (pk : nat) (p : ReviewData)
| ReviewPartialUpdate (pk : nat) (p : ReviewData)
| ReviewDestroy (pk : nat).

Inductive CommentRequest : Type :=
| CommentList
| CommentCreate (p : CommentData).

Section ViewSets.

(** Whatever else the absent serializers check in [validate], given the
    verb, the actor, the parent's key and the database. *)
Variable ReviewSerializer_validate :
  Method -> option User -> nat -> DB -> ReviewData -> bool.
Variable CommentSerializer_validate :
  Method -> option User -> nat -> DB -> CommentData -> bool.

(** *** ReviewViewSet *)

Definition ReviewViewSet_permission_classes : list BasePermission :=
  [IsAuthenticatedOrReadOnly; IsAuthorOrModeratorOrReadOnly].

Definition ReviewViewSet_get_queryset (kw_title_id : nat) (d : DB)
  : Result (list Review) :=
  (title <- get_object_or_404 (titles d)
              (fun t => (title_id t =? kw_title_id)%nat) ;;
   Ok (filter (fun r => (review_title r =? title_id title)%nat) (reviews d)))
  %result.

Definition ReviewViewSet_perform_create
    (now : nat) (request_user : option User) (kw_title_id : nat)
    (text : string) (sc : Z) (d : DB)
  : Result Review * DB :=
  match get_object_or_404 (titles d)
          (fun t => (title_id t =? kw_title_id)%nat) with
  | Raise ex => (Raise ex, d)
  | Ok title =>
      match get_object_or_404 (users d)
              (fun x => username x =? request_username request_user) with
      | Raise ex => (Raise ex, d)
      | Ok user =>
          Review_objects_create now (user_id user) (title_id title) text sc d
      end
  end.

Definition ReviewSerializer_is_valid
    (partial : bool) (m : Method) (actor : option User) (kw_title_id : nat)
    (d : DB) (p : ReviewData) : Result ReviewData :=
  if ReviewSerializer_fields_valid partial p
     && ReviewSerializer_validate m actor kw_title_id d p
  then Ok p else Raise ValidationError.

(** [ListModelMixin.list]. *)
Definition ReviewViewSet_list (actor : option User) (kw_title_id : nat) (d : DB)
  : Result Response :=
  (_ <- initial ReviewViewSet_permission_classes GET actor ;;
   qs <- ReviewViewSet_get_queryset kw_title_id d ;;
   Ok (mkResponse 200 (BReviews qs)))%result.

(** [CreateModelMixin.create]. *)
Definition ReviewViewSet_create
    (now : nat) (actor : option User) (kw_title_id : nat) (p : ReviewData)
    (d : DB) : Result Response * DB :=
  match initial ReviewViewSet_permission_classes POST actor with
  | Raise ex => (Raise ex, d)
  | Ok _ =>
      match ReviewSerializer_is_valid false POST actor kw_title_id d p with
      | Raise ex => (Raise ex, d)
      | Ok v =>
          match ReviewViewSet_perform_create now actor kw_title_id
                  (or_else (p_text v) EmptyString) (or_else (p_score v) 0%Z) d with
          | (Raise ex, d') => (Raise ex, d')
          | (Ok r, d') => (Ok (mkResponse 201 (BReview r)), d')
          end
      end
  end.

(** [GenericAPIView.get_object]: the queryset, the row with the primary
    key of the URL, then the object-level permissions. *)
Definition ReviewViewSet_get_object
    (m : Method) (actor : option User) (kw_title_id pk : nat) (d : DB)
  : Result Review :=
  (qs <- ReviewViewSet_get_queryset kw_title_id d ;;
   obj <- get_object_or_404 qs (fun r => (review_id r =? pk)%nat) ;;
   if check_object_permissions ReviewViewSet_permission_classes m actor
        (Some (review_author obj))
   then Ok obj
   else Raise (permission_denied actor))%result.

(** [RetrieveModelMixin.retrieve]. *)
Definition ReviewViewSet_retrieve
    (actor : option User) (kw_title_id pk : nat) (d : DB) : Result Response :=
  (_ <- initial ReviewViewSet_permission_classes GET actor ;;
   obj <- ReviewViewSet_get_object GET actor kw_title_id pk d ;;
   Ok (mkResponse 200 (BReview obj)))%result.

(** What [serializer.save()] writes into an existing review. *)
Definition apply_review_data (v : ReviewData) (r : Review) : Review :=
  mkReview (review_id r) (review_author r)
           (or_else (p_text v) (review_text r))
           (review_pub_date r) (review_title r)
           (or_else (p_score v) (score r)).

(** [UpdateModelMixin.update], and [partial_update] with [partial]. *)
Definition ReviewViewSet_update
    (partial : bool) (actor : option User) (kw_title_id pk : nat)
    (p : ReviewData) (d : DB) : Result Response * DB :=
  let m := if partial then PATCH else PUT in
  match initial ReviewViewSet_permission_classes m actor with
  | Raise ex => (Raise ex, d)
  | Ok _ =>
      match ReviewViewSet_get_object m actor kw_title_id pk d with
      | Raise ex => (Raise ex, d)
      | Ok instance =>
          match ReviewSerializer_is_valid partial m actor kw_title_id d p with
          | Raise ex => (Raise ex, d)
          | Ok v =>
              match Review_save (apply_review_data v instance) d with
              | (Raise ex, d') => (Raise ex, d')
              | (Ok r, d') => (Ok (mkResponse 200 (BReview r)), d')
              end
          end
      end
  end.

(** [DestroyModelMixin.destroy]. *)
Definition ReviewViewSet_destroy
    (actor : option User) (kw_title_id pk : nat) (d : DB)
  : Result Response * DB :=
  match initial ReviewViewSet_permission_classes DELETE actor with
  | Raise ex => (Raise ex, d)
  | Ok _ =>
      match ReviewViewSet_get_object DELETE actor kw_title_id pk d with
      | Raise ex => (Raise ex, d)
      | Ok instance =>
          (Ok (mkResponse 204 BEmpty),
           delete_reviews_where
             (fun r => (review_id r =? review_id instance)%nat) d)
      end
  end.

Definition ReviewViewSet_handle
    (now : nat) (actor : option User) (kw_title_id : nat)
    (req : ReviewRequest) (d : DB) : Result Response * DB :=
  match req with
  | ReviewList => (ReviewViewSet_list actor kw_title_id d, d)
  | ReviewCreate p => ReviewViewSet_create now actor kw_title_id p d
  | ReviewRetrieve pk => (ReviewViewSet_retrieve actor kw_title_id pk d, d)
  | ReviewUpdate pk p => ReviewViewSet_update false actor kw_title_id pk p d
  | ReviewPartialUpdate pk p =>
      ReviewViewSet_update true actor kw_title_id pk p d
  | ReviewDestroy pk => ReviewViewSet_destroy actor kw_title_id pk d
  end.

(** *** CommentViewSet; the [title_id] of the URL is not looked at. *)

Definition CommentViewSet_permission_classes : list BasePermission :=
  [IsAuthenticatedOrReadOnly; IsAuthorOrModeratorOrReadOnly].

Definition CommentViewSet_get_queryset (kw_review_id : nat) (d : DB)
  : Result (list Comment) :=
  (review <- get_object_or_404 (reviews d)
               (fun r => (review_id r =? kw_review_id)%nat) ;;
   Ok (filter (fun c => (comment_review c =? review_id review)%nat)
              (comments d)))%result.

(** [author=self.request.user]: an anonymous user cannot be assigned. *)
Definition CommentViewSet_perform_create
    (now : nat) (request_user : option User) (kw_review_id : nat)
    (text : string) (d : DB) : Result Comment * DB :=
  match get_object_or_404 (reviews d)
          (fun r => (review_id r =? kw_review_id)%nat) with
  | Raise ex => (Raise ex, d)
  | Ok review =>
      match request_user with
      | None => (Raise ValueError, d)
      | Some user =>
          Comment_objects_create now (user_id user) (review_id review) text d
      end
  end.

Definition CommentSerializer_is_valid
    (partial : bool) (m : Method) (actor : option User) (kw_review_id : nat)
    (d : DB) (p : CommentData) : Result CommentData :=
  if CommentSerializer_fields_valid partial p
     && CommentSerializer_validate m actor kw_review_id d p
  then Ok p else Raise ValidationError.

Definition CommentViewSet_list (actor : option User) (kw_review_id : nat) (d : DB)
  : Result Response :=
  (_ <- initial CommentViewSet_permission_classes GET actor ;;
   qs <- CommentViewSet_get_queryset kw_review_id d ;;
   Ok (mkResponse 200 (BComments qs)))%result.

Definition CommentViewSet_create
    (now : nat) (actor : option User) (kw_review_id : nat) (p : CommentData)
    (d : DB) : Result Response * DB :=
  match initial CommentViewSet_permission_classes POST actor with
  | Raise ex => (Raise ex, d)
  | Ok _ =>
      match CommentSerializer_is_valid false POST actor kw_review_id d p with
      | Raise ex => (Raise ex, d)
      | Ok v =>
          match CommentViewSet_perform_create now actor kw_review_id
                  (or_else (c_text v) EmptyString) d with
          | (Raise ex, d') => (Raise ex, d')
          | (Ok c, d') => (Ok (mkResponse 201 (BComment c)), d')
          end
      end
  end.

Definition CommentViewSet_handle
    (now : nat) (actor : option User) (kw_review_id : nat)
    (req : CommentRequest) (d : DB) : Result Response * DB :=
  match req with
  | CommentList => (CommentViewSet_list actor kw_review_id d, d)
  | CommentCreate p => CommentViewSet_create now actor kw_review_id p d
  end.

End ViewSets.

End ContentViews.

(** ** api/views.py: the category viewset

    Which function answers a verb is a matter of attribute lookup: the class
    body binds names from top to bottom, the router's [as_view] binds the
    verbs of a route on the instance, and [dispatch] looks the verb up on
    the instance first. *)

Module CategoryViews.
Import Models ORM Http Permissions.

(** The function objects a name of the viewset can be bound to. *)
Inductive Function : Type :=
| ListModelMixin_list
| CreateModelMixin_create
| DestroyModelMixin_destroy
| CategoryViewSet_delete_line_121
| CategoryViewSet_delete_line_126
| APIView_options
| APIView_http_method_not_allowed.

Definition Namespace : Type := list (string * Function).

Fixpoint lookup (name : string) (ns : Namespace) : option Function :=
  match ns with
  | [] => None
  | (k, f) :: rest => if k =? name then Some f else lookup name rest
  end.

(** A [def] (or [setattr]) stores under its name and drops what the name
    was bound to. *)
Definition store (name : string) (f : Function) (ns : Namespace) : Namespace :=
  (name, f) :: filter (fun kv => negb (fst kv =? name)) ns.

Definition class_body (defs : list (string * Function)) : Namespace :=
  fold_left (fun ns kv => store (fst kv) (snd kv) ns) defs [].

Record Class : Type := mkClass
  { own : Namespace;
    bases : list Namespace }.

Fixpoint lookup_bases (name : string) (mro : list Namespace) : option Function :=
  match mro with
  | [] => None
  | ns :: rest =>
      match lookup name ns with
      | Some f => Some f
      | None => lookup_bases name rest
      end
  end.

Definition class_getattr (c : Class) (name : string) : option Function :=
  lookup_bases name (own c :: bases c).

Record Instance : Type := mkInstance
  { attrs : Namespace;
    class_of : Class }.

Definition getattr (self : Instance) (name : string) : option Function :=
  match lookup name (attrs self) with
  | Some f => Some f
  | None => class_getattr (class_of self) name
  end.

(** Modelled from the spec: [ListCreateDeleteViewSet] of api/mixins.py,
    which is not among the sources: create, list and delete only, on a
    generic viewset. *)
Definition ListCreateDeleteViewSet : Namespace :=
  [ ("create", CreateModelMixin_create);
    ("list", ListModelMixin_list);
    ("destroy", DestroyModelMixin_destroy) ].

(** What the framework's [APIView], the root of every viewset, defines
    under the names that matter to [dispatch]. *)
Definition APIView : Namespace :=
  [ ("options", APIView_options);
    ("http_method_not_allowed", APIView_http_method_not_allowed) ].

(** The class as written: two [def delete], at lines 121 and 126. *)
Definition CategoryViewSet : Class :=
  {| own := class_body [ ("delete", CategoryViewSet_delete_line_121);
                         ("delete", CategoryViewSet_delete_line_126) ];
     bases := [ListCreateDeleteViewSet; APIView] |}.

(** The same viewset without any [def delete]. *)
Definition StandardCategoryViewSet : Class :=
  {| own := class_body [];
     bases := [ListCreateDeleteViewSet; APIView] |}.

Definition CategoryViewSet_permission_classes : list BasePermission :=
  [IsAdminOrReadOnly].

(** *** Routing *)

Inductive Route : Type :=
| ListRoute
| DetailRoute (slug_ : string).

Definition method_name (m : Method) : string :=
  match m with
  | GET => "get" | HEAD => "head" | OPTIONS => "options" | POST => "post"
  | PUT => "put" | PATCH => "patch" | DELETE => "delete"
  end.

(** The verb-to-action mapping of the router's two routes. *)
Definition route_mapping (r : Route) : list (string * string) :=
  match r with
  | ListRoute => [("get", "list"); ("post", "create")]
  | DetailRoute _ =>
      [("get", "retrieve"); ("put", "update");
       ("patch", "partial_update"); ("delete", "destroy")]
  end.

(** [lookup_field = 'slug'] names the keyword the detail route captures. *)
Definition route_kwargs (r : Route) : list (string * string) :=
  match r with
  | ListRoute => []
  | DetailRoute s => [("slug", s)]
  end.

(** [SimpleRouter.get_method_map]: only the actions the viewset has. *)
Definition get_method_map (c : Class) (mapping : list (string * string))
  : list (string * string) :=
  filter (fun ma => match class_getattr c (snd ma) with
                    | Some _ => true
                    | None => false
                    end) mapping.

(** [ViewSetMixin.as_view]: a fresh instance on which every verb of the
    route is bound to its action ([head] follows [get]). *)
Definition bind_actions (c : Class) (actions : list (string * string)) : Namespace :=
  fold_left
    (fun ns ma =>
       match getattr {| attrs := ns; class_of := c |} (snd ma) with
       | Some f => store (fst ma) f ns
       | None => ns
       end)
    actions [].

Definition as_view (c : Class) (actions : list (string * string)) : Instance :=
  let actions :=
    match data_get "get" actions, data_get "head" actions with
    | Some a, None => (actions ++ [("head", a)])%list
    | _, _ => actions
    end in
  {| attrs := bind_actions c actions; class_of := c |}.

(** [APIView.dispatch]: the handler is the attribute named after the verb. *)
Definition handler_of (c : Class) (r : Route) (m : Method) : Function :=
  let self := as_view c (get_method_map c (route_mapping r)) in
  match getattr self (method_name m), getattr self "http_method_not_allowed" with
  | Some f, _ => f
  | None, Some f => f
  | None, None => APIView_http_method_not_allowed
  end.

(** *** Calling a handler as [handler(request, **kwargs)] *)

(** Python binds keyword arguments to a signature with the given required
    and optional names; anything missing or unexpected is a [TypeError]. *)
Definition binds (required optional : list string) (kwargs : list (string * string))
  : bool :=
  forallb (fun n => existsb (fun kv => fst kv =? n) kwargs) required
  && forallb (fun kv => existsb (String.eqb (fst kv)) (required ++ optional)%list)
             kwargs.

(** Whether a call gets as far as the body of one of the two [def delete]. *)
Definition runs_delete_body (f : Function) (kwargs : list (string * string)) : bool :=
  match f with
  | CategoryViewSet_delete_line_121 | CategoryViewSet_delete_line_126 =>
      binds ["pk"] ["format"] kwargs
  | _ => false
  end.

Section Handlers.

(** [CreateModelMixin.create] with the absent [CategorySerializer]. *)
Variable create_category : Data -> DB -> Result Response * DB.

(** [DestroyModelMixin.destroy]: [get_object] by the lookup field, the
    object-level permissions, [instance.delete()]. *)
Definition destroy
    (m : Method) (actor : option User) (kwargs : list (string * string))
    (d : DB) : Result Response * DB :=
  match data_get "slug" kwargs with
  | None => (Raise AssertionError, d)
  | Some s =>
      match get_object_or_404 (categories d) (fun c => slug c =? s) with
      | Raise ex => (Raise ex, d)
      | Ok instance =>
          if check_object_permissions CategoryViewSet_permission_classes
               m actor None
          then (Ok (mkResponse 204 BEmpty), Category_delete instance d)
          else (Raise (permission_denied actor), d)
      end
  end.

Definition call
    (f : Function) (m : Method) (actor : option User)
    (request_data : Data) (kwargs : list (string * string)) (d : DB)
  : Result Response * DB :=
  match f with
  | ListModelMixin_list => (Ok (mkResponse 200 (BCategories (categories d))), d)
  | CreateModelMixin_create => create_category request_data d
  | DestroyModelMixin_destroy => destroy m actor kwargs d
  | CategoryViewSet_delete_line_121 | CategoryViewSet_delete_line_126 =>
      (* def delete(self, request, pk, format=None); the body starts with
         self.model, an attribute no viewset has *)
      if binds ["pk"] ["format"] kwargs
      then (Raise AttributeError, d)
      else (Raise TypeError, d)
  | APIView_options => (Ok (mkResponse 200 BEmpty), d)
  | APIView_http_method_not_allowed => (Raise MethodNotAllowed, d)
  end.

(** One request to a route of the viewset [c]. *)
Definition dispatch
    (c : Class) (r : Route) (m : Method) (actor : option User)
    (request_data : Data) (d : DB) : Result Response * DB :=
  match initial CategoryViewSet_permission_classes m actor with
  | Raise ex => (Raise ex, d)
  | Ok _ => call (handler_of c r m) m actor request_data (route_kwargs r) d
  end.

End Handlers.

(** The spec's words: the standard delete-by-slug operation under
    admin-only permission. *)
Definition delete_by_slug (actor : option User) (s : string) (d : DB)
  : Result Response * DB :=
  if is_authenticated actor && actor_is_admin actor then
    match get_object_or_404 (categories d) (fun c => slug c =? s) with
    | Raise ex => (Raise ex, d)
    | Ok c => (Ok (mkResponse 204 BEmpty), Category_delete c d)
    end
  else (Raise (permission_denied actor), d).

End CategoryViews.

(** ** The rating of a title *)

Module Rating.
Import Models ORM.

Definition sum_scores (l : list Z) : Z := fold_right Z.add 0%Z l.

(** The mean of a non-empty list, as an exact fraction. *)
Definition mean (l : list Z) : Q := sum_scores l # Pos.of_nat (List.length l).

(** [round]: the nearest integer, a tie going to the even neighbour. *)
Definition round (q : Q) : Z :=
  let n := Qnum q in
  let d := Zpos (Qden q) in
  let f := (n / d)%Z in
  let r2 := (2 * (n mod d))%Z in
  if (r2 <? d)%Z then f
  else if (d <? r2)%Z then (f + 1)%Z
  else if Z.even f then f else (f + 1)%Z.

Definition scores_of (d : DB) (t : Title) : list Z :=
  map score
      (filter (fun r => (review_title r =? title_id t)%nat) (reviews d)).

(** Modelled from the spec: [average_rating] of the title read serializer
    (api/serializers.py is not among the sources):
    round(mean(score for each review where review.title_id == title.id)),
    or nothing when the title has no review. *)
Definition average_rating (d : DB) (t : Title) : option Z :=
  match scores_of d t with
  | [] => None
  | s => Some (round (mean s))
  end.

(** Modelled from the spec: what a read of a title returns, the stored
    row and the rating computed from the reviews stored at that moment. *)
Definition read_title (d : DB) (t : Title) : Title * option Z :=
  (t, average_rating d t).

End Rating.

(** ** Concrete collaborators, for the examples *)

Module Examples.
Import Models ORM Http AuthViews.

(** A token generator that differs from one call to the next. *)
Definition make_token (now : nat) (u : User) : string :=
  match now with
  | 1 => "c1"
  | _ => "c2"
  end.

Definition for_user (now : nat) (u : User) : RefreshToken :=
  mkRefreshToken (user_id u) ("access-" ++ username u).

Definition two_fields (k1 k2 : string) (d : DB) (data : Data)
  : option (string * string) :=
  match data_get k1 data, data_get k2 data with
  | Some a, Some b => Some (a, b)
  | _, _ => None
  end.

Definition registration : DB -> Data -> option (string * string) :=
  two_fields "username" "email".

Definition token_confirmation : DB -> Data -> option (string * string) :=
  two_fields "username" "confirmation_code".

Definition signup_post : nat -> Data -> World -> Result Response * World :=
  UserCreation_post None make_token registration (fun data => data).

Definition token_post : nat -> Data -> World -> Result Response * World :=
  JWTTokenConfirmation_post for_user token_confirmation.

Definition bob : Data := [("username", "bob"); ("email", "bob@x.com")].

Definition bob_with (code : string) : Data :=
  [("username", "bob"); ("confirmation_code", code)].

Definition world0 : World := mkWorld empty_db [] [].
Definition world1 : World := snd (signup_post 1 bob world0).
Definition world2 : World := snd (signup_post 2 bob world1).

End Examples.

(** ** What the schema promises about the tables *)

Module Invariants.
Import Models ORM.

(** [username] is [unique=True]. *)
Definition unique_usernames (d : DB) : Prop := NoDup (map username (users d)).

(** Primary keys. *)
Definition unique_title_ids (d : DB) : Prop := NoDup (map title_id (titles d)).

Definition unique_review_ids (d : DB) : Prop := NoDup (map review_id (reviews d)).

Definition review_ids_issued (d : DB) : Prop :=
  Forall (fun r => review_id r < seq_review d) (reviews d).

(** The columns of [unique_author_review]. *)
Definition review_key (r : Review) : nat * nat := (review_title r, review_author r).

Definition one_review_per_author (d : DB) : Prop :=
  NoDup (map review_key (reviews d)).

Definition score_in_range (r : Review) : Prop := (1 <= score r <= 10)%Z.

Definition scores_in_range (d : DB) : Prop := Forall score_in_range (reviews d).

(** The ways a request to the review viewset can change the database:
    not at all, by one inserted row with a fresh key and a valid score, by
    rewriting the text and score of one stored row, or by a deletion. *)
Inductive ReviewWrite (d : DB) : DB -> Prop :=
| NoWrite : ReviewWrite d d
| Inserted (r : Review) :
    review_id r = seq_review d ->
    score_in_range r ->
    (forall x, In x (reviews d) -> review_key x <> review_key r) ->
    ReviewWrite d (set_reviews (reviews d ++ [r]) (S (seq_review d)) d)
| Rewritten (old new : Review) :
    In old (reviews d) ->
    review_id new = review_id old ->
    review_key new = review_key old ->
    (score_in_range old -> score_in_range new) ->
    ReviewWrite d
      (set_reviews
         (map (fun x => if (review_id x =? review_id new)%nat then new else x)
              (reviews d))
         (seq_review d) d)
| Deleted (gone : Review -> bool) :
    ReviewWrite d (delete_reviews_where gone d).

(** The constraints on the review table, together. *)
Definition reviews_consistent (d : DB) : Prop :=
  unique_review_ids d /\ review_ids_issued d /\ one_review_per_author d.

(** How a title after the deletion of category [c] relates to the title
    before: same row apart from the category, which is null if it pointed
    to [c]; the same row altogether if it did not. *)
Definition nullified_by (c : Category) (t t' : Title) : Prop :=
  title_id t' = title_id t
  /\ title_name t' = title_name t
  /\ year t' = year t
  /\ description t' = description t
  /\ if in_category c t then category t' = None else t' = t.

End Invariants.

(** ** reviews/models.py: how the models print *)

Module ModelStrings.
Import Models.

(** [settings.REVIEW_COMMENT_LENGHT]. *)
Definition REVIEW_COMMENT_LENGHT : nat := 30.

(** [NameSlug.__str__] and [Title.__str__]. *)
Definition NameSlug_str (self : NameSlug) : string := name self.

Definition Title_str (self : Title) : string := title_name self.

(** [User.__str__]. *)
Definition User_str (self : User) : string :=
  "Пользователь - " ++ username self.

(** [PublicAuthor.__str__]: the slice [self.text[:n]], a [string] standing
    for the characters of the text. *)
Definition PublicAuthor_str (text : string) : string :=
  substring 0 REVIEW_COMMENT_LENGHT text.

Definition Review_str (self : Review) : string :=
  PublicAuthor_str (review_text self).

Definition Comment_str (self : Comment) : string :=
  PublicAuthor_str (comment_text self).

End ModelStrings.

(** ** reviews/models.py: the other deletions and the foreign keys *)

Module Cascades.
Import Models ORM.

(** [PublicAuthor.author] is declared once for reviews and comments. *)
Definition Comment_author_on_delete : OnDelete := CASCADE.

Definition set_genres (gs : list Genre) (d : DB) : DB :=
  mkDB (users d) (seq_user d) (categories d) gs (titles d) (genre_titles d)
       (reviews d) (seq_review d) (comments d) (seq_comment d).

(** [genre.delete()]: the join rows of the genre go with it. *)
Definition Genre_delete (g : Genre) (d : DB) : DB :=
  let d1 :=
    match GenreTitle_genre_on_delete with
    | CASCADE =>
        set_genre_titles
          (filter (fun gt => negb (gt_genre gt =? ns_id g)%nat) (genre_titles d))
          d
    | SET_NULL => d
    end in
  set_genres (filter (fun x => negb (ns_id x =? ns_id g)%nat) (genres d1)) d1.

(** [title.delete()]. *)
Definition Title_delete (t : Title) (d : DB) : DB :=
  delete_titles_where (fun x => (title_id x =? title_id t)%nat) d.

(** [review.delete()]. *)
Definition Review_delete (r : Review) (d : DB) : DB :=
  delete_reviews_where (fun x => (review_id x =? review_id r)%nat) d.

(** [user.delete()]: the reviews of the user with the comments under
    them, then the comments of the user, then the row. *)
Definition User_delete (u : User) (d : DB) : DB :=
  let d1 :=
    match Review_author_on_delete with
    | CASCADE =>
        delete_reviews_where (fun r => (review_author r =? user_id u)%nat) d
    | SET_NULL => d
    end in
  let d2 :=
    match Comment_author_on_delete with
    | CASCADE =>
        set_comments
          (filter (fun c => negb (comment_author c =? user_id u)%nat) (comments d1))
          (seq_comment d1) d1
    | SET_NULL => d1
    end in
  set_users (filter (fun x => negb (user_id x =? user_id u)%nat) (users d2))
            (seq_user d2) d2.

(** *** Foreign keys *)

Definition has_key {A : Type} (key : A -> nat) (rows : list A) (k : nat) : bool :=
  existsb (fun x => (key x =? k)%nat) rows.

Definition title_refs_ok (d : DB) (t : Title) : bool :=
  match category t with
  | Some k => has_key ns_id (categories d) k
  | None => true
  end.

Definition genre_title_refs_ok (d : DB) (gt : GenreTitle) : bool :=
  has_key ns_id (genres d) (gt_genre gt)
  && has_key title_id (titles d) (gt_title gt).

Definition review_refs_ok (d : DB) (r : Review) : bool :=
  has_key title_id (titles d) (review_title r)
  && has_key user_id (users d) (review_author r).

Definition comment_refs_ok (d : DB) (c : Comment) : bool :=
  has_key review_id (reviews d) (comment_review c)
  && has_key user_id (users d) (comment_author c).

(** Every foreign key of every row points at a stored row. *)
Definition foreign_keys_ok (d : DB) : bool :=
  forallb (title_refs_ok d) (titles d)
  && forallb (genre_title_refs_ok d) (genre_titles d)
  && forallb (review_refs_ok d) (reviews d)
  && forallb (comment_refs_ok d) (comments d).

End Cascades.

(** ** api/views.py: the user's own profile *)

Module UserViews.
Import Models ORM Http Permissions.

(** [rest_framework.permissions.IsAuthenticated]. *)
Definition IsAuthenticated : BasePermission :=
  {| has_permission := fun _ user => is_authenticated user;
     has_object_permission := fun _ _ _ => true |}.

(** [UserViewSet.http_method_names]. *)
Definition UserViewSet_http_method_names : list Method :=
  [PATCH; POST; GET; DELETE].

(** The verbs [@action(methods=['GET', 'PATCH'])] binds on the route of
    [me]; [as_view] lets [head] follow [get]. *)
Definition me_bound_methods : list Method := [GET; PATCH; HEAD].

(** The primary key is no writable field: whatever the serializer sets,
    the row written is the one of the instance. *)
Definition keep_pk (instance updated : User) : User :=
  mkUser (user_id instance) (username updated) (email updated) (role updated)
         (is_superuser updated) (is_staff updated) (first_name updated)
         (last_name updated) (bio updated) (confirmation_code updated).

(** [instance.save()] of an existing user, under the two unique columns. *)
Definition User_save (x : User) (d : DB) : Result User * DB :=
  if existsb (fun y => negb (user_id y =? user_id x)%nat
                       && (username y =? username x)) (users d) then
    (Raise (IntegrityError "reviews_user.username"), d)
  else if existsb (fun y => negb (user_id y =? user_id x)%nat
                            && (email y =? email x)) (users d) then
    (Raise (IntegrityError "reviews_user.email"), d)
  else
    (Ok x,
     set_users
       (map (fun y => if (user_id y =? user_id x)%nat then x else y) (users d))
       (seq_user d) d).

(** [request.user.id] is [None] for an anonymous user, which no row has. *)
Definition is_request_user (request_user : option User) (x : User) : bool :=
  match request_user with
  | Some u => (user_id x =? user_id u)%nat
  | None => false
  end.

Section SelfProfile.

(** [UserSerializer] of api/serializers.py is not among the sources:
    [data] is how it renders a user; [run], a partial update of an
    instance with the request data, yields the instance with the validated
    fields set, or the errors. *)
Variable UserSerializer_data : User -> Data.
Variable UserSerializer_run : DB -> User -> Data -> User + Data.

(** [UserViewSet.get_or_patch_self_profile]. *)
Definition get_or_patch_self_profile
    (m : Method) (request_user : option User) (request_data : Data) (d : DB)
  : Result Response * DB :=
  match get_object_or_404 (users d) (is_request_user request_user) with
  | Raise ex => (Raise ex, d)
  | Ok user =>
      if Method_eqb m GET then
        (Ok (mkResponse 200 (BDict (UserSerializer_data user))), d)
      else
        match UserSerializer_run d user request_data with
        | inl updated =>
            match User_save (keep_pk user updated) d with
            | (Raise ex, d') => (Raise ex, d')
            | (Ok saved, d') =>
                (Ok (mkResponse 200 (BDict (UserSerializer_data saved))), d')
            end
        | inr errors => (Ok (mkResponse 400 (BDict errors)), d)
        end
  end.

(** One request to [users/me/]: the permission of the action, then the
    verb, which has to be allowed by the viewset and bound on the route. *)
Definition me
    (m : Method) (actor : option User) (request_data : Data) (d : DB)
  : Result Response * DB :=
  match initial [IsAuthenticated] m actor with
  | Raise ex => (Raise ex, d)
  | Ok _ =>
      if existsb (Method_eqb m) UserViewSet_http_method_names
         && existsb (Method_eqb m) me_bound_methods
      then get_or_patch_self_profile m actor request_data d
      else (Raise MethodNotAllowed, d)
  end.

End SelfProfile.

End UserViews.

(** ** What the schema promises about the user table *)

Module Schema.
Import Models ORM.

Definition unique_user_ids (d : DB) : Prop := NoDup (map user_id (users d)).

Definition user_ids_issued (d : DB) : Prop :=
  Forall (fun x => user_id x < seq_user d) (users d).

Definition unique_emails (d : DB) : Prop := NoDup (map email (users d)).

(** Primary key and the two [unique=True] columns, together. *)
Definition users_consistent (d : DB) : Prop :=
  unique_user_ids d /\ user_ids_issued d
  /\ Invariants.unique_usernames d /\ unique_emails d.

Definition unique_comment_ids (d : DB) : Prop :=
  NoDup (map comment_id (comments d)).

Definition comment_ids_issued (d : DB) : Prop :=
  Forall (fun c => comment_id c < seq_comment d) (comments d).

End Schema.

(** * Properties *)

(** ** Lookups *)

Section Lookups.
Import ORM.

Context {A K : Type}.
Variable key : A -> K.
Variable lookup : A -> bool.

Lemma filter_none (rows : list A) :
  (forall x, In x rows -> lookup x = false) -> filter lookup rows = [].
Proof.
  induction rows as [|y rows IH]; intros H; simpl; [reflexivity|].
  rewrite (H y (or_introl eq_refl)). apply IH.
  intros x Hx. apply H. right. exact Hx.
Qed.

(** A lookup that pins down a unique key selects exactly the row
    carrying it. *)
Lemma filter_unique (rows : list A) (x : A) :
  NoDup (map key rows) ->
  In x rows ->
  lookup x = true ->
  (forall y, In y rows -> lookup y = true -> key y = key x) ->
  filter lookup rows = [x].
Proof.
  induction rows as [|y rows IH]; intros Hnd Hin Hx Hkey; [destruct Hin|].
  simpl in Hnd. inversion Hnd as [|k ks Hnotin Hnd']; subst.
  destruct Hin as [-> | Hin].
  - simpl. rewrite Hx. f_equal. apply filter_none.
    intros z Hz. destruct (lookup z) eqn:Ez; [|reflexivity].
    exfalso. apply Hnotin. rewrite <- (Hkey z (or_intror Hz) Ez).
    apply in_map. exact Hz.
  - simpl. destruct (lookup y) eqn:Ey.
    + exfalso. apply Hnotin. rewrite (Hkey y (or_introl eq_refl) Ey).
      apply in_map. exact Hin.
    + apply IH; auto. intros z Hz. apply Hkey. right. exact Hz.
Qed.

Lemma get_object_or_404_missing (rows : list A) :
  (forall x, In x rows -> lookup x = false) ->
  get_object_or_404 rows lookup = Raise Http404.
Proof.
  intros H. unfold get_object_or_404, objects_get.
  rewrite (filter_none rows H). reflexivity.
Qed.

Lemma get_object_or_404_found (rows : list A) (x : A) :
  NoDup (map key rows) ->
  In x rows ->
  lookup x = true ->
  (forall y, In y rows -> lookup y = true -> key y = key x) ->
  get_object_or_404 rows lookup = Ok x.
Proof.
  intros Hnd Hin Hx Hkey. unfold get_object_or_404, objects_get.
  rewrite (filter_unique rows x Hnd Hin Hx Hkey). reflexivity.
Qed.

(** Whatever a lookup returns is a stored row that satisfies it. *)
Lemma get_object_or_404_sound (rows : list A) (x : A) :
  get_object_or_404 rows lookup = Ok x -> In x rows /\ lookup x = true.
Proof.
  unfold get_object_or_404, objects_get. intros H.
  destruct (filter lookup rows) as [|y [|z l]] eqn:E; try discriminate.
  inversion H; subst. apply filter_In. rewrite E. left. reflexivity.
Qed.

End Lookups.

Lemma existsb_false_forall {A : Type} (p : A -> bool) (l : list A) :
  existsb p l = false -> forall x, In x l -> p x = false.
Proof.
  intros H x Hx. destruct (p x) eqn:E; [|reflexivity].
  assert (existsb p l = true) by (apply existsb_exists; eauto). congruence.
Qed.

(** ** Users *)

Section UserTable.
Import Models ORM Invariants.

Lemma User_objects_create_unique (u e : string) (d : DB) (x : User) (d' : DB) :
  unique_usernames d ->
  User_objects_create u e d = (Ok x, d') ->
  unique_usernames d'.
Proof.
  unfold User_objects_create, unique_usernames. intros Hnd H.
  destruct (existsb (fun y => username y =? u) (users d)) eqn:Eu; [discriminate|].
  destruct (existsb (fun y => email y =? e) (users d)) eqn:Ee; [discriminate|].
  inversion H; subst; clear H. simpl.
  rewrite map_app. simpl.
  apply NoDup_app; [exact Hnd | repeat constructor; intros [] | ].
  intros n Hin [<- | []].
  apply in_map_iff in Hin. destruct Hin as [y [Hy Hin]].
  pose proof (existsb_false_forall _ _ Eu y Hin) as Hf. simpl in Hf.
  rewrite Hy in Hf. simpl in Hf. rewrite String.eqb_refl in Hf. discriminate.
Qed.

(** [get_or_create] keeps usernames unique, changes no stored row, and a
    row it creates carries the declared defaults. *)
Lemma get_or_create_spec (u e : string) (d : DB) (x : User) (created : bool) (d' : DB) :
  get_or_create u e d = (Ok (x, created), d') ->
  username x = u /\ email x = e /\ In x (users d')
  /\ (unique_usernames d -> unique_usernames d')
  /\ (if created
      then x = new_user (seq_user d) u e /\ users d' = (users d ++ [x])%list
      else d' = d).
Proof.
  unfold get_or_create. intros H.
  destruct (objects_get (users d)
              (fun y => (username y =? u) && (email y =? e))) as [y|[|]] eqn:E.
  - inversion H; subst; clear H.
    unfold objects_get in E.
    destruct (filter _ (users d')) as [|z [|z' l]] eqn:F; try discriminate.
    inversion E; subst.
    assert (Hin : In x (filter (fun y => (username y =? u) && (email y =? e))
                               (users d'))) by (rewrite F; left; reflexivity).
    apply filter_In in Hin. destruct Hin as [Hin Hm].
    apply andb_true_iff in Hm. destruct Hm as [Hu He].
    apply String.eqb_eq in Hu. apply String.eqb_eq in He. auto.
  - destruct (User_objects_create u e d) as [[y|ex] d1] eqn:C; [|discriminate].
    inversion H; subst; clear H.
    pose proof C as C'. unfold User_objects_create in C'.
    destruct (existsb (fun y => username y =? u) (users d)); [discriminate|].
    destruct (existsb (fun y => email y =? e) (users d)); [discriminate|].
    inversion C'; subst; clear C'. simpl.
    repeat split; auto.
    + apply in_or_app. right. left. reflexivity.
    + intros Hnd. exact (User_objects_create_unique _ _ _ _ _ Hnd C).
  - discriminate.
Qed.

End UserTable.

(** ** Registration and confirmation *)

Section Registration.
Import Models ORM Http AuthViews Invariants.

Variable EMAIL_HOST_USER : option string.
Variable make_token : nat -> User -> string.
Variable for_user : nat -> User -> RefreshToken.
Variable registration_data : Data -> Data.

(** A signup leaves in the database exactly what [get_or_create] left
    there: the generated code is mailed, never stored. *)
Lemma signup_database (now : nat) (data : Data) (u e : string) (w : World) :
  db (snd (UserCreation_signup EMAIL_HOST_USER make_token registration_data
            now data u e w))
  = snd (get_or_create u e (db w)).
Proof.
  unfold UserCreation_signup.
  destruct (get_or_create u e (db w)) as [[[x created]|ex] d]; reflexivity.
Qed.

(** The user a successful signup worked on, and the code it mailed. *)
Lemma signup_mails_generated_code
    (now : nat) (data : Data) (u e : string) (w : World)
    (x : User) (resp : Response) (w' : World) :
  UserCreation_signup EMAIL_HOST_USER make_token registration_data
    now data u e w = (Ok (x, resp), w') ->
  exists stored created,
    fst (get_or_create u e (db w)) = Ok (stored, created)
    /\ user_id x = user_id stored
    /\ confirmation_code x = make_token now stored
    /\ map message (outbox w')
       = (map message (outbox w) ++ [make_token now stored])%list.
Proof.
  unfold UserCreation_signup.
  destruct (get_or_create u e (db w)) as [[[y created]|ex] d]; [|discriminate].
  intros H. inversion H; subst; clear H.
  exists y, created. simpl. rewrite map_app. auto.
Qed.

(** Confirmation on validated data, in the three cases of the view. *)
Lemma confirm_cases (now : nat) (u code : string) (w : World) :
  unique_usernames (db w) ->
  ((forall x, In x (users (db w)) -> username x <> u) ->
   JWTTokenConfirmation_confirm for_user now u code w = (Raise Http404, w))
  /\ (forall x, In x (users (db w)) -> username x = u ->
      (code <> confirmation_code x ->
       JWTTokenConfirmation_confirm for_user now u code w
       = (Ok (mkResponse 400 (BText "Неверный код-подтверждение!")), w))
      /\ (code = confirmation_code x ->
          JWTTokenConfirmation_confirm for_user now u code w
          = (Ok (mkResponse 201
                   (BDict [("JWT-Код", access_token (for_user now x))])),
             mkWorld (db w) (outbox w) (issued w ++ [for_user now x])))).
Proof.
  intros Hnd. unfold JWTTokenConfirmation_confirm. split.
  - intros Hno.
    rewrite (get_object_or_404_missing (fun x => username x =? u)); [reflexivity|].
    intros x Hx. apply String.eqb_neq. apply Hno. exact Hx.
  - intros x Hx Hu.
    rewrite (get_object_or_404_found username (fun y => username y =? u)
               (users (db w)) x Hnd Hx).
    + split; intros Hc.
      * apply String.eqb_neq in Hc. rewrite Hc. reflexivity.
      * apply String.eqb_eq in Hc. rewrite Hc. reflexivity.
    + apply String.eqb_eq. exact Hu.
    + intros y _ Hy. apply String.eqb_eq in Hy. congruence.
Qed.

End Registration.

(** C1 (as the code has it).  On an empty database, two signups of
    ("bob", "bob@x.com") both answer 200 and work on the one user with
    id 1, and each mails a newly generated code ("c1", then "c2").  The
    stored confirmation code is still the default after both, so the code
    mailed last is refused with a 400 and issues no token, while the
    default string is accepted. *)
Theorem signup_code_is_never_stored :
  Http.http_status (fst (Examples.signup_post 1 Examples.bob Examples.world0)) = 200
  /\ Http.http_status (fst (Examples.signup_post 2 Examples.bob Examples.world1)) = 200
  /\ map Models.user_id (ORM.users (AuthViews.db Examples.world1)) = [1]
  /\ map Models.user_id (ORM.users (AuthViews.db Examples.world2)) = [1]
  /\ map AuthViews.message (AuthViews.outbox Examples.world2) = ["c1"; "c2"]
  /\ map Models.confirmation_code (ORM.users (AuthViews.db Examples.world2))
     = ["not defined yet"]
  /\ Http.http_status
       (fst (Examples.token_post 3 (Examples.bob_with "c2") Examples.world2)) = 400
  /\ AuthViews.issued
       (snd (Examples.token_post 3 (Examples.bob_with "c2") Examples.world2)) = []
  /\ Http.http_status
       (fst (Examples.token_post 3 (Examples.bob_with "not defined yet")
               Examples.world2)) = 201.
Proof. vm_compute. repeat split; reflexivity. Qed.




(** C9.  A user row that [get_or_create] has just created, which no signup
    has given a code, stores the literal "not defined yet"; confirming that
    username with "not defined yet" is answered 201 with the access token
    in the body, and that token is issued. *)
Theorem default_code_confirms
    (for_user : nat -> Models.User -> AuthViews.RefreshToken)
    (token_confirmation : ORM.DB -> Http.Data -> option (string * string))
    (u e : string) (d d' : ORM.DB) (x : Models.User)
    (now : nat) (data : Http.Data)
    (mail : list AuthViews.EmailMessage) (tokens : list AuthViews.RefreshToken) :
  Invariants.unique_usernames d ->
  ORM.get_or_create u e d = (Ok (x, true), d') ->
  token_confirmation d' data = Some (u, "not defined yet") ->
  Models.confirmation_code x = "not defined yet"
  /\ In x (ORM.users d')
  /\ AuthViews.JWTTokenConfirmation_post for_user token_confirmation now data
       (AuthViews.mkWorld d' mail tokens)
     = (Ok (Http.mkResponse 201
              (Http.BDict [("JWT-Код", AuthViews.access_token (for_user now x))])),
        AuthViews.mkWorld d' mail (tokens ++ [for_user now x])).
Proof.
  intros Hnd Hget Hser.
  destruct (get_or_create_spec u e d x true d' Hget)
    as [Hu [_ [Hin [Huniq [Hx _]]]]].
  assert (Hcode : Models.confirmation_code x = "not defined yet")
    by (rewrite Hx; reflexivity).
  split; [exact Hcode|]. split; [exact Hin|].
  unfold AuthViews.JWTTokenConfirmation_post. simpl. rewrite Hser.
  destruct (confirm_cases for_user now u "not defined yet"
              (AuthViews.mkWorld d' mail tokens) (Huniq Hnd)) as [_ Hfound].
  destruct (Hfound x Hin Hu) as [_ Hgood].
  exact (Hgood (eq_sym Hcode)).
Qed.

Lemma default_code_confirms_witness :
  Models.confirmation_code (Models.new_user 1 "bob" "bob@x.com") = "not defined yet"
  /\ In (Models.new_user 1 "bob" "bob@x.com")
        (ORM.users (snd (ORM.get_or_create "bob" "bob@x.com" ORM.empty_db)))
  /\ Examples.token_post 3 (Examples.bob_with "not defined yet")
       (AuthViews.mkWorld (snd (ORM.get_or_create "bob" "bob@x.com" ORM.empty_db))
                          [] [])
     = (Ok (Http.mkResponse 201 (Http.BDict [("JWT-Код", "access-bob")])),
        AuthViews.mkWorld (snd (ORM.get_or_create "bob" "bob@x.com" ORM.empty_db))
                          [] [AuthViews.mkRefreshToken 1 "access-bob"]).
Proof.
  apply (default_code_confirms Examples.for_user Examples.token_confirmation
           "bob" "bob@x.com" ORM.empty_db
           (snd (ORM.get_or_create "bob" "bob@x.com" ORM.empty_db))
           (Models.new_user 1 "bob" "bob@x.com") 3
           (Examples.bob_with "not defined yet") [] []).
  - constructor.
  - reflexivity.
  - reflexivity.
Defined.

(** ** Permissions *)

Section Policy.
Import Models Http Permissions.

Lemma orb_true_cases (a b c : bool) :
  a || b || c = true <-> a = true \/ b = true \/ c = true.
Proof. destruct a, b, c; simpl; intuition discriminate. Qed.

(** A denial is worded 403 for an authenticated actor, 401 otherwise. *)
Lemma authorize_denied (actor : option User) (a : Action) (r : Resource) :
  canPerform actor a r = false ->
  authorize actor a r
  = Raise (if is_authenticated actor then PermissionDenied else NotAuthenticated).
Proof. unfold authorize, permission_denied. intros ->. reflexivity. Qed.

End Policy.




(** ** Deleting a category *)

Section CategoryDeletion.
Import Models ORM Invariants.

Lemma nullified_map (c : Category) (ts : list Title) :
  Forall2 (nullified_by c) ts
          (map (fun t => if in_category c t then clear_category t else t) ts).
Proof.
  induction ts as [|t ts IH]; simpl; constructor; [|exact IH].
  unfold nullified_by. destruct (in_category c t) eqn:E; simpl; rewrite ?E; auto.
Qed.

End CategoryDeletion.

(** C7.  [category.delete()] keeps every title, in place: a title that
    pointed to the category gets a null category and keeps its id, name,
    year and description, any other title is unchanged.  The genre links,
    genres, users, reviews, comments and key counters are unchanged, and
    of the categories only the deleted one goes. *)
Theorem category_delete_sets_null (c : Models.Category) (d : ORM.DB) :
  let d' := ORM.Category_delete c d in
  Forall2 (Invariants.nullified_by c) (ORM.titles d) (ORM.titles d')
  /\ map Models.title_id (ORM.titles d') = map Models.title_id (ORM.titles d)
  /\ ORM.genre_titles d' = ORM.genre_titles d
  /\ ORM.genres d' = ORM.genres d
  /\ ORM.users d' = ORM.users d
  /\ ORM.reviews d' = ORM.reviews d
  /\ ORM.comments d' = ORM.comments d
  /\ (ORM.seq_user d', ORM.seq_review d', ORM.seq_comment d')
     = (ORM.seq_user d, ORM.seq_review d, ORM.seq_comment d)
  /\ ORM.categories d'
     = filter (fun x => negb (Models.ns_id x =? Models.ns_id c)%nat)
              (ORM.categories d).
Proof.
  unfold ORM.Category_delete. simpl. repeat split.
  - apply nullified_map.
  - rewrite map_map. apply map_ext. intros t.
    destruct (ORM.in_category c t); reflexivity.
Qed.

(** ** The category viewset *)

Section CategoryDispatch.
Import Models ORM Http Permissions CategoryViews.

Variable create_category : Data -> DB -> Result Response * DB.

(** On the detail route the router binds [delete] on the instance, and
    that binding is what [dispatch] finds, whatever the class defines. *)
Lemma detail_delete_handler (s : string) :
  handler_of CategoryViewSet (DetailRoute s) DELETE = DestroyModelMixin_destroy
  /\ handler_of StandardCategoryViewSet (DetailRoute s) DELETE
     = DestroyModelMixin_destroy.
Proof. split; reflexivity. Qed.

(** The standard viewset's DELETE of one category is the spec's
    delete-by-slug. *)
Lemma standard_delete_is_delete_by_slug
    (actor : option User) (data : Data) (s : string) (d : DB) :
  dispatch create_category StandardCategoryViewSet (DetailRoute s) DELETE
           actor data d
  = delete_by_slug actor s d.
Proof.
  unfold dispatch, delete_by_slug, initial, check_permissions. simpl.
  destruct (is_authenticated actor && actor_is_admin actor); simpl;
    [|reflexivity].
  unfold destroy. simpl.
  destruct (get_object_or_404 (categories d) (fun c => slug c =? s));
    reflexivity.
Qed.

(** Without a slug the router binds no [delete]: the class attribute is
    found, and the call fails for want of [pk] before its body; the
    standard viewset answers that request with 405. *)
Lemma collection_delete_reaches_no_body
    (actor : option User) (data : Data) (d : DB) :
  is_authenticated actor && actor_is_admin actor = true ->
  handler_of CategoryViewSet ListRoute DELETE = CategoryViewSet_delete_line_126
  /\ dispatch create_category CategoryViewSet ListRoute DELETE actor data d
     = (Raise TypeError, d)
  /\ dispatch create_category StandardCategoryViewSet ListRoute DELETE actor data d
     = (Raise MethodNotAllowed, d).
Proof.
  intros Hadmin. unfold dispatch, initial, check_permissions. simpl.
  rewrite Hadmin. simpl. auto.
Qed.

End CategoryDispatch.

(** C8.  For every DELETE request on a category (the route that carries
    its slug), whoever the actor: the handler the dispatch finds is the
    mixin's [destroy], neither [def delete]; the answer and the database
    are those of the viewset without the overrides, and those of
    delete-by-slug under the admin-only permission.  On no route does a
    DELETE get as far as the body of an override. *)
Theorem category_delete_overrides_are_dead
    (create_category : Http.Data -> ORM.DB -> Result Http.Response * ORM.DB)
    (actor : option Models.User) (data : Http.Data) (s : string) (d : ORM.DB) :
  CategoryViews.handler_of CategoryViews.CategoryViewSet
    (CategoryViews.DetailRoute s) Http.DELETE
  = CategoryViews.DestroyModelMixin_destroy
  /\ CategoryViews.dispatch create_category CategoryViews.CategoryViewSet
       (CategoryViews.DetailRoute s) Http.DELETE actor data d
     = CategoryViews.dispatch create_category CategoryViews.StandardCategoryViewSet
         (CategoryViews.DetailRoute s) Http.DELETE actor data d
  /\ CategoryViews.dispatch create_category CategoryViews.CategoryViewSet
       (CategoryViews.DetailRoute s) Http.DELETE actor data d
     = CategoryViews.delete_by_slug actor s d
  /\ (forall r : CategoryViews.Route,
        CategoryViews.runs_delete_body
          (CategoryViews.handler_of CategoryViews.CategoryViewSet r Http.DELETE)
          (CategoryViews.route_kwargs r) = false).
Proof.
  destruct (detail_delete_handler s) as [Hown Hstd].
  assert (Hsame :
    CategoryViews.dispatch create_category CategoryViews.CategoryViewSet
      (CategoryViews.DetailRoute s) Http.DELETE actor data d
    = CategoryViews.dispatch create_category CategoryViews.StandardCategoryViewSet
        (CategoryViews.DetailRoute s) Http.DELETE actor data d).
  { unfold CategoryViews.dispatch. rewrite Hown, Hstd. reflexivity. }
  split; [exact Hown|]. split; [exact Hsame|]. split.
  - rewrite Hsame. apply standard_delete_is_delete_by_slug.
  - intros [|s']; reflexivity.
Qed.

(** ** The rating of a title *)

Section RatingFacts.
Import Models ORM Rating.

(** [round] is within a half of its argument. *)
Lemma round_nearest (q : Q) : (Qabs (inject_Z (round q) - q) <= 1 # 2)%Q.
Proof.
  destruct q as [n d]. unfold round. cbn [Qnum Qden].
  pose proof (Z.div_mod n (Zpos d) ltac:(lia)) as Hdm.
  pose proof (Z.mod_pos_bound n (Zpos d) ltac:(lia)) as Hm.
  set (f := (n / Zpos d)%Z) in *. set (m := (n mod Zpos d)%Z) in *.
  assert (Hle : forall r : Z,
             (Z.abs (2 * (r * Zpos d - n)) <= Zpos d)%Z ->
             (Qabs (inject_Z r - (n # d)) <= 1 # 2)%Q).
  { intros r Hr. unfold Qle, Qabs, Qminus, Qplus, Qopp, inject_Z. simpl.
    lia. }
  destruct (Z.ltb_spec (2 * m) (Zpos d)); [apply Hle; lia|].
  destruct (Z.ltb_spec (Zpos d) (2 * m)); [apply Hle; lia|].
  destruct (Z.even f); apply Hle; lia.
Qed.

(** At a tie [round] picks the even neighbour. *)
Lemma round_tie_even (k : Z) : Z.even (round ((2 * k + 1) # 2)) = true.
Proof.
  unfold round. cbn [Qnum Qden].
  assert (Hq : ((2 * k + 1) / 2 = k)%Z)
    by (symmetry; apply Z.div_unique with (r := 1%Z); lia).
  assert (Hr : ((2 * k + 1) mod 2 = 1)%Z)
    by (symmetry; apply Z.mod_unique with (q := k); lia).
  rewrite Hq, Hr. cbn [Z.mul Pos.mul Z.ltb Z.compare Pos.compare Pos.compare_cont].
  destruct (Z.even k) eqn:E; [exact E|].
  rewrite Z.even_add, E. reflexivity.
Qed.

Lemma average_rating_none (d : DB) (t : Title) :
  filter (fun r => (review_title r =? title_id t)%nat) (reviews d) = [] ->
  average_rating d t = None.
Proof. unfold average_rating, scores_of. intros ->. reflexivity. Qed.

Lemma average_rating_some (d : DB) (t : Title) :
  filter (fun r => (review_title r =? title_id t)%nat) (reviews d) <> [] ->
  average_rating d t = Some (round (mean (scores_of d t))).
Proof.
  unfold average_rating, scores_of. intros H.
  destruct (filter _ (reviews d)) as [|r rs]; [contradiction|reflexivity].
Qed.

(** A review stored for the title is part of the next rating read. *)
Lemma average_rating_after_create
    (now author : nat) (text : string) (sc : Z) (d d' : DB) (t : Title) (r : Review) :
  Review_objects_create now author (title_id t) text sc d = (Ok r, d') ->
  average_rating d' t = Some (round (mean (scores_of d t ++ [sc]))).
Proof.
  unfold Review_objects_create. intros H.
  destruct (existsb _ (reviews d)); [discriminate|].
  inversion H; subst; clear H.
  unfold average_rating, scores_of. simpl.
  rewrite filter_app, map_app. simpl. rewrite Nat.eqb_refl. simpl.
  destruct (map score (filter _ (reviews d))); reflexivity.
Qed.

End RatingFacts.

(** C5.  With no review whose title is [t] the rating is absent; with at
    least one it is [round] of the mean of their scores, an integer within
    a half of the exact mean.  A read of the title computes it from the
    reviews stored at that moment: after a review is stored for the title,
    the next read takes its score into account. *)
Theorem average_rating_is_rounded_mean (d : ORM.DB) (t : Models.Title) :
  let for_title :=
    filter (fun r => (Models.review_title r =? Models.title_id t)%nat)
           (ORM.reviews d) in
  (for_title = [] -> Rating.average_rating d t = None)
  /\ (for_title <> [] ->
      Rating.average_rating d t
      = Some (Rating.round (Rating.mean (map Models.score for_title)))
      /\ (Qabs (inject_Z (Rating.round (Rating.mean (map Models.score for_title)))
                - Rating.mean (map Models.score for_title)) <= 1 # 2)%Q)
  /\ Rating.read_title d t = (t, Rating.average_rating d t)
  /\ (forall now author text sc r d',
         ORM.Review_objects_create now author (Models.title_id t) text sc d
         = (Ok r, d') ->
         Rating.read_title d' t
         = (t, Some (Rating.round (Rating.mean (Rating.scores_of d t ++ [sc]))))).
Proof.
  intros for_title. split; [|split; [|split]].
  - apply average_rating_none.
  - intros Hne. split; [|apply round_nearest].
    apply average_rating_some. exact Hne.
  - reflexivity.
  - intros now author text sc r d' H. unfold Rating.read_title.
    rewrite (average_rating_after_create now author text sc d d' t r H).
    reflexivity.
Qed.

Lemma average_rating_is_rounded_mean_witness :
  let t := Models.mkTitle 1 "Dune" 1965 None None in
  let d := ORM.set_reviews [Models.mkReview 1 1 "good" 0 1 7;
                            Models.mkReview 2 2 "great" 0 1 8] 3 ORM.empty_db in
  Rating.average_rating ORM.empty_db t = None
  /\ Rating.average_rating d t = Some 8%Z
  /\ Rating.read_title (snd (ORM.Review_objects_create 5 3 1 "fine" 3 d)) t
     = (t, Some 6%Z).
Proof.
  intros t d. split; [|split].
  - exact (proj1 (average_rating_is_rounded_mean ORM.empty_db t) eq_refl).
  - apply (proj1 (proj1 (proj2 (average_rating_is_rounded_mean d t))
                        ltac:(discriminate))).
  - exact (proj2 (proj2 (proj2 (average_rating_is_rounded_mean d t)))
                 5 3 "fine" 3%Z _ _ eq_refl).
Defined.

(** ** Keys *)

Section Keys.
Context {A K : Type}.
Variable key : A -> K.

Lemma NoDup_map_inj_in (l : list A) (x y : A) :
  NoDup (map key l) -> In x l -> In y l -> key x = key y -> x = y.
Proof.
  induction l as [|z l IH]; intros Hnd Hx Hy Hk; [destruct Hx|].
  simpl in Hnd. inversion Hnd as [|k ks Hnotin Hnd']; subst.
  destruct Hx as [-> | Hx], Hy as [-> | Hy]; auto.
  - exfalso. apply Hnotin. rewrite Hk. apply in_map. exact Hy.
  - exfalso. apply Hnotin. rewrite <- Hk. apply in_map. exact Hx.
Qed.

Lemma NoDup_map_filter (p : A -> bool) (l : list A) :
  NoDup (map key l) -> NoDup (map key (filter p l)).
Proof.
  induction l as [|z l IH]; intros Hnd; simpl; [constructor|].
  simpl in Hnd. inversion Hnd as [|k ks Hnotin Hnd']; subst.
  destruct (p z); simpl; auto. constructor; auto.
  intros Hin. apply Hnotin. apply in_map_iff in Hin.
  destruct Hin as [w [Hw Hin]]. apply filter_In in Hin.
  rewrite <- Hw. apply in_map. tauto.
Qed.

End Keys.

(** ** The score validators *)

Section ScoreValidation.
Import Models ContentViews.

Lemma validators_range (s : Z) :
  run_validators Review_score_validators s = true <-> (1 <= s <= 10)%Z.
Proof.
  unfold run_validators, Review_score_validators. simpl.
  rewrite andb_true_r, andb_true_iff, !negb_true_iff, !Z.ltb_ge. lia.
Qed.

Lemma fields_valid_score (partial : bool) (p : ReviewData) :
  ReviewSerializer_fields_valid partial p = true ->
  match p_score p with
  | Some s => (1 <= s <= 10)%Z
  | None => partial = true
  end.
Proof.
  unfold ReviewSerializer_fields_valid, field_ok. intros H.
  apply andb_true_iff in H. destruct H as [_ H].
  destruct (p_score p) as [s|]; [apply validators_range|]; exact H.
Qed.

Lemma fields_invalid_score (partial : bool) (p : ReviewData) (s : Z) :
  p_score p = Some s -> ~ (1 <= s <= 10)%Z ->
  ReviewSerializer_fields_valid partial p = false.
Proof.
  intros Hs Hout. destruct (ReviewSerializer_fields_valid partial p) eqn:E;
    [|reflexivity].
  apply fields_valid_score in E. rewrite Hs in E. contradiction.
Qed.

End ScoreValidation.

(** ** The review table under the API *)

Section ReviewTable.
Import Models ORM Http Permissions ContentViews Invariants.

Variable ReviewSerializer_validate :
  Method -> option User -> nat -> DB -> ReviewData -> bool.

Lemma is_valid_ok (partial : bool) (m : Method) (actor : option User)
    (tid : nat) (d : DB) (p v : ReviewData) :
  ReviewSerializer_is_valid ReviewSerializer_validate partial m actor tid d p = Ok v ->
  v = p /\ ReviewSerializer_fields_valid partial p = true.
Proof.
  unfold ReviewSerializer_is_valid.
  destruct (ReviewSerializer_fields_valid partial p); simpl; [|discriminate].
  destruct (ReviewSerializer_validate m actor tid d p); [|discriminate].
  intros H. inversion H. auto.
Qed.

(** What a successful insert does to the table. *)
Lemma Review_objects_create_ok
    (now author title : nat) (text : string) (sc : Z) (d d' : DB) (r : Review) :
  Review_objects_create now author title text sc d = (Ok r, d') ->
  r = mkReview (seq_review d) author text now title sc
  /\ reviews d' = (reviews d ++ [r])%list
  /\ seq_review d' = S (seq_review d)
  /\ (forall x, In x (reviews d) -> review_key x <> review_key r).
Proof.
  unfold Review_objects_create. intros H.
  destruct (existsb _ (reviews d)) eqn:E; [discriminate|].
  inversion H; subst; clear H. simpl. repeat split.
  intros x Hx Hk. pose proof (existsb_false_forall _ _ E x Hx) as Hf.
  unfold unique_author_review in Hf. unfold review_key in Hk. simpl in *.
  inversion Hk as [[Ht Ha]]. rewrite Ht, Ha, !Nat.eqb_refl in Hf. discriminate.
Qed.

(** An insert that is refused leaves the database as it was. *)
Lemma Review_objects_create_raise
    (now author title : nat) (text : string) (sc : Z) (d d' : DB) (ex : Exn) :
  Review_objects_create now author title text sc d = (Raise ex, d') ->
  d' = d /\ ex = IntegrityError "unique_author_review".
Proof.
  unfold Review_objects_create.
  destruct (existsb _ (reviews d)); intros H; inversion H; auto.
Qed.

(** The storage layer refuses a second row for a stored (title, author). *)
Lemma Review_objects_create_conflict
    (now author title : nat) (text : string) (sc : Z) (d : DB) (r : Review) :
  In r (reviews d) -> review_title r = title -> review_author r = author ->
  Review_objects_create now author title text sc d
  = (Raise (IntegrityError "unique_author_review"), d).
Proof.
  intros Hin Ht Ha. unfold Review_objects_create.
  replace (existsb _ (reviews d)) with true; [reflexivity|].
  symmetry. apply existsb_exists. exists r. split; [exact Hin|].
  unfold unique_author_review. simpl. rewrite Ht, Ha, !Nat.eqb_refl. reflexivity.
Qed.

Lemma Review_save_raise (r : Review) (d d' : DB) (ex : Exn) :
  Review_save r d = (Raise ex, d') -> d' = d.
Proof.
  unfold Review_save. destruct (existsb _ (reviews d)); intros H; inversion H; auto.
Qed.

End ReviewTable.

Section ReviewLookup.
Import Models ORM Http Permissions ContentViews Invariants.

(** What [get_object] returns is a stored review of that title. *)
Lemma get_object_sound (m : Method) (actor : option User) (tid pk : nat)
    (d : DB) (obj : Review) :
  ReviewViewSet_get_object m actor tid pk d = Ok obj ->
  In obj (reviews d) /\ review_id obj = pk
  /\ check_object_permissions ReviewViewSet_permission_classes m actor
       (Some (review_author obj)) = true.
Proof.
  unfold ReviewViewSet_get_object, ReviewViewSet_get_queryset, bind.
  destruct (get_object_or_404 (titles d) _) as [t|ex]; [|discriminate].
  destruct (get_object_or_404 (filter _ (reviews d)) _) as [o|ex] eqn:E;
    [|discriminate].
  apply get_object_or_404_sound in E. destruct E as [Hin Hid].
  apply filter_In in Hin. apply Nat.eqb_eq in Hid.
  destruct (check_object_permissions ReviewViewSet_permission_classes m actor
              (Some (review_author o))) eqn:P;
    intros H; inversion H; subst. tauto.
Qed.

End ReviewLookup.

(** ** Every request to the review viewset is one of four writes *)

Section ReviewRequests.
Import Models ORM Http Permissions ContentViews Invariants.

Variable ReviewSerializer_validate :
  Method -> option User -> nat -> DB -> ReviewData -> bool.

Lemma create_writes (now : nat) (actor : option User) (tid : nat)
    (p : ReviewData) (d : DB) :
  ReviewWrite d (snd (ReviewViewSet_create ReviewSerializer_validate
                        now actor tid p d)).
Proof.
  unfold ReviewViewSet_create.
  destruct (initial _ POST actor); [|constructor].
  destruct (ReviewSerializer_is_valid _ false POST actor tid d p) as [v|ex] eqn:V;
    [|constructor].
  apply is_valid_ok in V. destruct V as [-> Hf].
  apply fields_valid_score in Hf.
  destruct (p_score p) as [s|] eqn:Hs; [|discriminate]. simpl.
  unfold ReviewViewSet_perform_create.
  destruct (get_object_or_404 (titles d) _) as [t|ex]; [|constructor].
  destruct (get_object_or_404 (users d) _) as [u|ex]; [|constructor].
  destruct (Review_objects_create now (user_id u) (title_id t)
              (or_else (p_text p) EmptyString) s d) as [[r|ex] d'] eqn:C.
  - destruct (Review_objects_create_ok _ _ _ _ _ _ _ _ C) as [Hr [_ [_ Hfresh]]].
    pose proof C as C'. unfold Review_objects_create in C'.
    destruct (existsb _ (reviews d)); [discriminate|].
    inversion C'; subst d'. simpl. rewrite H0.
    apply Inserted; [rewrite Hr; reflexivity | rewrite Hr; exact Hf | exact Hfresh].
  - apply Review_objects_create_raise in C. destruct C as [-> _]. constructor.
Qed.

Lemma update_writes (partial : bool) (actor : option User) (tid pk : nat)
    (p : ReviewData) (d : DB) :
  ReviewWrite d (snd (ReviewViewSet_update ReviewSerializer_validate
                        partial actor tid pk p d)).
Proof.
  unfold ReviewViewSet_update. cbv zeta.
  set (m := if partial then PATCH else PUT).
  destruct (initial ReviewViewSet_permission_classes m actor); [|constructor].
  destruct (ReviewViewSet_get_object m actor tid pk d) as [instance|ex] eqn:G;
    [|constructor].
  apply get_object_sound in G. destruct G as [Hin _].
  destruct (ReviewSerializer_is_valid ReviewSerializer_validate partial m actor
              tid d p) as [v|ex] eqn:V; [|constructor].
  apply is_valid_ok in V. destruct V as [-> Hf].
  apply fields_valid_score in Hf.
  destruct (Review_save (apply_review_data p instance) d) as [[r|ex] d'] eqn:S.
  - pose proof S as S'. unfold Review_save in S'.
    destruct (existsb _ (reviews d)); [discriminate|].
    inversion S'; subst. simpl.
    apply (Rewritten d instance (apply_review_data p instance));
      [exact Hin | reflexivity | reflexivity |].
    unfold score_in_range. simpl. destruct (p_score p); simpl; auto.
  - apply Review_save_raise in S. subst. constructor.
Qed.

Lemma destroy_writes (actor : option User) (tid pk : nat) (d : DB) :
  ReviewWrite d (snd (ReviewViewSet_destroy actor tid pk d)).
Proof.
  unfold ReviewViewSet_destroy.
  destruct (initial _ DELETE actor); [|constructor].
  destruct (ReviewViewSet_get_object DELETE actor tid pk d); constructor.
Qed.

Lemma handle_writes (now : nat) (actor : option User) (tid : nat)
    (req : ReviewRequest) (d : DB) :
  ReviewWrite d (snd (ReviewViewSet_handle ReviewSerializer_validate
                        now actor tid req d)).
Proof.
  destruct req; simpl;
    auto using create_writes, update_writes, destroy_writes, NoWrite.
Qed.

Lemma reviews_after_delete (gone : Review -> bool) (d : DB) :
  reviews (delete_reviews_where gone d)
  = filter (fun r => negb (gone r)) (reviews d)
  /\ seq_review (delete_reviews_where gone d) = seq_review d.
Proof. split; reflexivity. Qed.

(** Scores stay within 1..10 under every write. *)
Lemma write_keeps_scores (d d' : DB) :
  ReviewWrite d d' -> scores_in_range d -> scores_in_range d'.
Proof.
  unfold scores_in_range. intros W Hd. destruct W as [|r _ Hr _|old new Hin _ _ Hs|gone].
  - exact Hd.
  - simpl. apply Forall_app. split; [exact Hd|]. constructor; [exact Hr|constructor].
  - simpl. apply Forall_forall. intros x Hx. apply in_map_iff in Hx.
    destruct Hx as [y [Hy Hin']].
    rewrite Forall_forall in Hd.
    destruct (review_id y =? review_id new)%nat; subst x; auto.
  - destruct (reviews_after_delete gone d) as [-> _].
    apply Forall_forall. intros x Hx. apply filter_In in Hx.
    rewrite Forall_forall in Hd. apply Hd. tauto.
Qed.

(** Primary keys and the (title, author) constraint stay under every write. *)
Lemma write_keeps_keys (d d' : DB) :
  ReviewWrite d d' -> reviews_consistent d -> reviews_consistent d'.
Proof.
  unfold reviews_consistent, unique_review_ids, review_ids_issued,
    one_review_per_author.
  intros W [Hids [Hiss Hkeys]].
  destruct W as [|r Hid _ Hfresh|old new Hin Hid Hkey _|gone].
  - auto.
  - simpl. rewrite !map_app. simpl. repeat split.
    + apply NoDup_app; [exact Hids | repeat constructor; intros [] |].
      intros n Hn [<- | []]. apply in_map_iff in Hn. destruct Hn as [x [Hx Hn]].
      rewrite Forall_forall in Hiss. specialize (Hiss x Hn). lia.
    + apply Forall_app. split.
      * eapply Forall_impl; [|exact Hiss]. simpl. intros; lia.
      * constructor; [lia|constructor].
    + apply NoDup_app; [exact Hkeys | repeat constructor; intros [] |].
      intros k Hk [<- | []]. apply in_map_iff in Hk. destruct Hk as [x [Hx Hk]].
      exact (Hfresh x Hk Hx).
  - assert (Hsame : forall x, In x (reviews d) ->
              review_id (if (review_id x =? review_id new)%nat then new else x)
              = review_id x
              /\ review_key (if (review_id x =? review_id new)%nat then new else x)
                 = review_key x).
    { intros x Hx. destruct (Nat.eqb_spec (review_id x) (review_id new)) as [E|E];
        [|auto].
      assert (x = old)
        by (apply (NoDup_map_inj_in review_id (reviews d)); auto; congruence).
      subst x. auto. }
    simpl. rewrite !map_map.
    rewrite (map_ext_in _ review_id (reviews d)) by (intros x Hx; apply Hsame, Hx).
    rewrite (map_ext_in _ review_key (reviews d)) by (intros x Hx; apply Hsame, Hx).
    repeat split; auto.
    apply Forall_forall. intros x Hx. apply in_map_iff in Hx.
    destruct Hx as [y [Hy Hin']]. rewrite Forall_forall in Hiss.
    pose proof (Hiss y Hin') as Hy'. pose proof (Hiss old Hin) as Ho.
    destruct (review_id y =? review_id new)%nat; subst x; [rewrite Hid|]; assumption.
  - destruct (reviews_after_delete gone d) as [-> ->].
    repeat split; try apply NoDup_map_filter; auto.
    apply Forall_forall. intros x Hx. apply filter_In in Hx.
    rewrite Forall_forall in Hiss. apply Hiss. tauto.
Qed.

End ReviewRequests.

(** ** Score bounds and the rating *)

Section RatingBounds.
Import Models ORM Rating Invariants.

Lemma round_bounds (lo hi s : Z) (n : positive) :
  (lo * Zpos n <= s <= hi * Zpos n)%Z -> (lo <= round (s # n) <= hi)%Z.
Proof.
  intros Hs. unfold round. cbn [Qnum Qden].
  pose proof (Z.div_mod s (Zpos n) ltac:(lia)) as Hdm.
  pose proof (Z.mod_pos_bound s (Zpos n) ltac:(lia)) as Hm.
  set (f := (s / Zpos n)%Z) in *. set (m := (s mod Zpos n)%Z) in *.
  assert (Hlo : (lo <= f)%Z) by nia.
  assert (Hhi : (f <= hi)%Z) by nia.
  assert (Hup : (0 < m -> f + 1 <= hi)%Z) by nia.
  destruct (Z.ltb_spec (2 * m) (Zpos n)); [lia|].
  destruct (Z.ltb_spec (Zpos n) (2 * m)); [lia|].
  destruct (Z.even f); lia.
Qed.

Lemma sum_scores_bounds (l : list Z) :
  Forall (fun s => 1 <= s <= 10)%Z l ->
  (1 * Z.of_nat (List.length l) <= sum_scores l
   <= 10 * Z.of_nat (List.length l))%Z.
Proof.
  induction 1 as [|s l Hs _ IH]; [simpl; lia|].
  change (sum_scores (s :: l)) with (s + sum_scores l)%Z.
  change (List.length (s :: l)) with (S (List.length l)). lia.
Qed.

Lemma scores_of_in_range (d : DB) (t : Title) :
  scores_in_range d -> Forall (fun s => 1 <= s <= 10)%Z (scores_of d t).
Proof.
  unfold scores_in_range, scores_of. intros H.
  apply Forall_forall. intros s Hs. apply in_map_iff in Hs.
  destruct Hs as [r [<- Hr]]. apply filter_In in Hr.
  rewrite Forall_forall in H. apply H. tauto.
Qed.

(** With every stored score within 1..10, so is every rating. *)
Lemma average_rating_bounds (d : DB) (t : Title) (z : Z) :
  scores_in_range d -> average_rating d t = Some z -> (1 <= z <= 10)%Z.
Proof.
  intros Hd. pose proof (scores_of_in_range d t Hd) as Hl.
  unfold average_rating. destruct (scores_of d t) as [|s l] eqn:E; [discriminate|].
  intros H. inversion H; subst z; clear H.
  apply sum_scores_bounds in Hl. unfold mean. apply round_bounds.
  replace (Zpos (Pos.of_nat (List.length (s :: l))))
    with (Z.of_nat (List.length (s :: l))); [exact Hl|].
  simpl List.length. rewrite <- positive_nat_Z, Nat2Pos.id; lia.
Qed.

End RatingBounds.

(** A request that raised and left the database alone. *)
Ltac refused := simpl; split; [reflexivity | eexists; reflexivity].

(** C6.  Under every request to the review viewset, anonymous or not, the
    stored scores stay integers within 1..10.  A create or update whose
    payload carries a score outside 1..10 is refused by the serializer's
    validation, whatever else the serializer checks; the request stores
    nothing and does not succeed.  With the stored scores within 1..10,
    every rating is within 1..10 too. *)
Theorem review_scores_stay_in_range
    (validate : Http.Method -> option Models.User -> nat -> ORM.DB ->
                ContentViews.ReviewData -> bool)
    (now : nat) (actor : option Models.User) (tid : nat)
    (req : ContentViews.ReviewRequest) (d : ORM.DB) :
  let out := ContentViews.ReviewViewSet_handle validate now actor tid req d in
  (Invariants.scores_in_range d -> Invariants.scores_in_range (snd out))
  /\ (forall (p : ContentViews.ReviewData) (s : Z),
        ContentViews.p_score p = Some s ->
        ~ (1 <= s <= 10)%Z ->
        req = ContentViews.ReviewCreate p
        \/ (exists pk, req = ContentViews.ReviewUpdate pk p)
        \/ (exists pk, req = ContentViews.ReviewPartialUpdate pk p) ->
        (forall partial m,
            ContentViews.ReviewSerializer_is_valid validate partial m actor tid d p
            = Raise ValidationError)
        /\ snd out = d
        /\ exists ex, fst out = Raise ex)
  /\ (Invariants.scores_in_range d ->
      forall t z, Rating.average_rating d t = Some z -> (1 <= z <= 10)%Z).
Proof.
  intros out. subst out. split; [|split].
  - intros Hd. eapply write_keeps_scores; [apply handle_writes | exact Hd].
  - intros p s Hs Hout Hreq.
    assert (Hinvalid : forall partial m,
               ContentViews.ReviewSerializer_is_valid validate partial m actor tid d p
               = Raise ValidationError).
    { intros partial m. unfold ContentViews.ReviewSerializer_is_valid.
      rewrite (fields_invalid_score partial p s Hs Hout). reflexivity. }
    split; [exact Hinvalid|].
    destruct Hreq as [-> | [[pk ->] | [pk ->]]]; simpl.
    + unfold ContentViews.ReviewViewSet_create.
      destruct (Permissions.initial _ Http.POST actor) as [[]|ex]; [|refused].
      rewrite Hinvalid. refused.
    + unfold ContentViews.ReviewViewSet_update. cbv zeta.
      destruct (Permissions.initial _ Http.PUT actor) as [[]|ex]; [|refused].
      destruct (ContentViews.ReviewViewSet_get_object Http.PUT actor tid pk d);
        [|refused].
      rewrite Hinvalid. refused.
    + unfold ContentViews.ReviewViewSet_update. cbv zeta.
      destruct (Permissions.initial _ Http.PATCH actor) as [[]|ex]; [|refused].
      destruct (ContentViews.ReviewViewSet_get_object Http.PATCH actor tid pk d);
        [|refused].
      rewrite Hinvalid. refused.
  - intros Hd t z. apply average_rating_bounds. exact Hd.
Qed.

Lemma review_scores_stay_in_range_witness :
  let ann := Models.new_user 1 "ann" "ann@x.com" in
  let dune := Models.mkTitle 1 "Dune" 1965 None None in
  let d := ORM.set_reviews [Models.mkReview 1 1 "good" 0 1 7] 2
             (ORM.set_titles [dune] (ORM.set_users [ann] 2 ORM.empty_db)) in
  let accept := fun (_ : Http.Method) (_ : option Models.User) (_ : nat)
                    (_ : ORM.DB) (_ : ContentViews.ReviewData) => true in
  let too_high := ContentViews.mkReviewData (Some "again") (Some 11%Z) in
  Invariants.scores_in_range
    (snd (ContentViews.ReviewViewSet_handle accept 5 (Some ann) 1
            (ContentViews.ReviewPartialUpdate 1
               (ContentViews.mkReviewData None (Some 9%Z))) d))
  /\ snd (ContentViews.ReviewViewSet_handle accept 5 (Some ann) 1
            (ContentViews.ReviewPartialUpdate 1 too_high) d) = d
  /\ (1 <= 7 <= 10)%Z.
Proof.
  intros ann dune d accept too_high.
  assert (Hd : Invariants.scores_in_range d)
    by (repeat constructor; discriminate).
  split; [|split].
  - exact (proj1 (review_scores_stay_in_range accept 5 (Some ann) 1
                    (ContentViews.ReviewPartialUpdate 1
                       (ContentViews.mkReviewData None (Some 9%Z))) d) Hd).
  - apply (proj1 (proj2 (review_scores_stay_in_range accept 5 (Some ann) 1
                           (ContentViews.ReviewPartialUpdate 1 too_high) d))
                 too_high 11%Z eq_refl).
    + intros [_ H]. apply H. reflexivity.
    + right. right. exists 1. reflexivity.
  - exact (proj2 (proj2 (review_scores_stay_in_range accept 5 (Some ann) 1
                           ContentViews.ReviewList d))
                 Hd dune 7%Z eq_refl).
Defined.

(** ** One review per title and author *)

Lemma existsb_false_intro {A : Type} (p : A -> bool) (l : list A) :
  (forall x, In x l -> p x = false) -> existsb p l = false.
Proof.
  intros H. destruct (existsb p l) eqn:E; [|reflexivity].
  apply existsb_exists in E. destruct E as [x [Hx Hp]].
  rewrite (H x Hx) in Hp. discriminate.
Qed.

Section SecondReview.
Import Models ORM Http Permissions ContentViews Invariants.

Variable validate : Method -> option User -> nat -> DB -> ReviewData -> bool.
Variables (d : DB) (u : User) (t : Title) (r : Review).

Hypothesis Husers : unique_usernames d.
Hypothesis Htitles : unique_title_ids d.
Hypothesis Hreviews : reviews_consistent d.
Hypothesis Hu : In u (users d).
Hypothesis Ht : In t (titles d).
Hypothesis Hr : In r (reviews d).
Hypothesis Hrt : review_title r = title_id t.
Hypothesis Hra : review_author r = user_id u.

Lemma title_found :
  get_object_or_404 (titles d) (fun x => (title_id x =? title_id t)%nat) = Ok t.
Proof.
  apply (get_object_or_404_found title_id); auto.
  - apply Nat.eqb_refl.
  - intros y _ Hy. apply Nat.eqb_eq. exact Hy.
Qed.

Lemma user_found :
  get_object_or_404 (users d)
    (fun x => username x =? request_username (Some u)) = Ok u.
Proof.
  apply (get_object_or_404_found username); auto.
  - apply String.eqb_refl.
  - intros y _ Hy. apply String.eqb_eq. exact Hy.
Qed.

(** The hook of the view, for the author who already reviewed the title:
    the constraint answers, and nothing is stored. *)
Lemma perform_create_conflict (now : nat) (text : string) (sc : Z) :
  ReviewViewSet_perform_create now (Some u) (title_id t) text sc d
  = (Raise (IntegrityError "unique_author_review"), d).
Proof.
  unfold ReviewViewSet_perform_create. rewrite title_found, user_found.
  apply (Review_objects_create_conflict now _ _ text sc d r); auto.
Qed.

Lemma author_passes_initial (m : Method) :
  initial ReviewViewSet_permission_classes m (Some u) = Ok tt.
Proof.
  unfold initial, check_permissions. simpl.
  rewrite orb_true_r. reflexivity.
Qed.

Lemma author_gets_object (m : Method) :
  ReviewViewSet_get_object m (Some u) (title_id t) (review_id r) d = Ok r.
Proof.
  unfold ReviewViewSet_get_object, ReviewViewSet_get_queryset, bind.
  rewrite title_found.
  destruct Hreviews as [Hids _].
  rewrite (get_object_or_404_found review_id
             (fun x => (review_id x =? review_id r)%nat) _ r).
  - unfold check_object_permissions. simpl.
    rewrite Hra, Nat.eqb_refl, !orb_true_r. reflexivity.
  - apply NoDup_map_filter. exact Hids.
  - apply filter_In. split; [exact Hr|]. apply Nat.eqb_eq. exact Hrt.
  - apply Nat.eqb_refl.
  - intros y _ Hy. apply Nat.eqb_eq. exact Hy.
Qed.

(** Rewriting text and score of the stored review meets no constraint. *)
Lemma save_of_update (p : ReviewData) :
  Review_save (apply_review_data p r) d
  = (Ok (apply_review_data p r),
     set_reviews
       (map (fun x => if (review_id x =? review_id r)%nat
                      then apply_review_data p r else x) (reviews d))
       (seq_review d) d).
Proof.
  unfold Review_save. simpl.
  rewrite existsb_false_intro; [reflexivity|].
  intros x Hx. destruct Hreviews as [_ [_ Hkeys]].
  destruct (Nat.eqb_spec (review_id x) (review_id r)) as [E|E]; [reflexivity|].
  simpl. unfold unique_author_review. simpl.
  destruct (Nat.eqb_spec (review_title r) (review_title x)) as [E1|E1];
    [|reflexivity].
  destruct (Nat.eqb_spec (review_author r) (review_author x)) as [E2|E2];
    [|reflexivity].
  exfalso. apply E. f_equal.
  apply (NoDup_map_inj_in review_key (reviews d)); auto.
  unfold review_key. congruence.
Qed.

End SecondReview.



(** ** Requests under a parent that does not exist *)

Section MissingParent.
Import Models ORM Http Permissions ContentViews.

Variable review_validate : Method -> option User -> nat -> DB -> ReviewData -> bool.
Variable comment_validate : Method -> option User -> nat -> DB -> CommentData -> bool.

Lemma no_title (d : DB) (tid : nat) :
  (forall t, In t (titles d) -> title_id t <> tid) ->
  get_object_or_404 (titles d) (fun t => (title_id t =? tid)%nat) = Raise Http404.
Proof.
  intros H. apply get_object_or_404_missing.
  intros t Ht. apply Nat.eqb_neq. apply H. exact Ht.
Qed.

Lemma no_review (d : DB) (rid : nat) :
  (forall r, In r (reviews d) -> review_id r <> rid) ->
  get_object_or_404 (reviews d) (fun r => (review_id r =? rid)%nat) = Raise Http404.
Proof.
  intros H. apply get_object_or_404_missing.
  intros r Hr. apply Nat.eqb_neq. apply H. exact Hr.
Qed.

(** The hooks themselves: both look the parent up first. *)
Lemma review_hooks_404 (now : nat) (actor : option User) (tid : nat)
    (text : string) (sc : Z) (d : DB) :
  (forall t, In t (titles d) -> title_id t <> tid) ->
  ReviewViewSet_get_queryset tid d = Raise Http404
  /\ ReviewViewSet_perform_create now actor tid text sc d = (Raise Http404, d).
Proof.
  intros H. unfold ReviewViewSet_get_queryset, ReviewViewSet_perform_create, bind.
  rewrite (no_title d tid H). auto.
Qed.

Lemma comment_hooks_404 (now : nat) (actor : option User) (rid : nat)
    (text : string) (d : DB) :
  (forall r, In r (reviews d) -> review_id r <> rid) ->
  CommentViewSet_get_queryset rid d = Raise Http404
  /\ CommentViewSet_perform_create now actor rid text d = (Raise Http404, d).
Proof.
  intros H. unfold CommentViewSet_get_queryset, CommentViewSet_perform_create, bind.
  rewrite (no_review d rid H). auto.
Qed.

(** Reading needs no credentials. *)
Lemma anyone_may_read (actor : option User) :
  initial ReviewViewSet_permission_classes GET actor = Ok tt
  /\ initial CommentViewSet_permission_classes GET actor = Ok tt.
Proof. split; reflexivity. Qed.

End MissingParent.




(** * Further properties of the code *)

(** A lookup fails with a missing or an ambiguous row, nothing else. *)
Lemma get_object_or_404_sound_raise {A : Type} (rows : list A)
    (lookup : A -> bool) (ex : Exn) :
  ORM.get_object_or_404 rows lookup = Raise ex ->
  ex = Http404 \/ ex = MultipleObjectsReturned.
Proof.
  unfold ORM.get_object_or_404, ORM.objects_get.
  destruct (filter lookup rows) as [|y [|z l]]; intros H; inversion H; auto.
Qed.

(** ** Registration: what a signup touches *)

Section SignupEffects.
Import Models ORM Http AuthViews Invariants Schema.

Lemma set_users_same (d : DB) : set_users (users d) (seq_user d) d = d.
Proof. destruct d; reflexivity. Qed.

Lemma set_db_same (w : World) : set_db (db w) w = w.
Proof. destruct w; reflexivity. Qed.

Lemma User_objects_create_raise (u e : string) (d d' : DB) (ex : Exn) :
  User_objects_create u e d = (Raise ex, d') -> d' = d.
Proof.
  unfold User_objects_create.
  destruct (existsb _ (users d)); [intros H; inversion H; auto|].
  destruct (existsb _ (users d)); intros H; inversion H; auto.
Qed.

Lemma get_or_create_raise (u e : string) (d d' : DB) (ex : Exn) :
  get_or_create u e d = (Raise ex, d') -> d' = d.
Proof.
  unfold get_or_create.
  destruct (objects_get (users d) _) as [y|[|]].
  - discriminate.
  - destruct (User_objects_create u e d) as [[y|ex'] d1] eqn:C; [discriminate|].
    intros H. inversion H; subst. eapply User_objects_create_raise; eauto.
  - intros H. inversion H; auto.
Qed.

(** [get_or_create] writes to the user table only. *)
Lemma get_or_create_frame (u e : string) (d d' : DB) (x : User) (created : bool) :
  get_or_create u e d = (Ok (x, created), d') ->
  d' = set_users (users d') (seq_user d') d.
Proof.
  intros H. pose proof (get_or_create_spec u e d x created d' H) as [_ [_ [_ [_ Hc]]]].
  destruct created.
  - unfold get_or_create in H.
    destruct (objects_get (users d) _) as [y|[|]]; try discriminate.
    unfold User_objects_create in H.
    destruct (existsb _ (users d)); [discriminate|].
    destruct (existsb _ (users d)); [discriminate|].
    inversion H; subst. reflexivity.
  - subst d'. symmetry. apply set_users_same.
Qed.

(** [get_or_create] keeps the primary key and both unique columns. *)
Lemma get_or_create_consistent (u e : string) (d d' : DB) (x : User) (created : bool) :
  users_consistent d ->
  get_or_create u e d = (Ok (x, created), d') ->
  users_consistent d'.
Proof.
  intros Hd H. destruct created.
  - unfold get_or_create in H.
    destruct (objects_get (users d) _) as [y|[|]]; try discriminate.
    unfold User_objects_create in H.
    destruct (existsb (fun y => username y =? u) (users d)) eqn:Eu; [discriminate|].
    destruct (existsb (fun y => email y =? e) (users d)) eqn:Ee; [discriminate|].
    inversion H; subst; clear H.
    destruct Hd as [Hids [Hiss [Hnames Hmails]]].
    unfold users_consistent, unique_user_ids, user_ids_issued, unique_usernames,
      unique_emails in *. simpl. rewrite !map_app. simpl. repeat split.
    + apply NoDup_app; [exact Hids | repeat constructor; intros [] |].
      intros n Hn [<- | []]. apply in_map_iff in Hn. destruct Hn as [y [Hy Hn]].
      rewrite Forall_forall in Hiss. specialize (Hiss y Hn). lia.
    + apply Forall_app. split.
      * eapply Forall_impl; [|exact Hiss]. simpl. intros; lia.
      * constructor; [simpl; lia | constructor].
    + apply NoDup_app; [exact Hnames | repeat constructor; intros [] |].
      intros n Hn [<- | []]. apply in_map_iff in Hn. destruct Hn as [y [Hy Hn]].
      pose proof (existsb_false_forall _ _ Eu y Hn) as Hf. simpl in Hf.
      rewrite Hy, String.eqb_refl in Hf. discriminate.
    + apply NoDup_app; [exact Hmails | repeat constructor; intros [] |].
      intros n Hn [<- | []]. apply in_map_iff in Hn. destruct Hn as [y [Hy Hn]].
      pose proof (existsb_false_forall _ _ Ee y Hn) as Hf. simpl in Hf.
      rewrite Hy, String.eqb_refl in Hf. discriminate.
  - pose proof (get_or_create_spec u e d x false d' H) as [_ [_ [_ [_ Hc]]]].
    subst d'. exact Hd.
Qed.

(** A row stored under both values is what [get_or_create] returns. *)
Lemma get_or_create_existing (u e : string) (d : DB) (x : User) :
  unique_usernames d -> In x (users d) -> username x = u -> email x = e ->
  get_or_create u e d = (Ok (x, false), d).
Proof.
  intros Hnd Hin Hu He. unfold get_or_create, objects_get.
  rewrite (filter_unique username _ (users d) x Hnd Hin).
  - reflexivity.
  - rewrite Hu, He, !String.eqb_refl. reflexivity.
  - intros y _ Hy. apply andb_true_iff in Hy. destruct Hy as [Hy _].
    apply String.eqb_eq in Hy. congruence.
Qed.

End SignupEffects.






(** ** Confirmation: what a token request touches *)

(** X4.  Whatever a token request holds, the database and the outbox are
    left alone.  Either the answer is a 201, exactly one token is issued
    and its access token is what the body carries under "JWT-Код"; or the
    answer is not a 201, no token is issued and the body carries none. *)
Theorem confirm_effects
    (for_user : nat -> Models.User -> AuthViews.RefreshToken)
    (token_confirmation : ORM.DB -> Http.Data -> option (string * string))
    (now : nat) (data : Http.Data) (w : AuthViews.World) :
  let out := AuthViews.JWTTokenConfirmation_post for_user token_confirmation
               now data w in
  AuthViews.db (snd out) = AuthViews.db w
  /\ AuthViews.outbox (snd out) = AuthViews.outbox w
  /\ ((Http.http_status (fst out) = 201
       /\ exists t, AuthViews.issued (snd out) = (AuthViews.issued w ++ [t])%list
                    /\ Http.body_get "JWT-Код" (fst out)
                       = Some (AuthViews.access_token t))
      \/ (Http.http_status (fst out) <> 201
          /\ snd out = w
          /\ Http.body_get "JWT-Код" (fst out) = None)).
Proof.
  intros out. subst out.
  unfold AuthViews.JWTTokenConfirmation_post, AuthViews.JWTTokenConfirmation_confirm.
  destruct (token_confirmation (AuthViews.db w) data) as [[u code]|];
    [|simpl; repeat split; right; repeat split; discriminate].
  destruct (ORM.get_object_or_404 (ORM.users (AuthViews.db w)) _) as [x|ex] eqn:G.
  - destruct (code =? Models.confirmation_code x); simpl; repeat split.
    + left. split; [reflexivity|]. eexists. split; reflexivity.
    + right. repeat split. discriminate.
  - simpl. repeat split. right. repeat split.
    apply get_object_or_404_sound_raise in G. destruct G as [-> | ->]; discriminate.
Qed.

(** X5.  A confirmation code is not used up: when a token request is
    answered 201, the same request sent again, at any later time, is
    answered 201 again and issues a further token. *)
Theorem confirm_is_repeatable
    (for_user : nat -> Models.User -> AuthViews.RefreshToken)
    (token_confirmation : ORM.DB -> Http.Data -> option (string * string))
    (now later : nat) (data : Http.Data) (w : AuthViews.World) :
  let post := AuthViews.JWTTokenConfirmation_post for_user token_confirmation in
  Http.http_status (fst (post now data w)) = 201 ->
  Http.http_status (fst (post later data (snd (post now data w)))) = 201
  /\ List.length (AuthViews.issued (snd (post later data (snd (post now data w)))))
     = 2 + List.length (AuthViews.issued w).
Proof.
  cbv zeta.
  unfold AuthViews.JWTTokenConfirmation_post, AuthViews.JWTTokenConfirmation_confirm.
  destruct (token_confirmation (AuthViews.db w) data) as [[u code]|] eqn:S;
    [|discriminate].
  destruct (ORM.get_object_or_404 (ORM.users (AuthViews.db w)) _) as [x|ex] eqn:G.
  - destruct (code =? Models.confirmation_code x) eqn:E; [|discriminate].
    intros _. simpl. rewrite S, G, E. simpl.
    rewrite !length_app. simpl. split; [reflexivity|lia].
  - apply get_object_or_404_sound_raise in G. destruct G as [-> | ->]; discriminate.
Qed.

Lemma confirm_is_repeatable_witness :
  Http.http_status
    (fst (Examples.token_post 4 (Examples.bob_with "not defined yet")
            (snd (Examples.token_post 3 (Examples.bob_with "not defined yet")
                    Examples.world1)))) = 201
  /\ List.length
       (AuthViews.issued
          (snd (Examples.token_post 4 (Examples.bob_with "not defined yet")
                  (snd (Examples.token_post 3 (Examples.bob_with "not defined yet")
                          Examples.world1)))))
     = 2 + List.length (AuthViews.issued Examples.world1).
Proof.
  exact (confirm_is_repeatable Examples.for_user Examples.token_confirmation
           3 4 (Examples.bob_with "not defined yet") Examples.world1 eq_refl).
Defined.

(** X6.  A signup keeps the user table within its schema: primary keys
    stay unique and below the key counter, usernames stay unique and
    emails stay unique, whether the request succeeds or not. *)
Theorem signup_keeps_user_table
    (EMAIL_HOST_USER : option string)
    (make_token : nat -> Models.User -> string)
    (registration : ORM.DB -> Http.Data -> option (string * string))
    (registration_data : Http.Data -> Http.Data)
    (now : nat) (data : Http.Data) (w : AuthViews.World) :
  Schema.users_consistent (AuthViews.db w) ->
  Schema.users_consistent
    (AuthViews.db (snd (AuthViews.UserCreation_post EMAIL_HOST_USER make_token
                          registration registration_data now data w))).
Proof.
  intros Hw. unfold AuthViews.UserCreation_post.
  destruct (registration (AuthViews.db w) data) as [[u e]|]; [|exact Hw].
  unfold AuthViews.UserCreation_signup.
  destruct (ORM.get_or_create u e (AuthViews.db w)) as [[[x created]|ex] d'] eqn:G.
  - simpl. exact (get_or_create_consistent u e _ d' x created Hw G).
  - apply get_or_create_raise in G. subst d'. simpl. exact Hw.
Qed.

Lemma signup_keeps_user_table_witness :
  Schema.users_consistent (AuthViews.db Examples.world2).
Proof.
  assert (H0 : Schema.users_consistent (AuthViews.db Examples.world0))
    by (repeat split; constructor).
  pose proof (signup_keeps_user_table None Examples.make_token
                Examples.registration (fun data => data) 1 Examples.bob
                Examples.world0 H0) as H1.
  exact (signup_keeps_user_table None Examples.make_token
           Examples.registration (fun data => data) 2 Examples.bob
           Examples.world1 H1).
Defined.

(** X7.  The rows a signup adds are plain users: any user stored after
    the request that was not stored before has the role "user", is
    neither staff nor superuser, hence neither admin nor moderator, and
    carries the default confirmation code. *)
Theorem signup_creates_plain_users
    (EMAIL_HOST_USER : option string)
    (make_token : nat -> Models.User -> string)
    (registration : ORM.DB -> Http.Data -> option (string * string))
    (registration_data : Http.Data -> Http.Data)
    (now : nat) (data : Http.Data) (w : AuthViews.World) (x : Models.User) :
  In x (ORM.users (AuthViews.db
         (snd (AuthViews.UserCreation_post EMAIL_HOST_USER make_token
                 registration registration_data now data w)))) ->
  In x (ORM.users (AuthViews.db w))
  \/ (Models.role x = Settings.USER
      /\ Models.is_staff x = false
      /\ Models.is_superuser x = false
      /\ Models.is_admin x = false
      /\ Models.is_moderator x = false
      /\ Models.confirmation_code x = Models.confirmation_code_default).
Proof.
  unfold AuthViews.UserCreation_post.
  destruct (registration (AuthViews.db w) data) as [[u e]|]; [|auto].
  unfold AuthViews.UserCreation_signup.
  destruct (ORM.get_or_create u e (AuthViews.db w)) as [[[y created]|ex] d'] eqn:G.
  - pose proof (get_or_create_spec u e _ y created d' G) as [_ [_ [_ [_ Hc]]]].
    simpl. destruct created.
    + destruct Hc as [Hy ->]. intros Hin. apply in_app_or in Hin.
      destruct Hin as [Hin | [<- | []]]; [auto|].
      right. subst y. repeat split.
    + subst d'. auto.
  - apply get_or_create_raise in G. subst d'. simpl. auto.
Qed.

Lemma signup_creates_plain_users_witness :
  In (Models.new_user 1 "bob" "bob@x.com") (ORM.users (AuthViews.db Examples.world0))
  \/ (Models.role (Models.new_user 1 "bob" "bob@x.com") = Settings.USER
      /\ Models.is_staff (Models.new_user 1 "bob" "bob@x.com") = false
      /\ Models.is_superuser (Models.new_user 1 "bob" "bob@x.com") = false
      /\ Models.is_admin (Models.new_user 1 "bob" "bob@x.com") = false
      /\ Models.is_moderator (Models.new_user 1 "bob" "bob@x.com") = false
      /\ Models.confirmation_code (Models.new_user 1 "bob" "bob@x.com")
         = Models.confirmation_code_default).
Proof.
  apply (signup_creates_plain_users None Examples.make_token Examples.registration
           (fun data => data) 1 Examples.bob Examples.world0).
  left. reflexivity.
Defined.

(** ** How reviews and comments print *)

Section Slices.

Lemma substring_0_length (n : nat) (s : string) :
  String.length (substring 0 n s) = Nat.min n (String.length s).
Proof.
  revert s. induction n as [|n IH]; intros [|c s]; simpl; auto.
Qed.

Lemma substring_0_prefix (n : nat) (s : string) :
  prefix (substring 0 n s) s = true.
Proof.
  revert s. induction n as [|n IH]; intros [|c s]; simpl; auto.
  destruct (Ascii.ascii_dec c c) as [_|Hc]; [apply IH | contradiction].
Qed.

Lemma substring_0_all (n : nat) (s : string) :
  String.length s <= n -> substring 0 n s = s.
Proof.
  revert s. induction n as [|n IH]; intros [|c s] H; simpl in *; auto.
  - lia.
  - f_equal. apply IH. lia.
Qed.

End Slices.


(** ** Reviews: creating and reading back *)

Section ReviewCreation.
Import Models ORM Http Permissions ContentViews Invariants.

Variable validate : Method -> option User -> nat -> DB -> ReviewData -> bool.

Lemma fields_valid_full (p : ReviewData) :
  ReviewSerializer_fields_valid false p = true ->
  exists text sc,
    p_text p = Some text /\ text <> EmptyString
    /\ p_score p = Some sc /\ (1 <= sc <= 10)%Z.
Proof.
  intros H. pose proof (fields_valid_score false p H) as Hs.
  unfold ReviewSerializer_fields_valid, field_ok in H.
  apply andb_true_iff in H. destruct H as [Ht _].
  destruct (p_text p) as [text|]; [|discriminate].
  destruct (p_score p) as [sc|]; [|discriminate].
  exists text, sc. repeat split; try tauto.
  intros ->. discriminate.
Qed.

Lemma Review_objects_create_db
    (now author title : nat) (text : string) (sc : Z) (d d' : DB) (r : Review) :
  Review_objects_create now author title text sc d = (Ok r, d') ->
  d' = set_reviews (reviews d ++ [r]) (S (seq_review d)) d.
Proof.
  unfold Review_objects_create.
  destruct (existsb _ (reviews d)); intros H; inversion H; reflexivity.
Qed.

Lemma anonymous_is_stopped (classes : list BasePermission) (m : Method) :
  In IsAuthenticatedOrReadOnly classes -> is_safe m = false ->
  initial classes m None = Raise NotAuthenticated.
Proof.
  intros Hin Hm. unfold initial, check_permissions.
  replace (forallb _ classes) with false; [reflexivity|].
  symmetry. apply not_true_is_false. intros H.
  rewrite forallb_forall in H. specialize (H _ Hin). simpl in H.
  rewrite Hm in H. discriminate.
Qed.

(** What a create that went through has done. *)
Lemma create_ok_inversion (now : nat) (actor : option User) (tid : nat)
    (p : ReviewData) (d d' : DB) (resp : Response) :
  ReviewViewSet_create validate now actor tid p d = (Ok resp, d') ->
  exists a u t text sc,
    actor = Some a
    /\ In u (users d) /\ username u = username a
    /\ In t (titles d) /\ title_id t = tid
    /\ p_text p = Some text /\ p_score p = Some sc
    /\ resp = mkResponse 201
                (BReview (mkReview (seq_review d) (user_id u) text now tid sc))
    /\ d' = set_reviews
              (reviews d ++ [mkReview (seq_review d) (user_id u) text now tid sc])
              (S (seq_review d)) d.
Proof.
  unfold ReviewViewSet_create.
  destruct actor as [a|];
    [|rewrite anonymous_is_stopped by (simpl; auto); discriminate].
  destruct (initial _ POST (Some a)); [|discriminate].
  destruct (ReviewSerializer_is_valid validate false POST (Some a) tid d p)
    as [v|ex] eqn:V; [|discriminate].
  apply is_valid_ok in V. destruct V as [-> Hf].
  destruct (fields_valid_full p Hf) as [text [sc [Ht [_ [Hs _]]]]].
  rewrite Ht, Hs. simpl. unfold ReviewViewSet_perform_create.
  destruct (get_object_or_404 (titles d) _) as [t|ex] eqn:T; [|discriminate].
  destruct (get_object_or_404 (users d) _) as [u|ex] eqn:U; [|discriminate].
  apply get_object_or_404_sound in T. destruct T as [Tin Tid].
  apply get_object_or_404_sound in U. destruct U as [Uin Uname].
  apply Nat.eqb_eq in Tid. apply String.eqb_eq in Uname. simpl in Uname.
  destruct (Review_objects_create now (user_id u) (title_id t) text sc d)
    as [[r|ex] d1] eqn:C; [|discriminate].
  pose proof (Review_objects_create_db _ _ _ _ _ _ _ _ C) as Hd1.
  apply Review_objects_create_ok in C. destruct C as [Hr _].
  intros H. inversion H; subst resp d'. subst d1 r. rewrite Tid.
  exists a, u, t, text, sc. repeat split; auto.
Qed.

End ReviewCreation.

(** X9.  A review create that is answered with success was sent by an
    authenticated actor under an existing title.  The stored review
    carries the id of the user row with the actor's username, the
    [title_id] of the URL, the request time as publication date and a fresh
    id; text and score are those of the payload.  It is appended to the
    review table, the answer is 201 with that review, and nothing else in
    the database changes. *)
Theorem review_create_binds_author_and_title
    (validate : Http.Method -> option Models.User -> nat -> ORM.DB ->
                ContentViews.ReviewData -> bool)
    (now : nat) (actor : option Models.User) (tid : nat)
    (p : ContentViews.ReviewData) (d d' : ORM.DB) (resp : Http.Response) :
  ContentViews.ReviewViewSet_create validate now actor tid p d = (Ok resp, d') ->
  exists a u r,
    actor = Some a
    /\ In u (ORM.users d) /\ Models.username u = Models.username a
    /\ (exists t, In t (ORM.titles d) /\ Models.title_id t = tid)
    /\ Models.review_id r = ORM.seq_review d
    /\ Models.review_author r = Models.user_id u
    /\ Models.review_title r = tid
    /\ Models.review_pub_date r = now
    /\ Some (Models.review_text r) = ContentViews.p_text p
    /\ Some (Models.score r) = ContentViews.p_score p
    /\ resp = Http.mkResponse 201 (Http.BReview r)
    /\ ORM.reviews d' = (ORM.reviews d ++ [r])%list
    /\ ORM.set_reviews (ORM.reviews d) (ORM.seq_review d) d' = d.
Proof.
  intros H.
  destruct (create_ok_inversion validate now actor tid p d d' resp H)
    as [a [u [t [text [sc [Ha [Hu [Hn [Ht [Hid [Hp [Hs [Hr Hd]]]]]]]]]]]]].
  exists a, u, (Models.mkReview (ORM.seq_review d) (Models.user_id u) text now tid sc).
  subst d'. simpl. repeat split; eauto.
  destruct d; reflexivity.
Qed.

Lemma review_create_binds_author_and_title_witness :
  let ann := Models.new_user 1 "ann" "ann@x.com" in
  let dune := Models.mkTitle 1 "Dune" 1965 None None in
  let d := ORM.set_titles [dune] (ORM.set_users [ann] 2 ORM.empty_db) in
  let accept := fun (_ : Http.Method) (_ : option Models.User) (_ : nat)
                    (_ : ORM.DB) (_ : ContentViews.ReviewData) => true in
  let out := ContentViews.ReviewViewSet_create accept 5 (Some ann) 1
               (ContentViews.mkReviewData (Some "good") (Some 7%Z)) d in
  exists a u r,
    Some ann = Some a
    /\ In u (ORM.users d) /\ Models.username u = Models.username a
    /\ (exists t, In t (ORM.titles d) /\ Models.title_id t = 1)
    /\ Models.review_id r = ORM.seq_review d
    /\ Models.review_author r = Models.user_id u
    /\ Models.review_title r = 1
    /\ Models.review_pub_date r = 5
    /\ Some (Models.review_text r) = Some "good"
    /\ Some (Models.score r) = Some 7%Z
    /\ Http.mkResponse 201 (Http.BReview (Models.mkReview 1 1 "good" 5 1 7))
       = Http.mkResponse 201 (Http.BReview r)
    /\ ORM.reviews (snd out) = (ORM.reviews d ++ [r])%list
    /\ ORM.set_reviews (ORM.reviews d) (ORM.seq_review d) (snd out) = d.
Proof.
  intros ann dune d accept out.
  exact (review_create_binds_author_and_title accept 5 (Some ann) 1
           (ContentViews.mkReviewData (Some "good") (Some 7%Z)) d (snd out)
           (Http.mkResponse 201 (Http.BReview (Models.mkReview 1 1 "good" 5 1 7)))
           eq_refl).
Defined.

Section ReviewReading.
Import Models ORM Http Permissions ContentViews Invariants.

(** Over unique keys a lookup by key finds the row or misses it. *)
Lemma pk_lookup_cases {A : Type} (key : A -> nat) (rows : list A) (k : nat) :
  NoDup (map key rows) ->
  (exists x, In x rows /\ key x = k
             /\ get_object_or_404 rows (fun y => (key y =? k)%nat) = Ok x)
  \/ ((forall x, In x rows -> key x <> k)
      /\ get_object_or_404 rows (fun y => (key y =? k)%nat) = Raise Http404).
Proof.
  intros Hnd. destruct (existsb (fun y => (key y =? k)%nat) rows) eqn:E.
  - apply existsb_exists in E. destruct E as [x [Hx Hk]].
    apply Nat.eqb_eq in Hk. left. exists x. repeat split; auto.
    apply (get_object_or_404_found key); auto.
    + apply Nat.eqb_eq. exact Hk.
    + intros y _ Hy. apply Nat.eqb_eq in Hy. congruence.
  - right. assert (Hno : forall x, In x rows -> key x <> k).
    { intros x Hx. apply Nat.eqb_neq. exact (existsb_false_forall _ _ E x Hx). }
    split; [exact Hno|]. apply get_object_or_404_missing.
    intros x Hx. apply Nat.eqb_neq. auto.
Qed.

Lemma queryset_of_title (d : DB) (t : Title) :
  unique_title_ids d -> In t (titles d) ->
  ReviewViewSet_get_queryset (title_id t) d
  = Ok (filter (fun r => (review_title r =? title_id t)%nat) (reviews d)).
Proof.
  intros Hnd Hin. unfold ReviewViewSet_get_queryset, bind.
  rewrite (title_found d t Hnd Hin). reflexivity.
Qed.

(** The queryset holds reviews of the URL's title only. *)
Lemma queryset_sound (tid : nat) (d : DB) (qs : list Review) :
  ReviewViewSet_get_queryset tid d = Ok qs ->
  forall r, In r qs <-> In r (reviews d) /\ review_title r = tid.
Proof.
  unfold ReviewViewSet_get_queryset, bind.
  destruct (get_object_or_404 (titles d) _) as [t|ex] eqn:T; [|discriminate].
  apply get_object_or_404_sound in T. destruct T as [_ Tid].
  apply Nat.eqb_eq in Tid. intros H. inversion H; subst qs. intros r.
  rewrite filter_In, Nat.eqb_eq, Tid. tauto.
Qed.

Lemma get_object_in_queryset (m : Method) (actor : option User) (tid pk : nat)
    (d : DB) (obj : Review) :
  ReviewViewSet_get_object m actor tid pk d = Ok obj ->
  exists qs, ReviewViewSet_get_queryset tid d = Ok qs /\ In obj qs.
Proof.
  unfold ReviewViewSet_get_object, bind.
  destruct (ReviewViewSet_get_queryset tid d) as [qs|ex]; [|discriminate].
  destruct (get_object_or_404 qs _) as [o|ex] eqn:E; [|discriminate].
  apply get_object_or_404_sound in E.
  destruct (check_object_permissions _ m actor _); intros H; inversion H; subst.
  exists qs. tauto.
Qed.

(** A key no review of the queryset has is a 404, whoever asks. *)
Lemma get_object_missing (m : Method) (actor : option User) (tid pk : nat) (d : DB) :
  (forall qs, ReviewViewSet_get_queryset tid d = Ok qs ->
              forall r, In r qs -> review_id r <> pk) ->
  (forall ex, ReviewViewSet_get_queryset tid d = Raise ex -> ex = Http404) ->
  ReviewViewSet_get_object m actor tid pk d = Raise Http404.
Proof.
  intros Hno Hex. unfold ReviewViewSet_get_object, bind.
  destruct (ReviewViewSet_get_queryset tid d) as [qs|ex].
  - rewrite get_object_or_404_missing; [reflexivity|].
    intros r Hr. apply Nat.eqb_neq. exact (Hno qs eq_refl r Hr).
  - rewrite (Hex ex eq_refl). reflexivity.
Qed.

Lemma queryset_raises_404 (tid : nat) (d : DB) (ex : Exn) :
  unique_title_ids d ->
  ReviewViewSet_get_queryset tid d = Raise ex -> ex = Http404.
Proof.
  intros Hnd. unfold ReviewViewSet_get_queryset, bind.
  destruct (pk_lookup_cases title_id (titles d) tid Hnd)
    as [[t [_ [_ ->]]] | [_ ->]]; intros H; inversion H; reflexivity.
Qed.

Lemma reading_is_allowed (actor : option User) (author : option nat) :
  check_object_permissions ReviewViewSet_permission_classes GET actor author = true.
Proof. reflexivity. Qed.

End ReviewReading.



(** ** Reviews: one object under its title *)



Section ReviewUpdating.
Import Models ORM Http Permissions ContentViews Invariants.

Variable validate : Method -> option User -> nat -> DB -> ReviewData -> bool.

(** What an update that went through has done. *)
Lemma update_ok_inversion (partial : bool) (actor : option User) (tid pk : nat)
    (p : ReviewData) (d d' : DB) (resp : Response) :
  ReviewViewSet_update validate partial actor tid pk p d = (Ok resp, d') ->
  exists old,
    In old (reviews d) /\ review_id old = pk /\ review_title old = tid
    /\ ReviewSerializer_fields_valid partial p = true
    /\ check_object_permissions ReviewViewSet_permission_classes
         (if partial then PATCH else PUT) actor (Some (review_author old)) = true
    /\ resp = mkResponse 200 (BReview (apply_review_data p old))
    /\ d' = set_reviews
              (map (fun x => if (review_id x =? pk)%nat
                             then apply_review_data p old else x) (reviews d))
              (seq_review d) d.
Proof.
  unfold ReviewViewSet_update. cbv zeta.
  set (m := if partial then PATCH else PUT).
  destruct (initial ReviewViewSet_permission_classes m actor); [|discriminate].
  destruct (ReviewViewSet_get_object m actor tid pk d) as [old|ex] eqn:G;
    [|discriminate].
  destruct (get_object_in_queryset _ _ _ _ _ _ G) as [qs [Hqs Hq]].
  apply (queryset_sound tid d qs Hqs) in Hq. destruct Hq as [_ Ht].
  apply get_object_sound in G. destruct G as [Hin [Hid Hperm]].
  destruct (ReviewSerializer_is_valid validate partial m actor tid d p)
    as [v|ex] eqn:V; [|discriminate].
  apply is_valid_ok in V. destruct V as [-> Hf].
  unfold Review_save.
  destruct (existsb _ (reviews d)); [discriminate|].
  intros H. inversion H; subst resp d'. simpl. rewrite Hid.
  exists old. repeat split; auto.
Qed.

Lemma replace_other_rows (pk : nat) (new : Review) (rows : list Review) (x : Review) :
  In x rows -> review_id x <> pk ->
  In x (map (fun y => if (review_id y =? pk)%nat then new else y) rows).
Proof.
  intros Hin Hne. apply in_map_iff. exists x. split; [|exact Hin].
  apply Nat.eqb_neq in Hne. rewrite Hne. reflexivity.
Qed.

End ReviewUpdating.

(** X12.  An update or partial update that is answered with success has
    rewritten one stored review of the URL's title, the one with the id of
    the URL.  Its id, author, title and publication date are as before;
    text and score are those of the payload where it gives them and as
    before where it does not, the score within 1..10 when given.  Every
    other review is still stored, the table has as many rows as before,
    and nothing else in the database changes. *)
Theorem review_update_keeps_identity
    (validate : Http.Method -> option Models.User -> nat -> ORM.DB ->
                ContentViews.ReviewData -> bool)
    (partial : bool) (actor : option Models.User) (tid pk : nat)
    (p : ContentViews.ReviewData) (d d' : ORM.DB) (resp : Http.Response) :
  ContentViews.ReviewViewSet_update validate partial actor tid pk p d
  = (Ok resp, d') ->
  exists old new,
    In old (ORM.reviews d) /\ In new (ORM.reviews d')
    /\ resp = Http.mkResponse 200 (Http.BReview new)
    /\ Models.review_id old = pk /\ Models.review_title old = tid
    /\ Models.review_id new = Models.review_id old
    /\ Models.review_author new = Models.review_author old
    /\ Models.review_title new = Models.review_title old
    /\ Models.review_pub_date new = Models.review_pub_date old
    /\ Models.review_text new
       = ContentViews.or_else (ContentViews.p_text p) (Models.review_text old)
    /\ Models.score new
       = ContentViews.or_else (ContentViews.p_score p) (Models.score old)
    /\ (forall s, ContentViews.p_score p = Some s -> (1 <= s <= 10)%Z)
    /\ (forall x, In x (ORM.reviews d) -> Models.review_id x <> pk ->
                  In x (ORM.reviews d'))
    /\ List.length (ORM.reviews d') = List.length (ORM.reviews d)
    /\ ORM.set_reviews (ORM.reviews d) (ORM.seq_review d) d' = d.
Proof.
  intros H.
  destruct (update_ok_inversion validate partial actor tid pk p d d' resp H)
    as [old [Hin [Hid [Ht [Hf [_ [Hr Hd]]]]]]].
  exists old, (ContentViews.apply_review_data p old).
  subst d'. simpl.
  split; [exact Hin|]. split.
  { apply in_map_iff. exists old. split; [|exact Hin].
    rewrite Hid, Nat.eqb_refl. reflexivity. }
  split; [exact Hr|]. split; [exact Hid|]. split; [exact Ht|].
  do 6 (split; [reflexivity|]). split.
  { intros s Hs. apply fields_valid_score in Hf. rewrite Hs in Hf. exact Hf. }
  split.
  { intros x Hx Hne. apply replace_other_rows; assumption. }
  split; [apply length_map|]. destruct d; reflexivity.
Qed.

Lemma review_update_keeps_identity_witness :
  let ann := Models.new_user 1 "ann" "ann@x.com" in
  let d := ORM.set_reviews [Models.mkReview 1 1 "good" 0 1 7] 2
             (ORM.set_titles [Models.mkTitle 1 "Dune" 1965 None None]
                (ORM.set_users [ann] 2 ORM.empty_db)) in
  let accept := fun (_ : Http.Method) (_ : option Models.User) (_ : nat)
                    (_ : ORM.DB) (_ : ContentViews.ReviewData) => true in
  let out := ContentViews.ReviewViewSet_update accept true (Some ann) 1 1
               (ContentViews.mkReviewData None (Some 9%Z)) d in
  exists old new,
    In old (ORM.reviews d) /\ In new (ORM.reviews (snd out))
    /\ Http.mkResponse 200 (Http.BReview (Models.mkReview 1 1 "good" 0 1 9))
       = Http.mkResponse 200 (Http.BReview new)
    /\ Models.review_id old = 1 /\ Models.review_title old = 1
    /\ Models.review_id new = Models.review_id old
    /\ Models.review_author new = Models.review_author old
    /\ Models.review_title new = Models.review_title old
    /\ Models.review_pub_date new = Models.review_pub_date old
    /\ Models.review_text new = Models.review_text old
    /\ Models.score new = 9%Z
    /\ (forall s, Some 9%Z = Some s -> (1 <= s <= 10)%Z)
    /\ (forall x, In x (ORM.reviews d) -> Models.review_id x <> 1 ->
                  In x (ORM.reviews (snd out)))
    /\ List.length (ORM.reviews (snd out)) = List.length (ORM.reviews d)
    /\ ORM.set_reviews (ORM.reviews d) (ORM.seq_review d) (snd out) = d.
Proof.
  intros ann d accept out.
  exact (review_update_keeps_identity accept true (Some ann) 1 1
           (ContentViews.mkReviewData None (Some 9%Z)) d (snd out)
           (Http.mkResponse 200 (Http.BReview (Models.mkReview 1 1 "good" 0 1 9)))
           eq_refl).
Defined.

(** ** Reviews: deleting *)

Section ReviewDeleting.
Import Models ORM Http Permissions ContentViews Invariants.

(** The comments that go with the review of key [pk]. *)
Lemma orphans_of_pk (pk k : nat) (rows : list Review) (old : Review) :
  In old rows -> review_id old = pk ->
  existsb (fun r => (review_id r =? k)%nat)
          (filter (fun r => (review_id r =? pk)%nat) rows)
  = (k =? pk)%nat.
Proof.
  intros Hin Hid. destruct (Nat.eqb_spec k pk) as [E|E].
  - apply existsb_exists. exists old. split.
    + apply filter_In. split; [exact Hin|]. apply Nat.eqb_eq. exact Hid.
    + apply Nat.eqb_eq. congruence.
  - apply existsb_false_intro. intros x Hx. apply filter_In in Hx.
    destruct Hx as [_ Hx]. apply Nat.eqb_eq in Hx. apply Nat.eqb_neq. congruence.
Qed.

(** What a delete that went through has done. *)
Lemma destroy_ok_inversion (actor : option User) (tid pk : nat)
    (d d' : DB) (resp : Response) :
  ReviewViewSet_destroy actor tid pk d = (Ok resp, d') ->
  exists old qs,
    In old (reviews d) /\ review_id old = pk /\ review_title old = tid
    /\ ReviewViewSet_get_queryset tid d = Ok qs
    /\ resp = mkResponse 204 BEmpty
    /\ d' = delete_reviews_where (fun r => (review_id r =? pk)%nat) d.
Proof.
  unfold ReviewViewSet_destroy.
  destruct (initial _ DELETE actor); [|discriminate].
  destruct (ReviewViewSet_get_object DELETE actor tid pk d) as [old|ex] eqn:G;
    [|discriminate].
  destruct (get_object_in_queryset _ _ _ _ _ _ G) as [qs [Hqs Hq]].
  apply (queryset_sound tid d qs Hqs) in Hq. destruct Hq as [_ Ht].
  apply get_object_sound in G. destruct G as [Hin [Hid _]].
  intros H. inversion H; subst resp d'. rewrite Hid.
  exists old, qs. repeat split; assumption.
Qed.

End ReviewDeleting.

(** X13.  A review delete that is answered with success (204) has removed
    the review of the URL's title with the id of the URL, and with it
    exactly the comments under that review.  Every other review and every
    comment under another review is still stored, in place; users, titles,
    categories, genres and genre links are untouched; and from then on a
    retrieve of that id under that title is a 404 for everyone. *)
Theorem review_destroy_cascades
    (actor reader : option Models.User) (tid pk : nat)
    (d d' : ORM.DB) (resp : Http.Response) :
  ContentViews.ReviewViewSet_destroy actor tid pk d = (Ok resp, d') ->
  resp = Http.mkResponse 204 Http.BEmpty
  /\ (exists old, In old (ORM.reviews d) /\ Models.review_id old = pk
                  /\ Models.review_title old = tid)
  /\ ORM.reviews d'
     = filter (fun r => negb (Models.review_id r =? pk)%nat) (ORM.reviews d)
  /\ ORM.comments d'
     = filter (fun c => negb (Models.comment_review c =? pk)%nat) (ORM.comments d)
  /\ (ORM.users d', ORM.titles d', ORM.categories d', ORM.genres d',
      ORM.genre_titles d')
     = (ORM.users d, ORM.titles d, ORM.categories d, ORM.genres d,
        ORM.genre_titles d)
  /\ ContentViews.ReviewViewSet_retrieve reader tid pk d' = Raise Http404.
Proof.
  intros H.
  destruct (destroy_ok_inversion actor tid pk d d' resp H)
    as [old [qs [Hin [Hid [Ht [Hqs [Hr Hd]]]]]]].
  split; [exact Hr|]. split; [eauto|].
  assert (Hreviews : ORM.reviews d'
            = filter (fun r => negb (Models.review_id r =? pk)%nat) (ORM.reviews d))
    by (subst d'; reflexivity).
  split; [exact Hreviews|]. split.
  - subst d'. unfold ORM.delete_reviews_where. simpl.
    apply filter_ext. intros c.
    rewrite (orphans_of_pk pk (Models.comment_review c) (ORM.reviews d) old Hin Hid).
    reflexivity.
  - split; [subst d'; reflexivity|].
    unfold ContentViews.ReviewViewSet_retrieve.
    rewrite (proj1 (anyone_may_read reader)). unfold bind at 1.
    rewrite get_object_missing; [reflexivity| |].
    + intros qs' Hqs' x Hx. apply (queryset_sound tid d' qs' Hqs') in Hx.
      destruct Hx as [Hx _]. rewrite Hreviews in Hx. apply filter_In in Hx.
      destruct Hx as [_ Hx]. apply negb_true_iff in Hx. apply Nat.eqb_neq. exact Hx.
    + intros ex Hex. exfalso. revert Hex Hqs.
      unfold ContentViews.ReviewViewSet_get_queryset, bind.
      replace (ORM.titles d') with (ORM.titles d) by (subst d'; reflexivity).
      destruct (ORM.get_object_or_404 (ORM.titles d) _); discriminate.
Qed.

Lemma review_destroy_cascades_witness :
  let ann := Models.new_user 1 "ann" "ann@x.com" in
  let d := ORM.set_comments [Models.mkComment 1 1 "indeed" 0 1;
                             Models.mkComment 2 1 "hm" 0 2] 3
             (ORM.set_reviews [Models.mkReview 1 1 "good" 0 1 7;
                               Models.mkReview 2 1 "fine" 0 2 6] 3
                (ORM.set_titles [Models.mkTitle 1 "Dune" 1965 None None;
                                 Models.mkTitle 2 "Emma" 1815 None None]
                   (ORM.set_users [ann] 2 ORM.empty_db))) in
  let out := ContentViews.ReviewViewSet_destroy (Some ann) 1 1 d in
  fst out = Ok (Http.mkResponse 204 Http.BEmpty)
  /\ ORM.reviews (snd out) = [Models.mkReview 2 1 "fine" 0 2 6]
  /\ ORM.comments (snd out) = [Models.mkComment 2 1 "hm" 0 2]
  /\ ContentViews.ReviewViewSet_retrieve None 1 1 (snd out) = Raise Http404.
Proof.
  intros ann d out.
  destruct (review_destroy_cascades (Some ann) None 1 1 d (snd out)
              (Http.mkResponse 204 Http.BEmpty) eq_refl)
    as [_ [_ [Hr [Hc [_ Hget]]]]].
  split; [reflexivity|]. split; [exact Hr|]. split; [exact Hc|exact Hget].
Defined.

(** ** Writing needs credentials *)


(** ** Comments *)

Section CommentCreation.
Import Models ORM Http Permissions ContentViews Invariants.

Variable validate : Method -> option User -> nat -> DB -> CommentData -> bool.

(** What a comment create that went through has done. *)
Lemma comment_create_ok_inversion (now : nat) (actor : option User) (rid : nat)
    (p : CommentData) (d d' : DB) (resp : Response) :
  CommentViewSet_create validate now actor rid p d = (Ok resp, d') ->
  exists a review text,
    actor = Some a
    /\ get_object_or_404 (reviews d) (fun r => (review_id r =? rid)%nat) = Ok review
    /\ review_id review = rid
    /\ c_text p = Some text /\ text <> EmptyString
    /\ resp = mkResponse 201
                (BComment (mkComment (seq_comment d) (user_id a) text now rid))
    /\ d' = set_comments
              (comments d ++ [mkComment (seq_comment d) (user_id a) text now rid])
              (S (seq_comment d)) d.
Proof.
  unfold CommentViewSet_create.
  destruct actor as [a|];
    [|rewrite anonymous_is_stopped by (simpl; auto); discriminate].
  destruct (initial _ POST (Some a)); [|discriminate].
  unfold CommentSerializer_is_valid, CommentSerializer_fields_valid, field_ok.
  destruct (c_text p) as [text|] eqn:Ht; [|discriminate].
  destruct (negb (text =? EmptyString)) eqn:Hne; [|discriminate].
  destruct (validate POST (Some a) rid d p); [|discriminate].
  simpl. rewrite Ht. simpl. unfold CommentViewSet_perform_create.
  destruct (get_object_or_404 (reviews d) _) as [review|ex] eqn:R; [|discriminate].
  pose proof (get_object_or_404_sound _ _ _ R) as [_ Rid].
  apply Nat.eqb_eq in Rid. unfold Comment_objects_create.
  intros H. inversion H; subst resp d'. rewrite Rid.
  exists a, review, text. repeat split; auto.
  intros ->. discriminate.
Qed.

End CommentCreation.



(** ** Foreign keys *)

Section ForeignKeys.
Import Models ORM Cascades.

Lemma has_key_iff {A : Type} (key : A -> nat) (rows : list A) (k : nat) :
  has_key key rows k = true <-> exists x, In x rows /\ key x = k.
Proof.
  unfold has_key. rewrite existsb_exists. split; intros [x [Hx Hk]]; exists x;
    (split; [exact Hx|]); apply Nat.eqb_eq; exact Hk.
Qed.

(** A key survives a filter that keeps its row. *)
Lemma has_key_filter {A : Type} (key : A -> nat) (keep : A -> bool)
    (rows : list A) (k : nat) :
  has_key key rows k = true ->
  (forall x, In x rows -> key x = k -> keep x = true) ->
  has_key key (filter keep rows) k = true.
Proof.
  intros H Hkeep. apply has_key_iff in H. destruct H as [x [Hx Hk]].
  apply has_key_iff. exists x. split; [|exact Hk].
  apply filter_In. auto.
Qed.

(** A key survives a rewrite of rows that keeps their keys. *)
Lemma has_key_map {A : Type} (key : A -> nat) (f : A -> A)
    (rows : list A) (k : nat) :
  has_key key rows k = true ->
  (forall x, In x rows -> key (f x) = key x) ->
  has_key key (map f rows) k = true.
Proof.
  intros H Hf. apply has_key_iff in H. destruct H as [x [Hx Hk]].
  apply has_key_iff. exists (f x). split; [apply in_map; exact Hx|].
  rewrite Hf; auto.
Qed.

Lemma has_key_app {A : Type} (key : A -> nat) (rows more : list A) (k : nat) :
  has_key key rows k = true -> has_key key (rows ++ more) k = true.
Proof.
  unfold has_key. rewrite existsb_app. intros ->. reflexivity.
Qed.

Lemma foreign_keys_ok_iff (d : DB) :
  foreign_keys_ok d = true
  <-> (forall t, In t (titles d) -> title_refs_ok d t = true)
      /\ (forall gt, In gt (genre_titles d) -> genre_title_refs_ok d gt = true)
      /\ (forall r, In r (reviews d) -> review_refs_ok d r = true)
      /\ (forall c, In c (comments d) -> comment_refs_ok d c = true).
Proof.
  unfold foreign_keys_ok. rewrite !andb_true_iff, !forallb_forall. tauto.
Qed.

(** Deleting reviews, whichever, takes the comments under them along. *)
Lemma delete_reviews_keeps_foreign_keys (gone : Review -> bool) (d : DB) :
  foreign_keys_ok d = true ->
  foreign_keys_ok (delete_reviews_where gone d) = true.
Proof.
  rewrite !foreign_keys_ok_iff. intros [Ht [Hg [Hr Hc]]].
  unfold delete_reviews_where. simpl. repeat split.
  - exact Ht.
  - exact Hg.
  - intros r Hin. apply filter_In in Hin. apply Hr. tauto.
  - intros c Hin. apply filter_In in Hin. destruct Hin as [Hin Horphan].
    specialize (Hc c Hin). unfold comment_refs_ok in *. simpl.
    apply andb_true_iff in Hc. destruct Hc as [Hrev Husr].
    apply andb_true_iff. split; [|exact Husr].
    apply has_key_filter; [exact Hrev|].
    intros x Hx Hk. destruct (gone x) eqn:G; [|reflexivity].
    exfalso. apply negb_true_iff in Horphan.
    assert (existsb (fun r => (review_id r =? comment_review c)%nat)
                    (filter gone (reviews d)) = true).
    { apply existsb_exists. exists x. split.
      - apply filter_In. auto.
      - apply Nat.eqb_eq. exact Hk. }
    congruence.
Qed.

(** Deleting titles takes their reviews, comments and genre links along. *)
Lemma delete_titles_keeps_foreign_keys (gone : Title -> bool) (d : DB) :
  foreign_keys_ok d = true ->
  foreign_keys_ok (delete_titles_where gone d) = true.
Proof.
  intros Hd. unfold delete_titles_where. simpl.
  set (of_dead := fun k => existsb (fun t => (title_id t =? k)%nat)
                                   (filter gone (titles d))).
  pose proof (delete_reviews_keeps_foreign_keys
                (fun r => of_dead (review_title r)) d Hd) as H1.
  set (d1 := delete_reviews_where (fun r => of_dead (review_title r)) d) in *.
  assert (Hkeep : forall k, has_key title_id (titles d) k = true ->
                            of_dead k = false ->
                            has_key title_id
                              (filter (fun t => negb (gone t)) (titles d)) k = true).
  { intros k Hk Hdead. apply has_key_filter; [exact Hk|].
    intros x Hx Hid. destruct (gone x) eqn:G; [|reflexivity].
    exfalso. assert (of_dead k = true); [|congruence].
    apply existsb_exists. exists x. split.
    - apply filter_In. auto.
    - apply Nat.eqb_eq. exact Hid. }
  apply foreign_keys_ok_iff in H1. destruct H1 as [Ht [Hg [Hr Hc]]].
  apply foreign_keys_ok_iff. simpl. repeat split.
  - intros t Hin. apply filter_In in Hin. apply (Ht t). tauto.
  - intros gt Hin. apply filter_In in Hin. destruct Hin as [Hin Halive].
    specialize (Hg gt Hin). unfold genre_title_refs_ok in *. simpl in *.
    apply andb_true_iff in Hg. destruct Hg as [Hgen Htit].
    apply andb_true_iff. split; [exact Hgen|].
    apply Hkeep; [exact Htit|]. apply negb_true_iff. exact Halive.
  - intros r Hin. pose proof Hin as Hin'. apply filter_In in Hin'.
    destruct Hin' as [_ Halive].
    specialize (Hr r Hin). unfold review_refs_ok in *. simpl in *.
    apply andb_true_iff in Hr. destruct Hr as [Htit Husr].
    apply andb_true_iff. split; [|exact Husr].
    apply Hkeep; [exact Htit|]. apply negb_true_iff. exact Halive.
  - intros c Hin. exact (Hc c Hin).
Qed.

End ForeignKeys.

(** X16.  Deleting a category leaves no dangling reference: if every
    foreign key pointed at a stored row before [category.delete()], every
    one does after, and no stored title refers to the deleted category any
    more. *)
Theorem category_delete_keeps_foreign_keys (c : Models.Category) (d : ORM.DB) :
  Cascades.foreign_keys_ok d = true ->
  Cascades.foreign_keys_ok (ORM.Category_delete c d) = true
  /\ (forall t, In t (ORM.titles (ORM.Category_delete c d)) ->
                Models.category t <> Some (Models.ns_id c)).
Proof.
  intros Hd. apply foreign_keys_ok_iff in Hd. destruct Hd as [Ht [Hg [Hr Hc]]].
  assert (Hids : forall k,
             Cascades.has_key Models.title_id (ORM.titles d) k = true ->
             Cascades.has_key Models.title_id
               (map (fun t => if ORM.in_category c t
                              then ORM.clear_category t else t) (ORM.titles d)) k
             = true).
  { intros k Hk. apply has_key_map; [exact Hk|].
    intros x _. destruct (ORM.in_category c x); reflexivity. }
  split.
  - apply foreign_keys_ok_iff. unfold ORM.Category_delete. simpl. repeat split.
    + intros t' Hin. apply in_map_iff in Hin. destruct Hin as [t [<- Hin]].
      specialize (Ht t Hin). unfold Cascades.title_refs_ok in *. simpl.
      destruct (ORM.in_category c t) eqn:E; [reflexivity|].
      unfold ORM.in_category in E.
      destruct (Models.category t) as [k|]; [|reflexivity].
      apply has_key_filter; [exact Ht|].
      intros x _ Hk. rewrite Hk, E. reflexivity.
    + intros gt Hin. specialize (Hg gt Hin).
      unfold Cascades.genre_title_refs_ok in *. simpl.
      apply andb_true_iff in Hg. destruct Hg as [Hgen Htit].
      rewrite Hgen. simpl. apply Hids. exact Htit.
    + intros r Hin. specialize (Hr r Hin).
      unfold Cascades.review_refs_ok in *. simpl.
      apply andb_true_iff in Hr. destruct Hr as [Htit Husr].
      rewrite Husr, andb_true_r. apply Hids. exact Htit.
    + intros x Hin. exact (Hc x Hin).
  - unfold ORM.Category_delete. simpl. intros t' Hin.
    apply in_map_iff in Hin. destruct Hin as [t [<- _]].
    destruct (ORM.in_category c t) eqn:E; [discriminate|].
    unfold ORM.in_category in E. destruct (Models.category t) as [k|];
      [|discriminate].
    intros H. inversion H; subst k. rewrite Nat.eqb_refl in E. discriminate.
Qed.

Lemma category_delete_keeps_foreign_keys_witness :
  let books := Models.mkNameSlug 1 "Books" "books" in
  let d := ORM.set_titles [Models.mkTitle 1 "Dune" 1965 None (Some 1)]
             (ORM.set_categories [books] ORM.empty_db) in
  Cascades.foreign_keys_ok (ORM.Category_delete books d) = true
  /\ (forall t, In t (ORM.titles (ORM.Category_delete books d)) ->
                Models.category t <> Some 1).
Proof.
  intros books d.
  exact (category_delete_keeps_foreign_keys books d eq_refl).
Defined.

(** X17.  Deleting a genre removes the genre and exactly the genre links
    that point to it.  No title is deleted or changed, categories, users,
    reviews and comments are untouched, the other links stay in place, and
    foreign keys that all pointed at stored rows still do. *)
Theorem genre_delete_cascades_to_links (g : Models.Genre) (d : ORM.DB) :
  let d' := Cascades.Genre_delete g d in
  ORM.genre_titles d'
  = filter (fun gt => negb (Models.gt_genre gt =? Models.ns_id g)%nat)
           (ORM.genre_titles d)
  /\ ORM.genres d'
     = filter (fun x => negb (Models.ns_id x =? Models.ns_id g)%nat) (ORM.genres d)
  /\ (ORM.titles d', ORM.categories d', ORM.users d', ORM.reviews d',
      ORM.comments d')
     = (ORM.titles d, ORM.categories d, ORM.users d, ORM.reviews d, ORM.comments d)
  /\ (Cascades.foreign_keys_ok d = true -> Cascades.foreign_keys_ok d' = true).
Proof.
  unfold Cascades.Genre_delete. simpl. repeat split.
  intros Hd. apply foreign_keys_ok_iff in Hd. destruct Hd as [Ht [Hg [Hr Hc]]].
  apply foreign_keys_ok_iff. simpl. repeat split; auto.
  intros gt Hin. apply filter_In in Hin. destruct Hin as [Hin Hother].
  specialize (Hg gt Hin). unfold Cascades.genre_title_refs_ok in *. simpl.
  apply andb_true_iff in Hg. destruct Hg as [Hgen Htit].
  rewrite Htit, andb_true_r. apply has_key_filter; [exact Hgen|].
  intros x _ Hk. rewrite Hk. exact Hother.
Qed.

Section CascadeKeys.
Import Models ORM Cascades.

(** The keys among the rows selected by one key. *)
Lemma selected_keys {A : Type} (key : A -> nat) (rows : list A) (pk k : nat)
    (old : A) :
  In old rows -> key old = pk ->
  existsb (fun x => (key x =? k)%nat) (filter (fun x => (key x =? pk)%nat) rows)
  = (k =? pk)%nat.
Proof.
  intros Hin Hid. destruct (Nat.eqb_spec k pk) as [E|E].
  - apply existsb_exists. exists old. split.
    + apply filter_In. split; [exact Hin|]. apply Nat.eqb_eq. exact Hid.
    + apply Nat.eqb_eq. congruence.
  - apply existsb_false_intro. intros x Hx. apply filter_In in Hx.
    destruct Hx as [_ Hx]. apply Nat.eqb_eq in Hx. apply Nat.eqb_neq. congruence.
Qed.

(** A comment stays when no deleted review is the one it is under. *)
Lemma comment_survives (gone : Review -> bool) (rows : list Review) (c : Comment) :
  negb (existsb (fun r => (review_id r =? comment_review c)%nat)
                (filter gone rows)) = true
  <-> (forall r, In r rows -> review_id r = comment_review c -> gone r = false).
Proof.
  rewrite negb_true_iff. split.
  - intros H r Hr Hid. destruct (gone r) eqn:G; [|reflexivity].
    assert (existsb (fun x => (review_id x =? comment_review c)%nat)
                    (filter gone rows) = true); [|congruence].
    apply existsb_exists. exists r. split.
    + apply filter_In. auto.
    + apply Nat.eqb_eq. exact Hid.
  - intros H. apply existsb_false_intro. intros r Hr.
    apply filter_In in Hr. destruct Hr as [Hr G].
    apply Nat.eqb_neq. intros Hid. rewrite (H r Hr Hid) in G. discriminate.
Qed.

End CascadeKeys.

(** X18.  Deleting a stored title removes the title, its reviews, its
    genre links, and the comments under its reviews, and nothing else:
    the other titles, the reviews and links of other titles and the
    comments under reviews of other titles stay in place; users,
    categories and genres are untouched; and foreign keys that all pointed
    at stored rows still do. *)
Theorem title_delete_cascades (t : Models.Title) (d : ORM.DB) :
  In t (ORM.titles d) ->
  let d' := Cascades.Title_delete t d in
  ORM.titles d'
  = filter (fun x => negb (Models.title_id x =? Models.title_id t)%nat)
           (ORM.titles d)
  /\ ORM.reviews d'
     = filter (fun r => negb (Models.review_title r =? Models.title_id t)%nat)
              (ORM.reviews d)
  /\ ORM.genre_titles d'
     = filter (fun gt => negb (Models.gt_title gt =? Models.title_id t)%nat)
              (ORM.genre_titles d)
  /\ (forall c, In c (ORM.comments d')
                <-> In c (ORM.comments d)
                    /\ forall r, In r (ORM.reviews d) ->
                                 Models.review_id r = Models.comment_review c ->
                                 Models.review_title r <> Models.title_id t)
  /\ (ORM.users d', ORM.categories d', ORM.genres d')
     = (ORM.users d, ORM.categories d, ORM.genres d)
  /\ (Cascades.foreign_keys_ok d = true -> Cascades.foreign_keys_ok d' = true).
Proof.
  intros Hin d'. subst d'. unfold Cascades.Title_delete.
  assert (Hdead : forall k,
             existsb (fun x => (Models.title_id x =? k)%nat)
               (filter (fun x => (Models.title_id x =? Models.title_id t)%nat)
                       (ORM.titles d))
             = (k =? Models.title_id t)%nat)
    by (intros k; apply (selected_keys Models.title_id _ _ k t Hin eq_refl)).
  split; [reflexivity|]. split; [|split; [|split; [|split]]].
  - unfold ORM.delete_titles_where. simpl. apply filter_ext. intros r.
    rewrite Hdead. reflexivity.
  - unfold ORM.delete_titles_where. simpl. apply filter_ext. intros gt.
    rewrite Hdead. reflexivity.
  - intros c. unfold ORM.delete_titles_where. simpl.
    rewrite filter_In, comment_survives. split; intros [Hc H]; (split; [exact Hc|]);
      intros r Hr Hid; specialize (H r Hr Hid); rewrite Hdead in *.
    + apply Nat.eqb_neq. exact H.
    + apply Nat.eqb_neq. exact H.
  - reflexivity.
  - apply delete_titles_keeps_foreign_keys.
Qed.

Lemma title_delete_cascades_witness :
  let dune := Models.mkTitle 1 "Dune" 1965 None None in
  let d := ORM.set_comments [Models.mkComment 1 1 "indeed" 0 1;
                             Models.mkComment 2 1 "hm" 0 2] 3
             (ORM.set_reviews [Models.mkReview 1 1 "good" 0 1 7;
                               Models.mkReview 2 1 "fine" 0 2 6] 3
                (ORM.set_titles [dune; Models.mkTitle 2 "Emma" 1815 None None]
                   (ORM.set_users [Models.new_user 1 "ann" "ann@x.com"] 2
                      ORM.empty_db))) in
  ORM.reviews (Cascades.Title_delete dune d) = [Models.mkReview 2 1 "fine" 0 2 6]
  /\ Cascades.foreign_keys_ok (Cascades.Title_delete dune d) = true.
Proof.
  intros dune d.
  destruct (title_delete_cascades dune d (or_introl eq_refl))
    as [_ [Hr [_ [_ [_ Hfk]]]]].
  split; [exact Hr | exact (Hfk eq_refl)].
Defined.

(** X19.  Deleting a user removes the user, the reviews the user wrote
    with every comment under them, and the comments the user wrote, and
    nothing else: other users, the reviews of other authors and the
    comments of other authors under reviews of other authors stay in
    place; titles, categories, genres and genre links are untouched; and
    foreign keys that all pointed at stored rows still do. *)
Theorem user_delete_cascades (u : Models.User) (d : ORM.DB) :
  let d' := Cascades.User_delete u d in
  ORM.users d'
  = filter (fun x => negb (Models.user_id x =? Models.user_id u)%nat) (ORM.users d)
  /\ ORM.reviews d'
     = filter (fun r => negb (Models.review_author r =? Models.user_id u)%nat)
              (ORM.reviews d)
  /\ (forall c, In c (ORM.comments d')
                <-> In c (ORM.comments d)
                    /\ Models.comment_author c <> Models.user_id u
                    /\ forall r, In r (ORM.reviews d) ->
                                 Models.review_id r = Models.comment_review c ->
                                 Models.review_author r <> Models.user_id u)
  /\ (ORM.titles d', ORM.categories d', ORM.genres d', ORM.genre_titles d')
     = (ORM.titles d, ORM.categories d, ORM.genres d, ORM.genre_titles d)
  /\ (Cascades.foreign_keys_ok d = true -> Cascades.foreign_keys_ok d' = true).
Proof.
  cbv zeta. unfold Cascades.User_delete. simpl.
  split; [reflexivity|]. split; [reflexivity|]. split; [|split; [reflexivity|]].
  - intros c. rewrite !filter_In, comment_survives, negb_true_iff, Nat.eqb_neq.
    split.
    + intros [[Hc H] Ha]. repeat split; auto.
      intros r Hr Hid. apply Nat.eqb_neq. exact (H r Hr Hid).
    + intros [Hc [Ha H]]. repeat split; auto.
      intros r Hr Hid. apply Nat.eqb_neq. exact (H r Hr Hid).
  - intros Hd.
    pose proof (delete_reviews_keeps_foreign_keys
                  (fun r => (Models.review_author r =? Models.user_id u)%nat) d Hd)
      as H1.
    apply foreign_keys_ok_iff in H1. destruct H1 as [Ht [Hg [Hr Hc]]].
    assert (Hkeep : forall k,
               Cascades.has_key Models.user_id (ORM.users d) k = true ->
               k <> Models.user_id u ->
               Cascades.has_key Models.user_id
                 (filter (fun x => negb (Models.user_id x =? Models.user_id u)%nat)
                         (ORM.users d)) k = true).
    { intros k Hk Hne. apply has_key_filter; [exact Hk|].
      intros x _ Hid. apply negb_true_iff, Nat.eqb_neq. congruence. }
    apply foreign_keys_ok_iff. simpl. repeat split.
    + exact Ht.
    + exact Hg.
    + intros r Hin. pose proof Hin as Hin'. apply filter_In in Hin'.
      destruct Hin' as [_ Hauthor]. apply negb_true_iff, Nat.eqb_neq in Hauthor.
      specialize (Hr r Hin). unfold Cascades.review_refs_ok in *. simpl in *.
      apply andb_true_iff in Hr. destruct Hr as [Htit Husr].
      rewrite Htit. simpl. apply Hkeep; assumption.
    + intros c Hin. apply filter_In in Hin. destruct Hin as [Hin Hauthor].
      apply negb_true_iff, Nat.eqb_neq in Hauthor.
      specialize (Hc c Hin). unfold Cascades.comment_refs_ok in *. simpl in *.
      apply andb_true_iff in Hc. destruct Hc as [Hrev Husr].
      rewrite Hrev. simpl. apply Hkeep; assumption.
Qed.

Section RequestsAndForeignKeys.
Import Models ORM Http Permissions ContentViews Cascades.

Variable validate : Method -> option User -> nat -> DB -> ReviewData -> bool.
Variable comment_validate : Method -> option User -> nat -> DB -> CommentData -> bool.

Lemma create_raise_db (now : nat) (actor : option User) (tid : nat)
    (p : ReviewData) (d d' : DB) (ex : Exn) :
  ReviewViewSet_create validate now actor tid p d = (Raise ex, d') -> d' = d.
Proof.
  unfold ReviewViewSet_create.
  destruct (initial _ POST actor); [|intros H; inversion H; reflexivity].
  destruct (ReviewSerializer_is_valid validate false POST actor tid d p) as [v|e];
    [|intros H; inversion H; reflexivity].
  unfold ReviewViewSet_perform_create.
  destruct (get_object_or_404 (titles d) _); [|intros H; inversion H; reflexivity].
  destruct (get_object_or_404 (users d) _); [|intros H; inversion H; reflexivity].
  destruct (Review_objects_create _ _ _ _ _ d) as [[r|e] d1] eqn:C;
    [discriminate|].
  apply Review_objects_create_raise in C. destruct C as [-> _].
  intros H. inversion H; reflexivity.
Qed.

Lemma update_raise_db (partial : bool) (actor : option User) (tid pk : nat)
    (p : ReviewData) (d d' : DB) (ex : Exn) :
  ReviewViewSet_update validate partial actor tid pk p d = (Raise ex, d') -> d' = d.
Proof.
  unfold ReviewViewSet_update. cbv zeta.
  set (m := if partial then PATCH else PUT).
  destruct (initial ReviewViewSet_permission_classes m actor);
    [|intros H; inversion H; reflexivity].
  destruct (ReviewViewSet_get_object m actor tid pk d) as [old|e];
    [|intros H; inversion H; reflexivity].
  destruct (ReviewSerializer_is_valid validate partial m actor tid d p) as [v|e];
    [|intros H; inversion H; reflexivity].
  destruct (Review_save (apply_review_data v old) d) as [[r|e] d1] eqn:S;
    [discriminate|].
  apply Review_save_raise in S. subst d1. intros H. inversion H; reflexivity.
Qed.

Lemma destroy_raise_db (actor : option User) (tid pk : nat) (d d' : DB) (ex : Exn) :
  ReviewViewSet_destroy actor tid pk d = (Raise ex, d') -> d' = d.
Proof.
  unfold ReviewViewSet_destroy.
  destruct (initial _ DELETE actor); [|intros H; inversion H; reflexivity].
  destruct (ReviewViewSet_get_object DELETE actor tid pk d);
    intros H; inversion H; reflexivity.
Qed.

Lemma comment_create_raise_db (now : nat) (actor : option User) (rid : nat)
    (p : CommentData) (d d' : DB) (ex : Exn) :
  CommentViewSet_create comment_validate now actor rid p d = (Raise ex, d') ->
  d' = d.
Proof.
  unfold CommentViewSet_create.
  destruct (initial _ POST actor); [|intros H; inversion H; reflexivity].
  destruct (CommentSerializer_is_valid comment_validate false POST actor rid d p);
    [|intros H; inversion H; reflexivity].
  unfold CommentViewSet_perform_create.
  destruct (get_object_or_404 (reviews d) _); [|intros H; inversion H; reflexivity].
  destruct actor; [discriminate|]. intros H. inversion H; reflexivity.
Qed.

(** A new review of a stored title by a stored user dangles nowhere. *)
Lemma insert_review_keeps_foreign_keys (r : Review) (n : nat) (d : DB) :
  foreign_keys_ok d = true ->
  review_refs_ok d r = true ->
  foreign_keys_ok (set_reviews (reviews d ++ [r]) n d) = true.
Proof.
  rewrite !foreign_keys_ok_iff. intros [Ht [Hg [Hr Hc]]] Hnew.
  simpl. repeat split; auto.
  - intros x Hin. apply in_app_or in Hin.
    destruct Hin as [Hin | [<- | []]]; [exact (Hr x Hin) | exact Hnew].
  - intros c Hin. specialize (Hc c Hin). unfold comment_refs_ok in *. simpl.
    apply andb_true_iff in Hc. destruct Hc as [Hrev Husr].
    rewrite Husr, andb_true_r. apply has_key_app. exact Hrev.
Qed.

(** Rewriting a review in place, title and author kept, dangles nowhere. *)
Lemma rewrite_review_keeps_foreign_keys (old new : Review) (d : DB) :
  foreign_keys_ok d = true ->
  In old (reviews d) ->
  review_id new = review_id old ->
  review_title new = review_title old ->
  review_author new = review_author old ->
  foreign_keys_ok
    (set_reviews
       (map (fun x => if (review_id x =? review_id old)%nat then new else x)
            (reviews d))
       (seq_review d) d) = true.
Proof.
  rewrite !foreign_keys_ok_iff. intros [Ht [Hg [Hr Hc]]] Hin Hid Htit Haut.
  simpl. repeat split; auto.
  - intros x' Hx. apply in_map_iff in Hx. destruct Hx as [x [<- Hx]].
    destruct (review_id x =? review_id old)%nat; [|exact (Hr x Hx)].
    specialize (Hr old Hin). unfold review_refs_ok in *. simpl.
    rewrite Htit, Haut. exact Hr.
  - intros c Hx. specialize (Hc c Hx). unfold comment_refs_ok in *. simpl.
    apply andb_true_iff in Hc. destruct Hc as [Hrev Husr].
    rewrite Husr, andb_true_r. apply has_key_map; [exact Hrev|].
    intros x _. destruct (Nat.eqb_spec (review_id x) (review_id old)); congruence.
Qed.

End RequestsAndForeignKeys.

(** X20.  No request to the review viewset leaves a dangling reference:
    if every foreign key pointed at a stored row before the request,
    every one does after it, whatever the request, the actor and the
    payload, and whether it succeeds or not. *)
Theorem review_requests_keep_foreign_keys
    (validate : Http.Method -> option Models.User -> nat -> ORM.DB ->
                ContentViews.ReviewData -> bool)
    (now : nat) (actor : option Models.User) (tid : nat)
    (req : ContentViews.ReviewRequest) (d : ORM.DB) :
  Cascades.foreign_keys_ok d = true ->
  Cascades.foreign_keys_ok
    (snd (ContentViews.ReviewViewSet_handle validate now actor tid req d)) = true.
Proof.
  intros Hd. destruct req as [| p | pk | pk p | pk p | pk]; simpl; try exact Hd.
  - destruct (ContentViews.ReviewViewSet_create validate now actor tid p d)
      as [[resp|ex] d'] eqn:C; simpl.
    + destruct (create_ok_inversion validate now actor tid p d d' resp C)
        as [a [u [t [text [sc [_ [Hu [_ [Ht [Hid [_ [_ [_ ->]]]]]]]]]]]]].
      apply insert_review_keeps_foreign_keys; [exact Hd|].
      unfold Cascades.review_refs_ok. simpl. apply andb_true_iff. split.
      * apply has_key_iff. eauto.
      * apply has_key_iff. eauto.
    + apply create_raise_db in C. subst d'. exact Hd.
  - destruct (ContentViews.ReviewViewSet_update validate false actor tid pk p d)
      as [[resp|ex] d'] eqn:U; simpl.
    + destruct (update_ok_inversion validate false actor tid pk p d d' resp U)
        as [old [Hin [Hid [_ [_ [_ [_ ->]]]]]]].
      rewrite <- Hid. apply rewrite_review_keeps_foreign_keys; auto.
    + apply update_raise_db in U. subst d'. exact Hd.
  - destruct (ContentViews.ReviewViewSet_update validate true actor tid pk p d)
      as [[resp|ex] d'] eqn:U; simpl.
    + destruct (update_ok_inversion validate true actor tid pk p d d' resp U)
        as [old [Hin [Hid [_ [_ [_ [_ ->]]]]]]].
      rewrite <- Hid. apply rewrite_review_keeps_foreign_keys; auto.
    + apply update_raise_db in U. subst d'. exact Hd.
  - destruct (ContentViews.ReviewViewSet_destroy actor tid pk d)
      as [[resp|ex] d'] eqn:D; simpl.
    + destruct (destroy_ok_inversion actor tid pk d d' resp D)
        as [old [qs [_ [_ [_ [_ [_ ->]]]]]]].
      apply delete_reviews_keeps_foreign_keys. exact Hd.
    + apply destroy_raise_db in D. subst d'. exact Hd.
Qed.

Lemma review_requests_keep_foreign_keys_witness :
  let ann := Models.new_user 1 "ann" "ann@x.com" in
  let d := ORM.set_comments [Models.mkComment 1 1 "indeed" 0 1] 2
             (ORM.set_reviews [Models.mkReview 1 1 "good" 0 1 7] 2
                (ORM.set_titles [Models.mkTitle 1 "Dune" 1965 None None]
                   (ORM.set_users [ann] 2 ORM.empty_db))) in
  Cascades.foreign_keys_ok
    (snd (ContentViews.ReviewViewSet_handle (fun _ _ _ _ _ => true) 5 (Some ann) 1
            (ContentViews.ReviewDestroy 1) d)) = true.
Proof.
  intros ann d.
  exact (review_requests_keep_foreign_keys (fun _ _ _ _ _ => true) 5 (Some ann) 1
           (ContentViews.ReviewDestroy 1) d eq_refl).
Defined.



(** ** The user's own profile *)

Section SelfProfileFacts.
Import Models ORM Http Permissions UserViews Schema Invariants.

Variable UserSerializer_data : User -> Data.
Variable UserSerializer_run : DB -> User -> Data -> User + Data.

(** Replacing the row of one primary key keeps a column unique when no
    other row holds the new value. *)
Lemma replace_keeps_unique {K : Type} (key : User -> K) (x : User) (l : list User) :
  NoDup (map user_id l) ->
  NoDup (map key l) ->
  (forall y, In y l -> user_id y <> user_id x -> key y <> key x) ->
  NoDup (map key (map (fun y => if (user_id y =? user_id x)%nat then x else y) l)).
Proof.
  induction l as [|y l IH]; intros Hids Hkeys Hother; [constructor|].
  simpl in Hids, Hkeys.
  inversion Hids as [|i ids Hi Hids']; inversion Hkeys as [|k ks Hk Hkeys']; subst.
  simpl. destruct (Nat.eqb_spec (user_id y) (user_id x)) as [E|E].
  - assert (Hsame : map (fun z => if (user_id z =? user_id x)%nat then x else z) l = l).
    { rewrite <- (map_id l) at 2. apply map_ext_in. intros z Hz.
      destruct (Nat.eqb_spec (user_id z) (user_id x)) as [E'|E']; [|reflexivity].
      exfalso. apply Hi. rewrite E, <- E'. apply in_map. exact Hz. }
    rewrite Hsame. constructor; [|exact Hkeys'].
    intros Hin. apply in_map_iff in Hin. destruct Hin as [z [Hz Hin]].
    apply (Hother z (or_intror Hin)); [|exact Hz].
    intros E'. apply Hi. rewrite E, <- E'. apply in_map. exact Hin.
  - constructor.
    + intros Hin. rewrite map_map in Hin. apply in_map_iff in Hin.
      destruct Hin as [z [Hz Hin]].
      destruct (user_id z =? user_id x)%nat.
      * apply (Hother y (or_introl eq_refl) E). symmetry. exact Hz.
      * apply Hk. rewrite <- Hz. apply in_map. exact Hin.
    + apply IH; auto. intros z Hz. apply Hother. right. exact Hz.
Qed.

(** A save that went through rewrote the rows of that primary key. *)
Lemma User_save_ok (x saved : User) (d d' : DB) :
  User_save x d = (Ok saved, d') ->
  saved = x
  /\ d' = set_users
            (map (fun y => if (user_id y =? user_id x)%nat then x else y) (users d))
            (seq_user d) d
  /\ (forall y, In y (users d) -> user_id y <> user_id x ->
                username y <> username x /\ email y <> email x).
Proof.
  unfold User_save.
  destruct (existsb (fun y => negb (user_id y =? user_id x)%nat
                              && (username y =? username x)) (users d)) eqn:Eu;
    [discriminate|].
  destruct (existsb (fun y => negb (user_id y =? user_id x)%nat
                              && (email y =? email x)) (users d)) eqn:Ee;
    [discriminate|].
  intros H. inversion H; subst. split; [reflexivity|]. split; [reflexivity|].
  intros y Hy Hne. apply Nat.eqb_neq in Hne. split; intros Hn.
  - pose proof (existsb_false_forall _ _ Eu y Hy) as Hf. simpl in Hf.
    rewrite Hne, Hn, String.eqb_refl in Hf. discriminate.
  - pose proof (existsb_false_forall _ _ Ee y Hy) as Hf. simpl in Hf.
    rewrite Hne, Hn, String.eqb_refl in Hf. discriminate.
Qed.

Lemma User_save_raise (x : User) (d d' : DB) (ex : Exn) :
  User_save x d = (Raise ex, d') -> d' = d.
Proof.
  unfold User_save.
  destruct (existsb (fun y => negb (user_id y =? user_id x)%nat
                              && (username y =? username x)) (users d));
    [intros H; inversion H; reflexivity|].
  destruct (existsb (fun y => negb (user_id y =? user_id x)%nat
                              && (email y =? email x)) (users d));
    intros H; inversion H; reflexivity.
Qed.

(** The database after a request to [me]: as before, or with the rows of
    the caller's primary key rewritten by a save that went through. *)
Lemma me_database (m : Method) (actor : option User) (request_data : Data) (d : DB) :
  let out := me UserSerializer_data UserSerializer_run m actor request_data d in
  snd out = d
  \/ exists a user updated,
       actor = Some a /\ m = PATCH
       /\ In user (users d) /\ user_id user = user_id a
       /\ User_save (keep_pk user updated) d = (Ok (keep_pk user updated), snd out)
       /\ fst out = Ok (mkResponse 200
                          (BDict (UserSerializer_data (keep_pk user updated)))).
Proof.
  cbv zeta. unfold me.
  destruct (initial [IsAuthenticated] m actor) as [[]|ex0]; [|left; reflexivity].
  destruct (existsb (Method_eqb m) UserViewSet_http_method_names
            && existsb (Method_eqb m) me_bound_methods) eqn:Hm; [|left; reflexivity].
  unfold get_or_patch_self_profile.
  destruct (get_object_or_404 (users d) (is_request_user actor)) as [user|ex] eqn:G;
    [|left; reflexivity].
  apply get_object_or_404_sound in G. destruct G as [Hin Hid].
  destruct actor as [a|]; [|discriminate]. simpl in Hid. apply Nat.eqb_eq in Hid.
  destruct (Method_eqb m GET) eqn:Hget; [left; reflexivity|].
  assert (m = PATCH) by (destruct m; simpl in *; congruence). subst m.
  destruct (UserSerializer_run d user request_data) as [updated|errors];
    [|left; reflexivity].
  destruct (User_save (keep_pk user updated) d) as [[saved|ex] d'] eqn:S.
  - right. pose proof (User_save_ok _ _ _ _ S) as [-> _].
    exists a, user, updated. simpl. auto 10.
  - left. apply User_save_raise in S. subst d'. reflexivity.
Qed.

End SelfProfileFacts.

(** X22.  The route [users/me/] answers two verbs.  Without credentials
    every verb is refused as NotAuthenticated (401).  With credentials,
    any verb other than GET and PATCH ends in MethodNotAllowed (405):
    PUT, HEAD and OPTIONS because the viewset does not allow them, POST
    and DELETE because the route does not bind them.  A GET never changes
    the database, and over unique user ids it answers 200 with the stored
    row that has the caller's id, or 404 when no row has it. *)
Theorem me_route_verbs
    (UserSerializer_data : Models.User -> Http.Data)
    (UserSerializer_run : ORM.DB -> Models.User -> Http.Data ->
                          Models.User + Http.Data)
    (m : Http.Method) (a : Models.User) (request_data : Http.Data) (d : ORM.DB) :
  let me := UserViews.me UserSerializer_data UserSerializer_run in
  me m None request_data d = (Raise NotAuthenticated, d)
  /\ (m <> Http.GET -> m <> Http.PATCH ->
      me m (Some a) request_data d = (Raise MethodNotAllowed, d))
  /\ snd (me Http.GET (Some a) request_data d) = d
  /\ (Schema.unique_user_ids d ->
      forall x, In x (ORM.users d) -> Models.user_id x = Models.user_id a ->
                me Http.GET (Some a) request_data d
                = (Ok (Http.mkResponse 200 (Http.BDict (UserSerializer_data x))), d))
  /\ ((forall x, In x (ORM.users d) -> Models.user_id x <> Models.user_id a) ->
      me Http.GET (Some a) request_data d = (Raise Http404, d)).
Proof.
  cbv zeta. split; [reflexivity|]. split; [|split; [|split]].
  - intros Hg Hp. destruct m; try reflexivity; contradiction.
  - unfold UserViews.me, UserViews.get_or_patch_self_profile. simpl.
    destruct (ORM.get_object_or_404 _ _); reflexivity.
  - intros Hids x Hin Hid.
    unfold UserViews.me, UserViews.get_or_patch_self_profile. simpl.
    rewrite (get_object_or_404_found Models.user_id _ (ORM.users d) x Hids Hin).
    + reflexivity.
    + apply Nat.eqb_eq. exact Hid.
    + intros y _ Hy. apply Nat.eqb_eq in Hy. congruence.
  - intros Hno. unfold UserViews.me, UserViews.get_or_patch_self_profile. simpl.
    rewrite get_object_or_404_missing; [reflexivity|].
    intros x Hx. apply Nat.eqb_neq. apply Hno. exact Hx.
Qed.

(** X23.  A request to [users/me/] changes at most the caller's own row.
    Whatever the verb and the payload: every stored user keeps its primary
    key and its place, a user with another id than the caller's is left
    exactly as it was, and no other table changes; unless the answer is a
    200 the database is as before.  If primary keys, usernames and emails
    were unique they still are, and foreign keys that all pointed at
    stored rows still do. *)
Theorem me_touches_own_row_only
    (UserSerializer_data : Models.User -> Http.Data)
    (UserSerializer_run : ORM.DB -> Models.User -> Http.Data ->
                          Models.User + Http.Data)
    (m : Http.Method) (a : Models.User) (request_data : Http.Data) (d : ORM.DB) :
  let out := UserViews.me UserSerializer_data UserSerializer_run m (Some a)
               request_data d in
  Forall2 (fun y y' => Models.user_id y' = Models.user_id y
                       /\ (Models.user_id y <> Models.user_id a -> y' = y))
          (ORM.users d) (ORM.users (snd out))
  /\ ORM.set_users (ORM.users d) (ORM.seq_user d) (snd out) = d
  /\ (Http.http_status (fst out) <> 200 -> snd out = d)
  /\ (Schema.users_consistent d -> Schema.users_consistent (snd out))
  /\ (Cascades.foreign_keys_ok d = true -> Cascades.foreign_keys_ok (snd out) = true).
Proof.
  cbv zeta.
  assert (Hrefl : Forall2 (fun y y' => Models.user_id y' = Models.user_id y
                             /\ (Models.user_id y <> Models.user_id a -> y' = y))
                          (ORM.users d) (ORM.users d)).
  { induction (ORM.users d); constructor; auto. }
  destruct (me_database UserSerializer_data UserSerializer_run m (Some a)
              request_data d)
    as [-> | [a' [user [updated [Ha [_ [Hin [Hid [Hsave Hresp]]]]]]]]].
  - split; [exact Hrefl|]. split; [apply set_users_same|]. auto.
  - inversion Ha; subst a'. clear Ha.
    destruct (User_save_ok _ _ _ _ Hsave) as [_ [Hd' Hother]].
    set (x := UserViews.keep_pk user updated) in *.
    assert (Hx : Models.user_id x = Models.user_id a) by exact Hid.
    clearbody x. rewrite Hd'. simpl.
    assert (Hkeys : map Models.user_id
                      (map (fun y => if (Models.user_id y =? Models.user_id x)%nat
                                     then x else y) (ORM.users d))
                    = map Models.user_id (ORM.users d)).
    { rewrite map_map. apply map_ext. intros y.
      destruct (Nat.eqb_spec (Models.user_id y) (Models.user_id x)); congruence. }
    split; [|split; [|split; [|split]]].
    + clear Hin Hother Hkeys Hrefl Hsave Hresp Hd'.
      induction (ORM.users d) as [|y l IH]; simpl; constructor; [|exact IH].
      destruct (Nat.eqb_spec (Models.user_id y) (Models.user_id x)) as [E|E].
      * split; [congruence|]. intros Hne. congruence.
      * auto.
    + destruct d; reflexivity.
    + rewrite Hresp. simpl. intros H. contradiction.
    + intros [Hids [Hiss [Hnames Hmails]]].
      unfold Schema.users_consistent, Schema.unique_user_ids, Schema.user_ids_issued,
        Invariants.unique_usernames, Schema.unique_emails in *. simpl.
      split; [rewrite Hkeys; exact Hids|]. split; [|split].
      * apply Forall_forall. intros y' Hy'. apply in_map_iff in Hy'.
        destruct Hy' as [y [<- Hy]]. rewrite Forall_forall in Hiss.
        pose proof (Hiss y Hy) as H1. pose proof (Hiss user Hin) as H2.
        destruct (Models.user_id y =? Models.user_id x)%nat;
          [rewrite Hx, <- Hid; exact H2 | exact H1].
      * apply replace_keeps_unique; auto.
        intros y Hy Hne. apply (Hother y Hy Hne).
      * apply replace_keeps_unique; auto.
        intros y Hy Hne. apply (Hother y Hy Hne).
    + intros Hfk. apply foreign_keys_ok_iff in Hfk.
      destruct Hfk as [Ht [Hg [Hr Hc]]].
      assert (Hhas : forall k,
                 Cascades.has_key Models.user_id (ORM.users d) k = true ->
                 Cascades.has_key Models.user_id
                   (map (fun y => if (Models.user_id y =? Models.user_id x)%nat
                                  then x else y) (ORM.users d)) k = true).
      { intros k Hk. apply has_key_map; [exact Hk|].
        intros y _. destruct (Nat.eqb_spec (Models.user_id y) (Models.user_id x));
          congruence. }
      apply foreign_keys_ok_iff. simpl. repeat split; auto.
      * intros r Hr'. specialize (Hr r Hr'). unfold Cascades.review_refs_ok in *.
        simpl. apply andb_true_iff in Hr. destruct Hr as [H1 H2].
        rewrite H1. simpl. apply Hhas. exact H2.
      * intros c Hc'. specialize (Hc c Hc'). unfold Cascades.comment_refs_ok in *.
        simpl. apply andb_true_iff in Hc. destruct Hc as [H1 H2].
        rewrite H1. simpl. apply Hhas. exact H2.
Qed.

Example me_patch_rewrites_own_row :
  let ann := Models.new_user 1 "ann" "ann@x.com" in
  let bob := Models.new_user 2 "bob" "bob@x.com" in
  let d := ORM.set_users [ann; bob] 3 ORM.empty_db in
  let data := fun u : Models.User => [("username", Models.username u);
                                      ("bio", Models.bio u)] in
  let run := fun (_ : ORM.DB) (u : Models.User) (body : Http.Data) =>
               match Http.data_get "bio" body with
               | Some b =>
                   inl (Models.mkUser 99 (Models.username u) (Models.email u)
                          (Models.role u) (Models.is_superuser u)
                          (Models.is_staff u) (Models.first_name u)
                          (Models.last_name u) b (Models.confirmation_code u))
               | None => inr [("bio", "required")]
               end in
  let out := UserViews.me data run Http.PATCH (Some ann) [("bio", "reader")] d in
  fst out = Ok (Http.mkResponse 200 (Http.BDict [("username", "ann");
                                                  ("bio", "reader")]))
  /\ map Models.user_id (ORM.users (snd out)) = [1; 2]
  /\ map Models.bio (ORM.users (snd out)) = ["reader"; EmptyString]
  /\ Http.http_status (fst (UserViews.me data run Http.PATCH (Some ann) [] d)) = 400.
Proof. vm_compute. repeat split. Qed.

(** ** Reviews: who may create the first one *)

Section FirstReview.
Import Models ORM Http Permissions ContentViews Invariants.

Lemma no_user_named (d : DB) (a : User) :
  (forall x, In x (users d) -> username x <> username a) ->
  get_object_or_404 (users d)
    (fun x => username x =? request_username (Some a)) = Raise Http404.
Proof.
  intros H. apply get_object_or_404_missing.
  intros x Hx. apply String.eqb_neq. apply H. exact Hx.
Qed.

Lemma Review_objects_create_first
    (now author title : nat) (text : string) (sc : Z) (d : DB) :
  (forall r, In r (reviews d) ->
             ~ (review_title r = title /\ review_author r = author)) ->
  Review_objects_create now author title text sc d
  = (Ok (mkReview (seq_review d) author text now title sc),
     set_reviews (reviews d ++ [mkReview (seq_review d) author text now title sc])
                 (S (seq_review d)) d).
Proof.
  intros Hfirst. unfold Review_objects_create.
  rewrite existsb_false_intro; [reflexivity|].
  intros r Hr. unfold unique_author_review. simpl.
  destruct (Nat.eqb_spec title (review_title r)) as [E1|E1]; [|reflexivity].
  destruct (Nat.eqb_spec author (review_author r)) as [E2|E2]; [|reflexivity].
  exfalso. apply (Hfirst r Hr). auto.
Qed.

End FirstReview.

(** X24.  The author of a new review is looked up by username.  When the
    serializer accepts the payload and the title of the URL is stored:
    if no stored user has the actor's username the create is a 404 and
    stores nothing; if a stored user has it and has not reviewed this
    title, the create succeeds with a 201 and appends the review under
    that user's id, whatever that user has reviewed elsewhere. *)
Theorem review_create_by_username
    (validate : Http.Method -> option Models.User -> nat -> ORM.DB ->
                ContentViews.ReviewData -> bool)
    (now : nat) (a : Models.User) (t : Models.Title)
    (text : string) (sc : Z) (d : ORM.DB) :
  let p := ContentViews.mkReviewData (Some text) (Some sc) in
  let out := ContentViews.ReviewViewSet_create validate now (Some a)
               (Models.title_id t) p d in
  Invariants.unique_title_ids d ->
  In t (ORM.titles d) ->
  ContentViews.ReviewSerializer_is_valid validate false Http.POST (Some a)
    (Models.title_id t) d p = Ok p ->
  ((forall x, In x (ORM.users d) -> Models.username x <> Models.username a) ->
   out = (Raise Http404, d))
  /\ (forall u,
         Invariants.unique_usernames d ->
         In u (ORM.users d) ->
         Models.username u = Models.username a ->
         (forall r, In r (ORM.reviews d) ->
                    ~ (Models.review_title r = Models.title_id t
                       /\ Models.review_author r = Models.user_id u)) ->
         out = (Ok (Http.mkResponse 201
                      (Http.BReview
                         (Models.mkReview (ORM.seq_review d) (Models.user_id u)
                            text now (Models.title_id t) sc))),
                ORM.set_reviews
                  (ORM.reviews d
                   ++ [Models.mkReview (ORM.seq_review d) (Models.user_id u)
                         text now (Models.title_id t) sc])
                  (S (ORM.seq_review d)) d)).
Proof.
  cbv zeta. intros Htitles Ht Hvalid.
  unfold ContentViews.ReviewViewSet_create.
  rewrite author_passes_initial, Hvalid. simpl.
  unfold ContentViews.ReviewViewSet_perform_create.
  rewrite (title_found d t Htitles Ht). split.
  - intros Hno. rewrite (no_user_named d a Hno). reflexivity.
  - intros u Husers Hu Hname Hfirst.
    replace (ORM.get_object_or_404 (ORM.users d) _) with (Ok u).
    + rewrite (Review_objects_create_first now _ _ text sc d Hfirst). reflexivity.
    + symmetry. apply (get_object_or_404_found Models.username); auto.
      * apply String.eqb_eq. exact Hname.
      * intros y _ Hy. apply String.eqb_eq in Hy. simpl in Hy. congruence.
Qed.

Lemma review_create_by_username_witness :
  let ann := Models.new_user 1 "ann" "ann@x.com" in
  let emma := Models.mkTitle 2 "Emma" 1815 None None in
  let d := ORM.set_reviews [Models.mkReview 1 1 "good" 0 1 7] 2
             (ORM.set_titles [Models.mkTitle 1 "Dune" 1965 None None; emma]
                (ORM.set_users [ann] 2 ORM.empty_db)) in
  let accept := fun (_ : Http.Method) (_ : option Models.User) (_ : nat)
                    (_ : ORM.DB) (_ : ContentViews.ReviewData) => true in
  ContentViews.ReviewViewSet_create accept 5
    (Some (Models.new_user 9 "zed" "zed@x.com")) 2
    (ContentViews.mkReviewData (Some "fine") (Some 6%Z)) d
  = (Raise Http404, d)
  /\ ContentViews.ReviewViewSet_create accept 5 (Some ann) 2
       (ContentViews.mkReviewData (Some "fine") (Some 6%Z)) d
     = (Ok (Http.mkResponse 201 (Http.BReview (Models.mkReview 2 1 "fine" 5 2 6))),
        ORM.set_reviews [Models.mkReview 1 1 "good" 0 1 7;
                         Models.mkReview 2 1 "fine" 5 2 6] 3 d).
Proof.
  intros ann emma d accept.
  assert (Htitles : Invariants.unique_title_ids d)
    by (repeat constructor; simpl; intuition discriminate).
  assert (Hemma : In emma (ORM.titles d)) by (right; left; reflexivity).
  split.
  - apply (proj1 (review_create_by_username accept 5
                    (Models.new_user 9 "zed" "zed@x.com") emma "fine" 6%Z d
                    Htitles Hemma eq_refl)).
    intros x [<- | []]. discriminate.
  - apply (proj2 (review_create_by_username accept 5 ann emma "fine" 6%Z d
                    Htitles Hemma eq_refl) ann).
    + repeat constructor. intros [].
    + left. reflexivity.
    + reflexivity.
    + intros r [<- | []] [H _]. discriminate.
Defined.
